(** * urwid/wimp.py: CheckBox, RadioButton and Button

    A shallow embedding of the widget classes of [urwid/wimp.py] and the
    properties of their state machine: validation and commit order of
    [set_state], the toggle cycle, the exclusivity of a radio-button
    group, and the activation of a [Button].

    Objects live in a store and are referred to by their index
    (the index plays the role of Python's object identity).  Methods are
    computations in a state-and-exception monad over that store.  The
    calls that leave the module ([_emit], [on_press]) are recorded, in
    order, in a trace; a 'change' emission records the controls as they
    are at the moment of the call, which is what a callback reading the
    control would see.

    The callbacks are application code.  In the main development they
    are observers: they read the controls and do not call their methods.
    The module [Reentrant] at the end of the definitions binds the same
    methods to an [_emit] that runs callbacks which call [set_state]
    themselves or raise; with callbacks that make no call and raise
    nothing the two coincide. *)

From Stdlib Require Import ZArith String List Bool Lia.
From stdpp Require Import base tactics option list.
Import ListNotations.

Local Open Scope string_scope.
Local Open Scope list_scope.

(** ** Python values *)

(** The values a caller can pass as [state] or [user_data]: [None], the
    booleans, ints and strings. *)
Inductive pyval : Type :=
| PyNone
| PyBool (b : bool)
| PyInt (n : Z)
| PyStr (s : string).

Definition bool_as_int (b : bool) : Z := if b then 1%Z else 0%Z.

(** Python's [==]: [bool] is a subclass of [int], so [True == 1]. *)
Definition py_eq (a b : pyval) : bool :=
  match a, b with
  | PyNone, PyNone => true
  | PyBool x, PyBool y => Bool.eqb x y
  | PyBool x, PyInt n => Z.eqb (bool_as_int x) n
  | PyInt n, PyBool y => Z.eqb n (bool_as_int y)
  | PyInt n, PyInt m => Z.eqb n m
  | PyStr s, PyStr t => String.eqb s t
  | _, _ => false
  end.

(** Truth value, as tested by [if x:] and [not x]. *)
Definition truthy (v : pyval) : bool :=
  match v with
  | PyNone => false
  | PyBool b => b
  | PyInt n => negb (Z.eqb n 0)
  | PyStr s => negb (String.eqb s "")
  end.

(** [x is None] and [x is True]: identity with the two singletons. *)
Definition is_None (v : pyval) : bool :=
  match v with PyNone => true | _ => false end.

Definition is_True (v : pyval) : bool :=
  match v with PyBool true => true | _ => false end.

Definition mixed : pyval := PyStr "mixed".
Definition first_True : pyval := PyStr "first True".

(** ** Widgets *)

Definition markup := string.
Definition callback := nat.

Record SelectableIcon := { text : string }.

(** A dict with the keys in the order of the source; [in] and [[]]
    compare keys with [==]. *)
Definition dict (V : Type) := list (pyval * V).

Fixpoint dict_get {V} (d : dict V) (k : pyval) : option V :=
  match d with
  | [] => None
  | (k', v) :: d' => if py_eq k' k then Some v else dict_get d' k
  end.

Definition dict_in {V} (k : pyval) (d : dict V) : bool :=
  match dict_get d k with Some _ => true | None => false end.

Inductive Klass := CheckBoxK | RadioButtonK.

(** The class attributes [states] and [reserve_columns]. *)
Definition states (k : Klass) : dict SelectableIcon :=
  match k with
  | CheckBoxK =>
      [ (PyBool true, {| text := "[X]" |});
        (PyBool false, {| text := "[ ]" |});
        (mixed, {| text := "[#]" |}) ]
  | RadioButtonK =>
      [ (PyBool true, {| text := "(X)" |});
        (PyBool false, {| text := "( )" |});
        (mixed, {| text := "(#)" |}) ]
  end.

Definition reserve_columns (k : Klass) : Z := 4%Z.

(** What [Columns([...])] is given: fixed-width items and flow items. The
    label of a check box is the control's own [_label] object, shared by
    reference with the composition. *)
Inductive column :=
| fixed (width : Z) (content : string)
| own_label
| fresh_text (m : markup).

Record Columns := {
  widget_list : list column;
  dividechars : Z;
  focus_col : option Z
}.

(** An instance of [CheckBox] or of its subclass [RadioButton]. *)
Record CheckBox := {
  klass : Klass;
  w : option Columns;
  _label : markup;
  has_mixed : bool;
  _state : pyval;
  group : option nat;
  handlers : list (callback * pyval);
  invalidations : nat
}.

Record Button := {
  button_w : option Columns;
  label : markup;
  on_press : option callback;
  user_data : pyval;
  button_invalidations : nat
}.

(** Calls that leave the module. *)
Inductive Event :=
| Change (emitter : nat) (state : pyval) (seen : list CheckBox)
| Press (f : callback) (self : nat) (data : option pyval).

(** The store: the toggle controls and buttons by identity, the Python
    lists used as radio groups, the number of [Columns] objects built so
    far, and the trace. *)
Record World := {
  toggles : list CheckBox;
  buttons : list Button;
  groups : list (list nat);
  built : nat;
  trace : list Event
}.

Definition empty_world : World :=
  {| toggles := []; buttons := []; groups := []; built := 0; trace := [] |}.

(** ** The monad *)

Inductive exn :=
| CheckBoxError (self : nat) (state : pyval)
| AttributeError
| CallbackError
| KeyError
| RecursionLimit
| Dangling.

Inductive Outcome (A : Type) :=
| Ok (a : A)
| Raise (e : exn).
Arguments Ok {A} a.
Arguments Raise {A} e.

Definition M (A : Type) : Type := World -> Outcome A * World.

#[export] Instance M_ret : MRet M := fun A a w => (Ok a, w).

#[export] Instance M_bind : MBind M := fun A B k m w =>
  match m w with
  | (Ok a, w') => k a w'
  | (Raise e, w') => (Raise e, w')
  end.

Definition raise {A} (e : exn) : M A := fun w => (Raise e, w).

Definition get_toggle (i : nat) : M CheckBox := fun wd =>
  match toggles wd !! i with
  | Some t => (Ok t, wd)
  | None => (Raise Dangling, wd)
  end.

Definition get_group (g : nat) : M (list nat) := fun wd =>
  match groups wd !! g with
  | Some ms => (Ok ms, wd)
  | None => (Raise Dangling, wd)
  end.

Definition get_button (i : nat) : M Button := fun wd =>
  match buttons wd !! i with
  | Some b => (Ok b, wd)
  | None => (Raise Dangling, wd)
  end.

Definition set_toggles (ts : list CheckBox) (wd : World) : World :=
  {| toggles := ts; buttons := buttons wd; groups := groups wd;
     built := built wd; trace := trace wd |}.

Definition modify_toggle (i : nat) (f : CheckBox -> CheckBox) : M unit :=
  fun wd =>
    match toggles wd !! i with
    | Some t => (Ok tt, set_toggles (<[i := f t]> (toggles wd)) wd)
    | None => (Raise Dangling, wd)
    end.

Definition log (e : Event) : M unit := fun wd =>
  (Ok tt, {| toggles := toggles wd; buttons := buttons wd;
             groups := groups wd; built := built wd;
             trace := trace wd ++ [e] |}).

(** [Columns(...)]: one more composition object exists. *)
Definition new_Columns (l : list column) (d : Z) : M Columns := fun wd =>
  (Ok {| widget_list := l; dividechars := d; focus_col := None |},
   {| toggles := toggles wd; buttons := buttons wd; groups := groups wd;
      built := S (built wd); trace := trace wd |}).

Fixpoint for_each {A} (l : list A) (body : A -> M unit) : M unit :=
  match l with
  | [] => mret tt
  | x :: l' => body x ;; for_each l' body
  end.

(** Updates of one field of the object, with no other effect.  (The
    assignment [self.w = c] is [set_w] below.) *)
Definition with_w (c : option Columns) (t : CheckBox) : CheckBox :=
  {| klass := klass t; w := c; _label := _label t; has_mixed := has_mixed t;
     _state := _state t; group := group t; handlers := handlers t;
     invalidations := invalidations t |}.

Definition with_label (m : markup) (t : CheckBox) : CheckBox :=
  {| klass := klass t; w := w t; _label := m; has_mixed := has_mixed t;
     _state := _state t; group := group t; handlers := handlers t;
     invalidations := invalidations t |}.

Definition with_has_mixed (b : bool) (t : CheckBox) : CheckBox :=
  {| klass := klass t; w := w t; _label := _label t; has_mixed := b;
     _state := _state t; group := group t; handlers := handlers t;
     invalidations := invalidations t |}.

Definition with_state (v : pyval) (t : CheckBox) : CheckBox :=
  {| klass := klass t; w := w t; _label := _label t; has_mixed := has_mixed t;
     _state := v; group := group t; handlers := handlers t;
     invalidations := invalidations t |}.

Definition with_handlers (h : list (callback * pyval)) (t : CheckBox) : CheckBox :=
  {| klass := klass t; w := w t; _label := _label t; has_mixed := has_mixed t;
     _state := _state t; group := group t; handlers := h;
     invalidations := invalidations t |}.

Definition with_focus_col (c : Z) (t : CheckBox) : CheckBox :=
  with_w (option_map (fun cols =>
            {| widget_list := widget_list cols; dividechars := dividechars cols;
               focus_col := Some c |}) (w t)) t.

(** [self._invalidate()] *)
Definition _invalidate (t : CheckBox) : CheckBox :=
  {| klass := klass t; w := w t; _label := _label t; has_mixed := has_mixed t;
     _state := _state t; group := group t; handlers := handlers t;
     invalidations := S (invalidations t) |}.

(** Modelled from the spec: the attribute [w] of [WidgetWrap] is a
    property defined outside this module.  Assigning it stores the widget
    and invalidates the wrapper (the comment in [set_label] relies on
    that); [WidgetWrap.__init__] stores its argument without the
    property. *)
Definition set_w (c : option Columns) (t : CheckBox) : CheckBox :=
  _invalidate (with_w c t).

Definition with_group (g : option nat) (t : CheckBox) : CheckBox :=
  {| klass := klass t; w := w t; _label := _label t; has_mixed := has_mixed t;
     _state := _state t; group := g; handlers := handlers t;
     invalidations := invalidations t |}.

Definition set_group (g : nat) (ms : list nat) : M unit := fun wd =>
  (Ok tt, {| toggles := toggles wd; buttons := buttons wd;
             groups := <[g := ms]> (groups wd); built := built wd;
             trace := trace wd |}).

(** ** Signals *)

(** Modelled from the spec: [connect_signal] is defined outside this
    module.  It registers the callback with its user data for the
    emitter's 'change' signal; it never fails and keeps duplicates, in
    registration order. *)
Definition connect_signal (self : nat) (f : callback) (data : pyval) : M unit :=
  modify_toggle self (fun t => with_handlers (handlers t ++ [(f, data)]) t).

(** Modelled from the spec: an emission invokes every callback registered
    at that moment, in registration order, with the emitter, the new
    state and the callback's user data when there is one. *)
Definition deliveries (e : Event) : list (callback * nat * pyval * option pyval) :=
  match e with
  | Change emitter state seen =>
      match seen !! emitter with
      | Some t =>
          map (fun h : callback * pyval =>
                 (fst h, emitter, state,
                  if is_None (snd h) then None else Some (snd h)))
              (handlers t)
      | None => []
      end
  | Press _ _ _ => []
  end.

(** ** Helpers of the methods *)

(** Modelled from the spec: [repr(self)] is [Widget.__repr__], defined
    outside this module.  It asks the wrapped widget [self.w] whether it
    is selectable, which raises [AttributeError] while [self.w] is
    [None]; the text it returns only goes into the message of the
    exception. *)
Definition repr (self : nat) : M unit := fun wd =>
  match toggles wd !! self with
  | Some t =>
      match w t with
      | Some _ => (Ok tt, wd)
      | None => (Raise AttributeError, wd)
      end
  | None => (Raise Dangling, wd)
  end.

Definition set_label (self : nat) (m : markup) : M unit :=
  modify_toggle self (with_label m).

Definition get_label (self : nat) : M markup :=
  t ← get_toggle self; mret (_label t).

Definition get_state (self : nat) : M pyval :=
  t ← get_toggle self; mret (_state t).

(** The body of the loop over the group of a radio button; [set_state] is
    the method as the class of [cb] resolves it. *)
Definition clear_other (set_state : nat -> pyval -> bool -> M unit)
    (self cb : nat) : M unit :=
  if Nat.eqb cb self then mret tt
  else
    c ← get_toggle cb;
    if truthy (_state c) then set_state cb (PyBool false) true
    else mret tt.

Definition blank (k : Klass) : CheckBox :=
  {| klass := k; w := None; _label := ""; has_mixed := false;
     _state := PyNone; group := None; handlers := []; invalidations := 0 |}.

Definition alloc_toggle (k : Klass) : M nat := fun wd =>
  (Ok (length (toggles wd)), set_toggles (toggles wd ++ [blank k]) wd).

Definition is_empty (ms : list nat) : bool :=
  match ms with [] => true | _ => false end.

(** [bgroup = []] *)
Definition new_list : M nat := fun wd =>
  (Ok (length (groups wd)),
   {| toggles := toggles wd; buttons := buttons wd;
      groups := groups wd ++ [[]]; built := built wd; trace := trace wd |}).


(** ** Button *)

Definition button_left : string := "<".
Definition button_right : string := ">".

Definition modify_button (i : nat) (f : Button -> Button) : M unit :=
  fun wd =>
    match buttons wd !! i with
    | Some b =>
        (Ok tt, {| toggles := toggles wd; buttons := <[i := f b]> (buttons wd);
                   groups := groups wd; built := built wd; trace := trace wd |})
    | None => (Raise Dangling, wd)
    end.

Definition blank_button : Button :=
  {| button_w := None; label := ""; on_press := None; user_data := PyNone;
     button_invalidations := 0 |}.

Definition alloc_button : M nat := fun wd =>
  (Ok (length (buttons wd)),
   {| toggles := toggles wd; buttons := buttons wd ++ [blank_button];
      groups := groups wd; built := built wd; trace := trace wd |}).

(** The assignment of [self.w] invalidates the widget (see [set_w]), and
    so does the explicit call that follows. *)
Definition Button_set_label (self : nat) (lbl : markup) : M unit :=
  modify_button self (fun b =>
    {| button_w := button_w b; label := lbl; on_press := on_press b;
       user_data := user_data b;
       button_invalidations := button_invalidations b |}) ;;
  c ← new_Columns [fixed 1 button_left; fresh_text lbl; fixed 1 button_right] 1;
  modify_button self (fun b =>
    {| button_w := Some c; label := label b; on_press := on_press b;
       user_data := user_data b;
       button_invalidations := S (button_invalidations b) |}) ;;
  modify_button self (fun b =>
    {| button_w := button_w b; label := label b; on_press := on_press b;
       user_data := user_data b;
       button_invalidations := S (button_invalidations b) |}).

Definition Button_get_label (self : nat) : M markup :=
  b ← get_button self; mret (label b).

Definition Button__init__ (self : nat) (lbl : markup)
    (press : option callback) (data : pyval) : M unit :=
  modify_button self (fun b =>
    {| button_w := None; label := label b; on_press := on_press b;
       user_data := user_data b;
       button_invalidations := button_invalidations b |}) ;;
  Button_set_label self lbl ;;
  modify_button self (fun b =>
    {| button_w := button_w b; label := label b; on_press := press;
       user_data := user_data b;
       button_invalidations := button_invalidations b |}) ;;
  modify_button self (fun b =>
    {| button_w := button_w b; label := label b; on_press := on_press b;
       user_data := data;
       button_invalidations := button_invalidations b |}).

Definition new_Button (lbl : markup) (press : option callback) (data : pyval)
  : M nat :=
  self ← alloc_button;
  Button__init__ self lbl press data ;;
  mret self.

(** [key in (' ', 'enter')] *)
Definition activation_key (key : string) : bool :=
  String.eqb " " key || String.eqb "enter" key.

(** The result is the key handed back, or [None] when it was consumed. *)
Definition Button_keypress (self : nat) (size : Z) (key : string)
  : M (option string) :=
  if negb (activation_key key) then mret (Some key)
  else
    b ← get_button self;
    match on_press b with
    | Some f =>
        (if is_None (user_data b) then log (Press f self None)
         else log (Press f self (Some (user_data b)))) ;;
        mret None
    | None => mret None
    end.

(** ** Input handlers of Button *)

Section Pointer.

(** The pointer-event classifier is imported from another module. *)
Variable is_mouse_press : string -> bool.

Definition Button_mouse_event (self : nat) (size : Z) (event : string)
    (button : Z) (x y : Z) (focus : bool) : M bool :=
  if negb (Z.eqb button 1) || negb (is_mouse_press event) then mret false
  else
    b ← get_button self;
    match on_press b with
    | Some f => log (Press f self None) ;; mret true
    | None => mret false
    end.

End Pointer.

(** ** Programs against the module *)

(** What application code can do with the widgets.  A raised exception
    ends the operation; the program goes on with the store as the
    operation left it.  A list used as a group is made empty, and it is
    the constructor of [RadioButton] that appends to it. *)
Inductive Op :=
| NewList
| NewCheckBox (lbl : markup) (state : pyval) (mixed_ok : bool)
    (on_state_change : option callback) (data : pyval)
| NewRadioButton (g : nat) (lbl : markup) (state : pyval)
    (on_state_change : option callback) (data : pyval)
| NewButton (lbl : markup) (press : option callback) (data : pyval)
| ConnectSignal (self : nat) (f : callback) (data : pyval)
| SetState (self : nat) (state : pyval) (do_callback : bool)
| SetLabel (self : nat) (lbl : markup)
| ToggleState (self : nat)
| KeyPress (self : nat) (size : Z) (key : string)
| MouseEvent (self : nat) (size : Z) (event : string) (button : Z)
    (x y : Z) (focus : bool)
| ButtonSetLabel (self : nat) (lbl : markup)
| ButtonKeyPress (self : nat) (size : Z) (key : string)
| ButtonMouseEvent (self : nat) (size : Z) (event : string) (button : Z)
    (x y : Z) (focus : bool).


(** ** CheckBox and RadioButton *)

(** The methods that emit the signal or call [self.set_state], written
    once: what [_emit] does with the callbacks, and which method
    [set_state] resolves to, is bound below. *)
Module Methods.
Section Bound.

Variable emit : nat -> pyval -> M unit.
Variable set_state : nat -> pyval -> bool -> M unit.

(** The key-to-command table and the pointer-event classifier are
    imported from other modules. *)
Variable command_map : string -> string.
Variable is_mouse_press : string -> bool.

Definition CheckBox_set_state (self : nat) (state : pyval) (do_callback : bool)
  : M unit :=
  t ← get_toggle self;
  if py_eq (_state t) state then mret tt
  else if negb (dict_in state (states (klass t))) then
    repr self ;; raise (CheckBoxError self state)
  else
    (if do_callback && negb (is_None (_state t))
     then emit self state else mret tt) ;;
    modify_toggle self (with_state state) ;;
    icon ← match dict_get (states (klass t)) state with
           | Some i => mret i
           | None => raise KeyError
           end;
    c ← new_Columns [fixed (reserve_columns (klass t)) (text icon); own_label] 0;
    modify_toggle self (set_w (Some c)) ;;
    modify_toggle self (with_focus_col 0).

(** The [group] attribute is read before the commit, which does not
    change it. *)
Definition RadioButton_set_state (self : nat) (state : pyval)
    (do_callback : bool) : M unit :=
  t ← get_toggle self;
  if py_eq (_state t) state then mret tt
  else
    CheckBox_set_state self state do_callback ;;
    if negb (is_True state) then mret tt
    else
      g ← match group t with Some g => mret g | None => raise Dangling end;
      ms ← get_group g;
      for_each ms (clear_other set_state self).

Definition CheckBox_toggle_state (self : nat) : M unit :=
  t ← get_toggle self;
  (if py_eq (_state t) (PyBool false) then set_state self (PyBool true) true
   else if py_eq (_state t) (PyBool true) then
     if has_mixed t then set_state self mixed true
     else set_state self (PyBool false) true
   else if py_eq (_state t) mixed then set_state self (PyBool false) true
   else mret tt) ;;
  modify_toggle self _invalidate.

Definition RadioButton_toggle_state (self : nat) : M unit :=
  set_state self (PyBool true) true.

Definition toggle_state (self : nat) : M unit :=
  t ← get_toggle self;
  match klass t with
  | CheckBoxK => CheckBox_toggle_state self
  | RadioButtonK => RadioButton_toggle_state self
  end.

Definition keypress (self : nat) (size : Z) (key : string)
  : M (option string) :=
  if negb (String.eqb (command_map key) "activate") then mret (Some key)
  else toggle_state self ;; mret None.

Definition mouse_event (self : nat) (size : Z) (event : string) (button : Z)
    (x y : Z) (focus : bool) : M bool :=
  if negb (Z.eqb button 1) || negb (is_mouse_press event) then mret false
  else toggle_state self ;; mret true.

Definition CheckBox__init__ (self : nat) (lbl : markup) (state : pyval)
    (mixed_ok : bool) (on_state_change : option callback) (data : pyval)
  : M unit :=
  modify_toggle self (with_w None) ;;
  modify_toggle self (with_label "") ;;
  modify_toggle self (with_has_mixed mixed_ok) ;;
  modify_toggle self (with_state PyNone) ;;
  match on_state_change with
  | Some f => connect_signal self f data
  | None => mret tt
  end ;;
  set_label self lbl ;;
  set_state self state true.

Definition new_CheckBox (lbl : markup) (state : pyval) (mixed_ok : bool)
    (on_state_change : option callback) (data : pyval) : M nat :=
  self ← alloc_toggle CheckBoxK;
  CheckBox__init__ self lbl state mixed_ok on_state_change data ;;
  mret self.

Definition RadioButton__init__ (self : nat) (g : nat) (lbl : markup)
    (state : pyval) (on_state_change : option callback) (data : pyval)
  : M unit :=
  state' ← (if py_eq state first_True
            then ms ← get_group g; mret (PyBool (is_empty ms))
            else mret state);
  modify_toggle self (with_group (Some g)) ;;
  CheckBox__init__ self lbl state' false on_state_change data ;;
  ms ← get_group g;
  set_group g (ms ++ [self]).

(** The caller holds the list it passes as [group]: the argument is looked
    up before the object is made. *)
Definition new_RadioButton (g : nat) (lbl : markup) (state : pyval)
    (on_state_change : option callback) (data : pyval) : M nat :=
  get_group g ;;
  self ← alloc_toggle RadioButtonK;
  RadioButton__init__ self g lbl state on_state_change data ;;
  mret self.

Definition step (o : Op) (wd : World) : World :=
  match o with
  | NewList => snd (new_list wd)
  | NewCheckBox l s m f d => snd (new_CheckBox l s m f d wd)
  | NewRadioButton g l s f d => snd (new_RadioButton g l s f d wd)
  | NewButton l f d => snd (new_Button l f d wd)
  | ConnectSignal i f d => snd (connect_signal i f d wd)
  | SetState i s c => snd (set_state i s c wd)
  | SetLabel i l => snd (set_label i l wd)
  | ToggleState i => snd (toggle_state i wd)
  | KeyPress i sz k => snd (keypress i sz k wd)
  | MouseEvent i sz e b x y f => snd (mouse_event i sz e b x y f wd)
  | ButtonSetLabel i l => snd (Button_set_label i l wd)
  | ButtonKeyPress i sz k => snd (Button_keypress i sz k wd)
  | ButtonMouseEvent i sz e b x y f =>
      snd (Button_mouse_event is_mouse_press i sz e b x y f wd)
  end.

Fixpoint run (ops : list Op) (wd : World) : World :=
  match ops with
  | [] => wd
  | o :: ops' => run ops' (step o wd)
  end.

End Bound.
End Methods.

(** ** Callbacks that only observe *)

(** Modelled from the spec: [_emit] is defined outside this module.  The
    emission is recorded together with the controls as they are when it
    happens.  The callbacks it reaches ([deliveries]) read the controls;
    they do not call their methods. *)
Definition _emit (self : nat) (state : pyval) : M unit := fun wd =>
  log (Change self state (toggles wd)) wd.

Definition CheckBox_set_state : nat -> pyval -> bool -> M unit :=
  Methods.CheckBox_set_state _emit.

Definition RadioButton_set_state (set_state : nat -> pyval -> bool -> M unit)
  : nat -> pyval -> bool -> M unit :=
  Methods.RadioButton_set_state _emit set_state.

(** Method resolution on the class of [self]; [depth] bounds the nesting
    of calls. *)
Fixpoint call_set_state (depth : nat) (self : nat) (state : pyval)
    (do_callback : bool) : M unit :=
  match depth with
  | O => raise RecursionLimit
  | S d =>
      t ← get_toggle self;
      match klass t with
      | CheckBoxK => CheckBox_set_state self state do_callback
      | RadioButtonK =>
          RadioButton_set_state (call_set_state d) self state do_callback
      end
  end.

Definition call_depth : nat := 2.

Definition set_state : nat -> pyval -> bool -> M unit :=
  call_set_state call_depth.

Definition CheckBox_toggle_state := Methods.CheckBox_toggle_state set_state.
Definition RadioButton_toggle_state := Methods.RadioButton_toggle_state set_state.
Definition toggle_state := Methods.toggle_state set_state.
Definition keypress := Methods.keypress set_state.
Definition mouse_event := Methods.mouse_event set_state.
Definition CheckBox__init__ := Methods.CheckBox__init__ set_state.
Definition new_CheckBox := Methods.new_CheckBox set_state.
Definition RadioButton__init__ := Methods.RadioButton__init__ set_state.
Definition new_RadioButton := Methods.new_RadioButton set_state.
Definition step := Methods.step set_state.
Definition run := Methods.run set_state.

(** A table and a classifier to run examples with: space and enter
    activate, an event is a press when its name says so. *)
Definition sample_command_map (key : string) : string :=
  if activation_key key then "activate" else key.

Definition sample_is_mouse_press (event : string) : bool :=
  String.eqb event "mouse press".

(** ** Observations *)

Definition state_of (wd : World) (i : nat) : option pyval :=
  _state <$> toggles wd !! i.

(** The members of the list [g] whose state is the object [True]
    ([state is True]); a number equal to [True] does not count here, see
    [selected_eq]. *)
Definition holds_True (ts : list CheckBox) (i : nat) : bool :=
  match ts !! i with
  | Some t => is_True (_state t)
  | None => false
  end.

Definition members (wd : World) (g : nat) : list nat :=
  default [] (groups wd !! g).

Definition selected (wd : World) (g : nat) : list nat :=
  filter (fun i => holds_True (toggles wd) i = true) (members wd g).

(** [state in self.states], for either class. *)
Definition valid_state (v : pyval) : bool := dict_in v (states CheckBoxK).

Definition emitter_of (e : Event) : option nat :=
  match e with
  | Change i _ _ => Some i
  | Press _ _ _ => None
  end.

(** ** What a committed transition leaves behind *)

(** The control after [set_state] went through: the new state and a new
    composition showing [icon], focus on the glyph column. *)
Definition committed (state : pyval) (icon : SelectableIcon) (t : CheckBox)
  : CheckBox :=
  with_focus_col 0
    (set_w (Some {| widget_list :=
                      [fixed (reserve_columns (klass t)) (text icon); own_label];
                    dividechars := 0; focus_col := None |})
       (with_state state t)).

(** The exception a value that is not a key of [states] is rejected
    with: [CheckBoxError], unless building its message fails because the
    control has no composition yet. *)
Definition rejection (self : nat) (state : pyval) (t : CheckBox) : exn :=
  match w t with
  | Some _ => CheckBoxError self state
  | None => AttributeError
  end.

(** The emission [CheckBox.set_state] makes, if any. *)
Definition announced (self : nat) (state : pyval) (do_callback : bool)
    (t : CheckBox) (seen : list CheckBox) : list Event :=
  if do_callback && negb (is_None (_state t))
  then [Change self state seen] else [].

Definition commit (self : nat) (state : pyval) (do_callback : bool)
    (t : CheckBox) (icon : SelectableIcon) (wd : World) : World :=
  {| toggles := <[self := committed state icon t]> (toggles wd);
     buttons := buttons wd; groups := groups wd; built := S (built wd);
     trace := trace wd ++ announced self state do_callback t (toggles wd) |}.

(** The cycle of [toggle_state]: False, True, then mixed when the control
    cycles through it, and back to False. *)
Definition cycle_next (mixed_ok : bool) (v : pyval) : pyval :=
  match v with
  | PyBool false => PyBool true
  | PyBool true => if mixed_ok then mixed else PyBool false
  | _ => PyBool false
  end.

(** The fields that [set_state] never touches. *)
Definition same_object (t t' : CheckBox) : Prop :=
  klass t' = klass t /\ group t' = group t /\ has_mixed t' = has_mixed t /\
  _label t' = _label t /\ handlers t' = handlers t.


(** A control as [__init__] leaves it just before its first [set_state]. *)
Definition fresh (k : Klass) (g : option nat) (lbl : markup) (mixed_ok : bool)
    (on_state_change : option callback) (data : pyval) : CheckBox :=
  {| klass := k; w := None; _label := lbl; has_mixed := mixed_ok;
     _state := PyNone; group := g;
     handlers := match on_state_change with
                 | Some f => [(f, data)]
                 | None => []
                 end;
     invalidations := 0 |}.

(** ** Well-formed stores *)

(** Every radio button refers to a list of the store, and the lists hold
    radio buttons of that very group, each once. *)
Record well_formed (wd : World) : Prop := {
  wf_group : forall i t,
    toggles wd !! i = Some t -> klass t = RadioButtonK ->
    exists g ms, group t = Some g /\ groups wd !! g = Some ms;
  wf_member : forall g ms m,
    groups wd !! g = Some ms -> m ∈ ms ->
    exists t, toggles wd !! m = Some t /\ klass t = RadioButtonK /\
              group t = Some g;
  wf_nodup : forall g ms, groups wd !! g = Some ms -> NoDup ms
}.

(** At most one member of each group has state [True]. *)
Definition exclusive (wd : World) : Prop :=
  forall g, length (selected wd g) <= 1.

(** What the loop over the group may do to the store when run for [self]:
    it keeps [self], the lists and the buttons, sets other controls to
    [False] or leaves them, and emits for other controls only. *)
Record quiet (self : nat) (wd wd' : World) : Prop := {
  quiet_buttons : buttons wd' = buttons wd;
  quiet_groups : groups wd' = groups wd;
  quiet_length : length (toggles wd') = length (toggles wd);
  quiet_self : toggles wd' !! self = toggles wd !! self;
  quiet_others : forall j t,
    toggles wd !! j = Some t ->
    exists t', toggles wd' !! j = Some t' /\ same_object t t' /\
               (t' = t \/ _state t' = PyBool false);
  quiet_trace : exists evs,
    trace wd' = trace wd ++ evs /\
    Forall (fun e => emitter_of e <> Some self) evs
}.

(** [toggle_state] called [n] times in a row. *)
Fixpoint toggle_times (n : nat) (self : nat) : M unit :=
  match n with
  | O => mret tt
  | S n' => toggle_state self ;; toggle_times n' self
  end.

(** The states of the toggle cycle and its length. *)
Definition cycle_states (mixed_ok : bool) : list pyval :=
  if mixed_ok then [PyBool false; PyBool true; mixed]
  else [PyBool false; PyBool true].

Definition cycle_length (mixed_ok : bool) : nat := if mixed_ok then 3 else 2.

(** ** Sample stores *)

(** [CheckBox("Confirm")] *)
Definition one_checkbox : World :=
  snd (new_CheckBox "Confirm" (PyBool false) false None PyNone empty_world).

(** [CheckBox("Yogourt", "mixed", True)] with a callback connected. *)
Definition mixed_checkbox : World :=
  snd (new_CheckBox "Yogourt" mixed true (Some 7) (PyStr "u") empty_world).

(** [CheckBox("Onions", "mixed")]: the control does not cycle through
    mixed, and is in that state. *)
Definition stuck_checkbox : World :=
  snd (new_CheckBox "Onions" mixed false None PyNone empty_world).

(** [CheckBox("x", None)] *)
Definition unset_checkbox : World :=
  snd (new_CheckBox "x" PyNone false None PyNone empty_world).

(** [Button("ok", f, "u")] and [Button("ok")] *)
Definition one_button : World :=
  snd (new_Button "ok" (Some 7) (PyStr "u") empty_world).

Definition idle_button : World :=
  snd (new_Button "ok" None PyNone empty_world).

(** Three radio buttons made in order in an empty list, all with the
    default state. *)
Definition three_radios_program : list Op :=
  [ NewList;
    NewRadioButton 0 "Agree" first_True None PyNone;
    NewRadioButton 0 "Disagree" first_True (Some 5) PyNone;
    NewRadioButton 0 "Unsure" first_True None PyNone ].

Definition three_radios : World :=
  run sample_command_map sample_is_mouse_press three_radios_program empty_world.

(** ** Construction in closed form *)

(** The store with the new object in place, before its first [set_state]. *)
Definition grown (k : Klass) (g : option nat) (lbl : markup) (mixed_ok : bool)
    (on_state_change : option callback) (data : pyval) (wd : World) : World :=
  set_toggles (toggles wd ++ [fresh k g lbl mixed_ok on_state_change data]) wd.

(** The state a radio button is first given. *)
Definition first_state (state : pyval) (ms : list nat) : pyval :=
  if py_eq state first_True then PyBool (is_empty ms) else state.

(** What persists of the controls from one store to a later one: the
    objects are still there, of the same class and group, and their state
    is the same or a key of [states]. *)
Definition persists (wd wd' : World) : Prop :=
  forall j t, toggles wd !! j = Some t ->
    exists t', toggles wd' !! j = Some t' /\ klass t' = klass t /\
      has_mixed t' = has_mixed t /\ group t' = group t /\
      (_state t' = _state t \/ valid_state (_state t') = true).

(** A later store with the same lists and the same controls, whose states
    are the same or keys of [states]. *)
Record tame (wd wd' : World) : Prop := {
  tame_groups : groups wd' = groups wd;
  tame_length : length (toggles wd') = length (toggles wd);
  tame_persists : persists wd wd'
}.

(** No control is [True] in [wd'] that was not in [wd]. *)
Definition no_new_True (wd wd' : World) : Prop :=
  forall j, holds_True (toggles wd') j = true -> holds_True (toggles wd) j = true.

(** The invariant of the stores a program can reach. *)
Definition Inv (wd : World) : Prop := well_formed wd /\ exclusive wd.

(** An operation keeps the invariant and the controls. *)
Definition good (wd wd' : World) : Prop := Inv wd' /\ tame wd wd'.

(** An update of a control that keeps its class, group, flag and state. *)
Definition cosmetic (f : CheckBox -> CheckBox) : Prop :=
  forall t, klass (f t) = klass t /\ group (f t) = group t /\
            has_mixed (f t) = has_mixed t /\ _state (f t) = _state t.

(** A computation that leaves the toggle controls and the lists alone. *)
Definition keeps_controls {A} (m : M A) : Prop :=
  forall wd, toggles (snd (m wd)) = toggles wd /\
             groups (snd (m wd)) = groups wd.

(** The third radio button of [three_radios], as it is in that store. *)
Definition third_radio : CheckBox :=
  Eval vm_compute in default (blank RadioButtonK) (toggles three_radios !! 2).

(** Three radio buttons built in order, with the default state, in a new
    list. *)
Definition three_default_radios (la lb lc : markup) : M (nat * nat * nat) :=
  bgroup ← new_list;
  a ← new_RadioButton bgroup la first_True None PyNone;
  b ← new_RadioButton bgroup lb first_True None PyNone;
  c ← new_RadioButton bgroup lc first_True None PyNone;
  mret (a, b, c).

(** The doctest of [CheckBox.set_state], up to the first change: two
    callbacks connected, the first with user data. *)
Definition doctest_program : list Op :=
  [ NewCheckBox "test" (PyBool false) false None PyNone;
    ConnectSignal 0 1 (PyStr "user_a");
    ConnectSignal 0 2 PyNone;
    SetState 0 (PyBool true) true ].

(** ** Callbacks that call back *)

(** Signals are delivered synchronously: a callback runs inside the
    [set_state] that emits, and may itself call [set_state] on any
    control, or raise.  Here [_emit] runs the callbacks it reaches. *)
Module Reentrant.

(** What a callback does when it is called: calls of [set_state], and
    possibly an exception, which nothing in the module catches. *)
Inductive Action :=
| Call_set_state (target : nat) (state : pyval) (do_callback : bool)
| Raise_exception.

Section Callbacks.

(** What each callback does, in order, given the emitter and the new
    state it is called with. *)
Variable behaviour : callback -> nat -> pyval -> list Action.

Definition perform (set_state : nat -> pyval -> bool -> M unit) (a : Action)
  : M unit :=
  match a with
  | Call_set_state target state do_callback =>
      set_state target state do_callback
  | Raise_exception => raise CallbackError
  end.

Definition registered (wd : World) (self : nat) : list (callback * pyval) :=
  match toggles wd !! self with
  | Some t => handlers t
  | None => []
  end.

(** Modelled from the spec: the emission is recorded, then every callback
    registered when it starts is invoked, in registration order. *)
Definition _emit (set_state : nat -> pyval -> bool -> M unit)
    (self : nat) (state : pyval) : M unit := fun wd =>
  (log (Change self state (toggles wd)) ;;
   for_each (registered wd self) (fun h =>
     for_each (behaviour (fst h) self state) (perform set_state))) wd.

Fixpoint call_set_state (depth : nat) (self : nat) (state : pyval)
    (do_callback : bool) : M unit :=
  match depth with
  | O => raise RecursionLimit
  | S d =>
      t ← get_toggle self;
      match klass t with
      | CheckBoxK =>
          Methods.CheckBox_set_state (_emit (call_set_state d))
            self state do_callback
      | RadioButtonK =>
          Methods.RadioButton_set_state (_emit (call_set_state d))
            (call_set_state d) self state do_callback
      end
  end.

Definition recursion_limit : nat := 1000.

Definition set_state : nat -> pyval -> bool -> M unit :=
  call_set_state recursion_limit.

Definition new_CheckBox := Methods.new_CheckBox set_state.
Definition new_RadioButton := Methods.new_RadioButton set_state.
Definition run := Methods.run set_state.

End Callbacks.

(** Callbacks that make no call and raise nothing. *)
Definition observers (f : callback) (emitter : nat) (state : pyval)
  : list Action := [].

(** Callback 9 selects control 0 when the control it is connected to is
    deselected. *)
Definition select_first (f : callback) (emitter : nat) (state : pyval)
  : list Action :=
  if Nat.eqb f 9 && py_eq state (PyBool false)
  then [Call_set_state 0 (PyBool true) true] else [].

(** Callback 8 raises when the control it is connected to is
    deselected. *)
Definition raise_on_deselect (f : callback) (emitter : nat) (state : pyval)
  : list Action :=
  if Nat.eqb f 8 && py_eq state (PyBool false)
  then [Raise_exception] else [].

(** [A = RadioButton(bgroup, "A", True, on_state_change=f8)],
    [B = RadioButton(bgroup, "B", False)], then [B.set_state(True)], which
    the callback of [A] interrupts, and [B.set_state(True)] again. *)
Definition interrupted_selection : list Op :=
  [ NewList;
    NewRadioButton 0 "A" (PyBool true) (Some 8) PyNone;
    NewRadioButton 0 "B" (PyBool false) None PyNone;
    SetState 1 (PyBool true) true;
    SetState 1 (PyBool true) true ].


End Reentrant.


(** Callbacks that make no call and raise nothing, whatever they are
    called with. *)
Definition observing (behaviour : callback -> nat -> pyval -> list Reentrant.Action)
  : Prop :=
  forall f emitter state, behaviour f emitter state = [].

(** ** States equal to True *)

(** The members of the list [g] whose state equals ([==]) [True]: the
    object [True] and the numbers equal to it. *)
Definition equals_True (ts : list CheckBox) (i : nat) : bool :=
  match ts !! i with
  | Some t => py_eq (_state t) (PyBool true)
  | None => false
  end.

Definition selected_eq (wd : World) (g : nat) : list nat :=
  filter (fun i => equals_True (toggles wd) i = true) (members wd g).





(** An update of a control that keeps its class, group and flag, and
    keeps its state or gives it a key of [states]. *)
Definition gentle (f : CheckBox -> CheckBox) : Prop :=
  forall t, klass (f t) = klass t /\ has_mixed (f t) = has_mixed t /\
            group (f t) = group t /\
            (_state (f t) = _state t \/ valid_state (_state (f t)) = true).

(** A computation under which the controls persist and the trace only
    grows, whatever its outcome. *)
Definition steady {A} (m : M A) : Prop :=
  forall wd, persists wd (snd (m wd)) /\
             exists later, trace (snd (m wd)) = trace wd ++ later.

(** ** The composition on display *)

(** The composition that shows a control in its present state: the glyph
    its class gives that state, then the label, focus on the glyph
    column.  A control whose state is not a key of [states] has none. *)
Definition display (t : CheckBox) : option Columns :=
  option_map
    (fun icon =>
       {| widget_list := [fixed (reserve_columns (klass t)) (text icon); own_label];
          dividechars := 0; focus_col := Some 0%Z |})
    (dict_get (states (klass t)) (_state t)).

(** Every control of the store shows its present state. *)
Definition shown (wd : World) : Prop :=
  forall j t, toggles wd !! j = Some t -> w t = display t.

(** An update of a control that keeps what it shows in line with its
    state. *)
Definition neat (f : CheckBox -> CheckBox) : Prop :=
  forall t, w t = display t -> w (f t) = display (f t).

(** A computation that takes stores whose controls show their state to
    stores whose controls do, whatever its outcome. *)
Definition tidy {A} (m : M A) : Prop :=
  forall wd, shown wd -> shown (snd (m wd)).

(** ** Signals in the trace *)

(** The emitter and the state of a 'change' emission. *)
Definition signal_of (e : Event) : option (nat * pyval) :=
  match e with
  | Change i s _ => Some (i, s)
  | Press _ _ _ => None
  end.

(** The members the loop of [RadioButton.set_state] run for [self] calls
    [set_state(False)] on: the other members whose state is true in the
    sense of [if cb._state]. *)
Definition to_clear (ts : list CheckBox) (self m : nat) : bool :=
  negb (Nat.eqb m self) &&
  match ts !! m with
  | Some c => truthy (_state c)
  | None => false
  end.

(** ** Cursor and rendering *)

(** [size] is the 1-tuple [(maxcol,)]. *)
Definition SelectableIcon_get_cursor_coords (maxcol : Z) : option (Z * Z) :=
  if (1 <? maxcol)%Z then Some (1%Z, 0%Z) else None.

Definition SelectableIcon_keypress (size : Z) (key : string) : string := key.

Definition Button_get_cursor_coords (maxcol : Z) : option (Z * Z) :=
  if (2 <? maxcol)%Z then Some (2%Z, 0%Z) else None.

Section Rendering.

(** Canvases are made outside this module, by [Text.render],
    [WidgetWrap.render] and [CompositeCanvas]; [set_cursor] is the
    assignment to the attribute [cursor] of a canvas. *)
Variable Canvas : Type.
Variable Text_render : SelectableIcon -> Z -> bool -> Canvas.
Variable WidgetWrap_render : option Columns -> Z -> bool -> Canvas.
Variable CompositeCanvas : Canvas -> Canvas.
Variable set_cursor : option (Z * Z) -> Canvas -> Canvas.

Definition SelectableIcon_render (self : SelectableIcon) (maxcol : Z)
    (focus : bool) : Canvas :=
  let c := Text_render self maxcol focus in
  if focus
  then set_cursor (SelectableIcon_get_cursor_coords maxcol) (CompositeCanvas c)
  else c.

Definition Button_render (self : Button) (maxcol : Z) (focus : bool) : Canvas :=
  let canv := CompositeCanvas (WidgetWrap_render (button_w self) maxcol focus) in
  if focus && (2 <? maxcol)%Z then set_cursor (Some (2%Z, 0%Z)) canv else canv.

End Rendering.

(** A canvas to run examples with: the text and the cursor. *)
Definition sample_canvas : Type := string * option (Z * Z).

Definition sample_Text_render (self : SelectableIcon) (maxcol : Z)
    (focus : bool) : sample_canvas := (text self, None).

Definition sample_WidgetWrap_render (c : option Columns) (maxcol : Z)
    (focus : bool) : sample_canvas := ("< ok >", None).

Definition sample_CompositeCanvas (c : sample_canvas) : sample_canvas := c.

Definition sample_set_cursor (x : option (Z * Z)) (c : sample_canvas)
  : sample_canvas := (fst c, x).

Definition sample_cursor (c : sample_canvas) : option (Z * Z) := snd c.

(** ** Controls of the sample stores *)

Definition confirm_box : CheckBox :=
  Eval vm_compute in default (blank CheckBoxK) (toggles one_checkbox !! 0).

Definition unset_box : CheckBox :=
  Eval vm_compute in default (blank CheckBoxK) (toggles unset_checkbox !! 0).


Definition ok_button : Button :=
  Eval vm_compute in default blank_button (buttons one_button !! 0).

(** [cb = CheckBox("Spam", True, on_state_change=f9)] in an empty store. *)
Definition spam_checkbox : World :=
  snd (new_CheckBox "Spam" (PyBool true) false (Some 9) PyNone empty_world).

Definition spam_box : CheckBox :=
  Eval vm_compute in default (blank CheckBoxK) (toggles spam_checkbox !! 0).
(** ** Basic facts *)

Ltac unfold_m :=
  unfold mbind, mret, M_bind, M_ret, raise, get_toggle, get_group, get_button,
    modify_toggle, log, new_Columns, _emit in *.

Lemma py_eq_refl v : py_eq v v = true.
Proof.
  destruct v as [|b|n|s]; simpl; auto.
  - destruct b; reflexivity.
  - apply Z.eqb_refl.
  - apply String.eqb_refl.
Qed.


Lemma py_eq_trans a b c : py_eq a b = true -> py_eq b c = true -> py_eq a c = true.
Proof.
  destruct a as [|[]|n|s], b as [|[]|m|t], c as [|[]|k|u];
    cbn [py_eq bool_as_int Bool.eqb];
    try discriminate; auto;
    rewrite ?Z.eqb_eq, ?String.eqb_eq; intros; subst; auto;
    try discriminate; try lia.
Qed.

(** Both classes accept the same keys. *)
Lemma dict_in_states k v : dict_in v (states k) = valid_state v.
Proof.
  unfold valid_state, dict_in. destruct k; [reflexivity|].
  cbn [states dict_get].
  destruct (py_eq (PyBool true) v); [reflexivity|].
  destruct (py_eq (PyBool false) v); [reflexivity|].
  destruct (py_eq mixed v); reflexivity.
Qed.

Lemma valid_state_cases v :
  valid_state v = true <->
  py_eq (PyBool true) v = true \/ py_eq (PyBool false) v = true \/
  py_eq mixed v = true.
Proof.
  unfold valid_state, dict_in. cbn [states dict_get].
  destruct (py_eq (PyBool true) v); [intuition|].
  destruct (py_eq (PyBool false) v); [intuition|].
  destruct (py_eq mixed v); intuition discriminate.
Qed.

Lemma valid_state_not_None v : valid_state v = true -> v <> PyNone.
Proof. intros H ->. discriminate. Qed.

Lemma valid_state_py_eq a b :
  py_eq a b = true -> valid_state a = true -> valid_state b = true.
Proof.
  intros Hab Ha. apply valid_state_cases in Ha. apply valid_state_cases.
  destruct Ha as [H|[H|H]]; [left|right; left|right; right];
    eapply py_eq_trans; eauto.
Qed.

Lemma dict_get_states k v :
  valid_state v = true -> exists icon, dict_get (states k) v = Some icon.
Proof.
  intros H. rewrite <- (dict_in_states k) in H. unfold dict_in in H.
  destruct (dict_get (states k) v); [eauto|discriminate].
Qed.

Lemma dict_get_states_None k v :
  valid_state v = false -> dict_get (states k) v = None.
Proof.
  intros H. rewrite <- (dict_in_states k) in H. unfold dict_in in H.
  destruct (dict_get (states k) v); [discriminate|reflexivity].
Qed.

(** [CheckBox.set_state] in closed form. *)
Lemma CheckBox_set_state_eq wd self t state do_callback :
  toggles wd !! self = Some t ->
  CheckBox_set_state self state do_callback wd =
    if py_eq (_state t) state then (Ok tt, wd)
    else match dict_get (states (klass t)) state with
         | None => (Raise (rejection self state t), wd)
         | Some icon => (Ok tt, commit self state do_callback t icon wd)
         end.
Proof.
  intros Hl. unfold CheckBox_set_state, Methods.CheckBox_set_state. unfold_m. rewrite Hl.
  destruct (py_eq (_state t) state); [reflexivity|].
  unfold dict_in.
  destruct (dict_get (states (klass t)) state) as [icon|]; simpl.
  2:{ unfold repr, rejection. rewrite Hl. destruct (w t); reflexivity. }
  pose proof (lookup_lt_Some _ _ _ Hl) as Hlt.
  unfold commit, announced.
  destruct (do_callback && negb (is_None (_state t))); simpl; rewrite Hl; simpl;
    repeat first
      [ rewrite list_lookup_insert_eq by (rewrite ?length_insert; assumption)
      | rewrite list_insert_insert_eq
      | progress simpl ];
    unfold set_toggles; simpl; rewrite ?app_nil_r; reflexivity.
Qed.

Lemma CheckBox_set_state_dangling wd self state do_callback :
  toggles wd !! self = None ->
  CheckBox_set_state self state do_callback wd = (Raise Dangling, wd).
Proof. intros Hl. unfold CheckBox_set_state, Methods.CheckBox_set_state. unfold_m. rewrite Hl. reflexivity. Qed.

(** With a state other than [True] the radio button's method is the
    check box's. *)
Lemma call_set_state_not_True d wd self state do_callback :
  is_True state = false ->
  call_set_state (S d) self state do_callback wd =
  CheckBox_set_state self state do_callback wd.
Proof.
  intros Hs. cbn [call_set_state].
  destruct (toggles wd !! self) as [t|] eqn:Hl.
  - unfold mbind at 1, M_bind, get_toggle. rewrite Hl.
    destruct (klass t); [reflexivity|].
    unfold RadioButton_set_state, Methods.RadioButton_set_state. fold CheckBox_set_state. unfold mbind at 1, M_bind, get_toggle.
    rewrite Hl. rewrite (CheckBox_set_state_eq _ _ _ _ _ Hl).
    destruct (py_eq (_state t) state) eqn:He; [reflexivity|].
    unfold mbind, M_bind. rewrite (CheckBox_set_state_eq _ _ _ _ _ Hl), He.
    destruct (dict_get (states (klass t)) state); [|reflexivity].
    rewrite Hs. reflexivity.
  - rewrite CheckBox_set_state_dangling by assumption.
    unfold mbind, M_bind, get_toggle. rewrite Hl. reflexivity.
Qed.

Lemma for_each_ext {A} (f g : A -> M unit) l :
  (forall x wd, f x wd = g x wd) ->
  forall wd, for_each l f wd = for_each l g wd.
Proof.
  intros Hfg. induction l as [|x l IH]; intros wd; [reflexivity|].
  cbn [for_each]. unfold mbind, M_bind. rewrite Hfg.
  destruct (g x wd) as [[[]|e] wd']; [apply IH|reflexivity].
Qed.

Lemma clear_other_CheckBox d self cb wd :
  clear_other (call_set_state (S d)) self cb wd =
  clear_other CheckBox_set_state self cb wd.
Proof.
  unfold clear_other. destruct (Nat.eqb cb self); [reflexivity|].
  unfold mbind, M_bind, get_toggle.
  destruct (toggles wd !! cb) as [c|]; [|reflexivity].
  destruct (truthy (_state c)); [|reflexivity].
  apply call_set_state_not_True. reflexivity.
Qed.

Lemma call_set_state_S d wd self state do_callback :
  call_set_state (S d) self state do_callback wd =
  match toggles wd !! self with
  | Some t =>
      match klass t with
      | CheckBoxK => CheckBox_set_state self state do_callback wd
      | RadioButtonK =>
          RadioButton_set_state (call_set_state d) self state do_callback wd
      end
  | None => (Raise Dangling, wd)
  end.
Proof.
  cbn [call_set_state]. unfold mbind, M_bind, get_toggle.
  destruct (toggles wd !! self) as [t|]; [|reflexivity].
  destruct (klass t); reflexivity.
Qed.

(** The nesting of calls never goes deeper than [call_depth]: a deeper
    bound changes nothing. *)
Lemma call_set_state_depth d wd self state do_callback :
  call_set_state (S (S d)) self state do_callback wd =
  set_state self state do_callback wd.
Proof.
  unfold set_state, call_depth. rewrite !call_set_state_S.
  destruct (toggles wd !! self) as [t|] eqn:Hl; [|reflexivity].
  destruct (klass t); [reflexivity|].
  unfold RadioButton_set_state, Methods.RadioButton_set_state, mbind, M_bind, get_toggle. fold CheckBox_set_state. rewrite Hl.
  destruct (py_eq (_state t) state); [reflexivity|].
  destruct (CheckBox_set_state self state do_callback wd) as [[[]|e] wd1];
    [|reflexivity].
  destruct (negb (is_True state)); [reflexivity|].
  destruct (group t) as [g|]; [|reflexivity].
  unfold mret, M_ret, get_group.
  destruct (groups wd1 !! g) as [ms|]; [|reflexivity].
  rewrite (for_each_ext _ _ ms (clear_other_CheckBox d self)).
  rewrite (for_each_ext _ _ ms (clear_other_CheckBox 0 self)).
  reflexivity.
Qed.

(** ** The loop over the group *)

Lemma same_object_refl t : same_object t t.
Proof. repeat split. Qed.

Lemma same_object_trans a b c :
  same_object a b -> same_object b c -> same_object a c.
Proof.
  intros (?&?&?&?&?) (?&?&?&?&?). repeat split; congruence.
Qed.

Lemma same_object_committed v icon t : same_object t (committed v icon t).
Proof. repeat split. Qed.

Lemma quiet_refl self wd : quiet self wd wd.
Proof.
  split; auto.
  - intros j t H. exists t. split; [assumption|]. split; [apply same_object_refl|auto].
  - exists []. rewrite app_nil_r. split; [reflexivity|constructor].
Qed.

Lemma quiet_trans self a b c : quiet self a b -> quiet self b c -> quiet self a c.
Proof.
  intros [Hb1 Hg1 Hl1 Hs1 Ho1 (e1 & Ht1 & Hf1)] [Hb2 Hg2 Hl2 Hs2 Ho2 (e2 & Ht2 & Hf2)].
  split; try congruence.
  - intros j t Hj. destruct (Ho1 j t Hj) as (t1 & Hj1 & Hso1 & Hc1).
    destruct (Ho2 j t1 Hj1) as (t2 & Hj2 & Hso2 & Hc2).
    exists t2. split; [assumption|]. split; [eapply same_object_trans; eauto|].
    destruct Hc2 as [->|?]; auto.
  - exists (e1 ++ e2). rewrite Ht2, Ht1, app_assoc. split; [reflexivity|].
    apply Forall_app; auto.
Qed.

Lemma quiet_keeps_not_True self wd wd' j :
  quiet self wd wd' ->
  holds_True (toggles wd) j = false -> holds_True (toggles wd') j = false.
Proof.
  intros Hq. unfold holds_True.
  destruct (toggles wd !! j) as [t|] eqn:Hj.
  - destruct (quiet_others _ _ _ Hq j t Hj) as (t' & -> & _ & [->| ->]); auto.
  - intros _. apply lookup_ge_None in Hj. rewrite <- (quiet_length _ _ _ Hq) in Hj.
    apply lookup_ge_None in Hj. rewrite Hj. reflexivity.
Qed.

Lemma truthy_not_False v : truthy v = true -> py_eq v (PyBool false) = false.
Proof.
  destruct v as [|[]|n|s]; cbn [truthy py_eq bool_as_int Bool.eqb];
    try discriminate; auto.
  destruct (Z.eqb n 0); [discriminate|reflexivity].
Qed.

Lemma is_True_truthy v : is_True v = true -> truthy v = true.
Proof. destruct v as [|[]|n|s]; simpl; auto; discriminate. Qed.

Lemma commit_quiet self cb c icon wd :
  cb <> self -> toggles wd !! cb = Some c ->
  quiet self wd (commit cb (PyBool false) true c icon wd).
Proof.
  intros Hne Hc. split; cbn [commit toggles buttons groups trace]; auto.
  - apply length_insert.
  - apply list_lookup_insert_ne. assumption.
  - intros j t Hj. destruct (decide (cb = j)) as [->|Hn].
    + rewrite list_lookup_insert_eq by (eapply lookup_lt_Some; eauto).
      assert (t = c) as -> by congruence.
      eexists. split; [reflexivity|]. split; [apply same_object_committed|].
      right. reflexivity.
    + rewrite list_lookup_insert_ne by assumption.
      exists t. split; [assumption|]. split; [apply same_object_refl|auto].
  - eexists. split; [reflexivity|]. unfold announced.
    destruct (true && negb (is_None (_state c))); repeat constructor.
    simpl. congruence.
Qed.

Lemma clear_other_spec self cb wd :
  is_Some (toggles wd !! cb) ->
  exists wd', clear_other CheckBox_set_state self cb wd = (Ok tt, wd') /\
    quiet self wd wd' /\
    (cb <> self -> holds_True (toggles wd') cb = false).
Proof.
  intros [c Hc]. unfold clear_other.
  destruct (Nat.eqb_spec cb self) as [->|Hne].
  - exists wd. split; [reflexivity|]. split; [apply quiet_refl|congruence].
  - unfold mbind, M_bind, get_toggle. rewrite Hc.
    destruct (truthy (_state c)) eqn:Ht.
    + rewrite (CheckBox_set_state_eq _ _ _ _ _ Hc), (truthy_not_False _ Ht).
      destruct (dict_get_states (klass c) (PyBool false) eq_refl) as [icon ->].
      eexists. split; [reflexivity|]. split; [apply commit_quiet; assumption|].
      intros _. unfold holds_True. cbn [commit toggles].
      rewrite list_lookup_insert_eq by (eapply lookup_lt_Some; eauto).
      reflexivity.
    + exists wd. split; [reflexivity|]. split; [apply quiet_refl|].
      intros _. unfold holds_True. rewrite Hc.
      destruct (is_True (_state c)) eqn:HT; [|reflexivity].
      apply is_True_truthy in HT. congruence.
Qed.

Lemma clear_loop_spec self ms :
  forall wd,
    (forall m, m ∈ ms -> is_Some (toggles wd !! m)) ->
    exists wd', for_each ms (clear_other CheckBox_set_state self) wd = (Ok tt, wd') /\
      quiet self wd wd' /\
      (forall m, m ∈ ms -> m <> self -> holds_True (toggles wd') m = false).
Proof.
  induction ms as [|cb ms IH]; intros wd Hex.
  - exists wd. split; [reflexivity|]. split; [apply quiet_refl|].
    intros m Hm. inversion Hm.
  - destruct (clear_other_spec self cb wd) as (wd1 & E1 & Q1 & C1).
    { apply Hex. left. }
    destruct (IH wd1) as (wd2 & E2 & Q2 & C2).
    { intros m Hm. apply lookup_lt_is_Some. rewrite (quiet_length _ _ _ Q1).
      apply lookup_lt_is_Some. apply Hex. right. assumption. }
    exists wd2. cbn [for_each]. unfold mbind, M_bind. rewrite E1.
    split; [exact E2|]. split; [eapply quiet_trans; eauto|].
    intros m Hm Hne. apply elem_of_cons in Hm as [->|Hm]; [|auto].
    eapply quiet_keeps_not_True; eauto.
Qed.

(** ** [set_state], case by case *)

Lemma set_state_not_True wd self state do_callback :
  is_True state = false ->
  set_state self state do_callback wd =
  CheckBox_set_state self state do_callback wd.
Proof. apply call_set_state_not_True. Qed.

Lemma set_state_CheckBoxK wd self t state do_callback :
  toggles wd !! self = Some t -> klass t = CheckBoxK ->
  set_state self state do_callback wd =
  CheckBox_set_state self state do_callback wd.
Proof.
  intros Hl Hk. unfold set_state, call_depth.
  rewrite call_set_state_S, Hl, Hk. reflexivity.
Qed.

Lemma set_state_unchanged wd self t state do_callback :
  toggles wd !! self = Some t -> py_eq (_state t) state = true ->
  set_state self state do_callback wd = (Ok tt, wd).
Proof.
  intros Hl He. unfold set_state, call_depth. rewrite call_set_state_S, Hl.
  destruct (klass t).
  - rewrite (CheckBox_set_state_eq _ _ _ _ _ Hl), He. reflexivity.
  - unfold RadioButton_set_state, Methods.RadioButton_set_state, mbind, M_bind, get_toggle. fold CheckBox_set_state.
    rewrite Hl, He. reflexivity.
Qed.

Lemma set_state_rejects wd self t state do_callback :
  toggles wd !! self = Some t -> py_eq (_state t) state = false ->
  valid_state state = false ->
  set_state self state do_callback wd = (Raise (rejection self state t), wd).
Proof.
  intros Hl He Hv. unfold set_state, call_depth. rewrite call_set_state_S, Hl.
  destruct (klass t) eqn:Hk.
  - rewrite (CheckBox_set_state_eq _ _ _ _ _ Hl), He, Hk.
    rewrite dict_get_states_None by assumption. reflexivity.
  - unfold RadioButton_set_state, Methods.RadioButton_set_state, mbind, M_bind, get_toggle. fold CheckBox_set_state.
    rewrite Hl, He, (CheckBox_set_state_eq _ _ _ _ _ Hl), He, Hk.
    rewrite dict_get_states_None by assumption. reflexivity.
Qed.

(** A transition that goes through: the check box's commit, followed for
    a radio button set to [True] by the loop over its group. *)
Lemma set_state_changes wd self t state do_callback icon :
  well_formed wd ->
  toggles wd !! self = Some t -> py_eq (_state t) state = false ->
  dict_get (states (klass t)) state = Some icon ->
  exists wd', set_state self state do_callback wd = (Ok tt, wd') /\
    quiet self (commit self state do_callback t icon wd) wd' /\
    (klass t = RadioButtonK -> is_True state = true ->
     forall g ms m, group t = Some g -> groups wd !! g = Some ms ->
       m ∈ ms -> m <> self -> holds_True (toggles wd') m = false) /\
    (is_True state = false \/ klass t = CheckBoxK ->
     wd' = commit self state do_callback t icon wd).
Proof.
  intros Hwf Hl He Hi.
  destruct (is_True state) eqn:HT.
  2:{ exists (commit self state do_callback t icon wd).
      rewrite set_state_not_True, (CheckBox_set_state_eq _ _ _ _ _ Hl), He, Hi
        by assumption.
      split; [reflexivity|]. split; [apply quiet_refl|].
      split; [discriminate|reflexivity]. }
  destruct (klass t) eqn:Hk.
  { exists (commit self state do_callback t icon wd).
    rewrite (set_state_CheckBoxK _ _ _ _ _ Hl Hk),
      (CheckBox_set_state_eq _ _ _ _ _ Hl), He, Hk, Hi.
    split; [reflexivity|]. split; [apply quiet_refl|].
    split; [discriminate|reflexivity]. }
  destruct (wf_group _ Hwf self t Hl Hk) as (g & ms & Hg & Hms).
  destruct (clear_loop_spec self ms (commit self state do_callback t icon wd))
    as (wd' & E & Q & C).
  { intros m Hm. destruct (wf_member _ Hwf g ms m Hms Hm) as (tm & Hm' & _).
    apply lookup_lt_is_Some. cbn [commit toggles]. rewrite length_insert.
    eapply lookup_lt_Some; eauto. }
  exists wd'. split; [|split; [exact Q|split]].
  - unfold set_state, call_depth. rewrite call_set_state_S, Hl, Hk.
    unfold RadioButton_set_state, Methods.RadioButton_set_state, mbind, M_bind, get_toggle. fold CheckBox_set_state.
    rewrite Hl, He, (CheckBox_set_state_eq _ _ _ _ _ Hl), He, Hk, Hi, HT, Hg.
    cbn [negb]. unfold mret, M_ret, get_group. cbn [commit groups].
    rewrite Hms, (for_each_ext _ _ ms (clear_other_CheckBox 0 self)).
    exact E.
  - intros _ _ g' ms' m Hg' Hms' Hm Hne.
    assert (g' = g) as -> by congruence.
    assert (ms' = ms) as -> by congruence. auto.
  - intros [?|?]; discriminate.
Qed.

(** ** Unchanged and rejected values *)

(** C9. [set_state] with a value equal ([==]) to the current state
    returns at once and leaves the whole store as it was: the trace has no
    new 'change' emission, no composition was built ([built] and the
    control's [w] are the same), and the control, like every other
    object, is unchanged.  This holds for check boxes and radio buttons
    and for either value of [do_callback]. *)
Theorem set_state_same_value_noop wd self t state do_callback :
  toggles wd !! self = Some t ->
  py_eq (_state t) state = true ->
  set_state self state do_callback wd = (Ok tt, wd).
Proof. apply set_state_unchanged. Qed.

Lemma set_state_same_value_noop_witness :
  set_state 0 (PyInt 0) true one_checkbox = (Ok tt, one_checkbox).
Proof.
  eapply (set_state_same_value_noop one_checkbox 0); reflexivity.
Defined.

(** C4, at the failing input.  [None] is not a key of [states], yet
    [CheckBox("x", None)] is built without an exception and is left with
    state [None] and no composition; a later [set_state(None)] returns
    normally as well.  The comparison with the current state comes before
    the validation, and the state of a control under construction is
    [None]. *)
Theorem set_state_None_not_rejected :
  valid_state PyNone = false /\
  new_CheckBox "x" PyNone false None PyNone empty_world = (Ok 0, unset_checkbox) /\
  state_of unset_checkbox 0 = Some PyNone /\
  (w <$> toggles unset_checkbox !! 0) = Some None /\
  set_state 0 PyNone true unset_checkbox = (Ok tt, unset_checkbox).
Proof. repeat split. Qed.

(** ** Button *)

Lemma Button_keypress_eq wd self b size key :
  buttons wd !! self = Some b ->
  Button_keypress self size key wd =
    if activation_key key then
      match on_press b with
      | Some f =>
          (Ok None,
           snd (log (Press f self (if is_None (user_data b) then None
                                   else Some (user_data b))) wd))
      | None => (Ok None, wd)
      end
    else (Ok (Some key), wd).
Proof.
  intros Hb. unfold Button_keypress.
  destruct (activation_key key); [|reflexivity].
  cbn [negb]. unfold mbind, M_bind, get_button. rewrite Hb.
  destruct (on_press b); [|reflexivity].
  destruct (is_None (user_data b)); reflexivity.
Qed.

(** C10. A button without a callback consumes space and 'enter': the
    call returns [None], raises nothing and leaves the store (and the
    trace of calls) as it was.  Any other key comes back unchanged, with
    the store unchanged, whether or not a callback is set. *)
Theorem Button_keypress_unset_callback wd self b size key :
  buttons wd !! self = Some b ->
  on_press b = None \/ activation_key key = false ->
  Button_keypress self size key wd =
    (Ok (if activation_key key then None else Some key), wd).
Proof.
  intros Hb H. rewrite (Button_keypress_eq _ _ _ _ _ Hb).
  destruct (activation_key key); [|reflexivity].
  destruct H as [->|?]; [reflexivity|discriminate].
Qed.

Lemma Button_keypress_unset_callback_witness :
  Button_keypress 0 10 "enter" idle_button = (Ok None, idle_button) /\
  Button_keypress 0 10 "x" one_button = (Ok (Some "x"), one_button).
Proof.
  split.
  - eapply (Button_keypress_unset_callback idle_button 0 _ 10%Z "enter");
      [reflexivity|left; reflexivity].
  - eapply (Button_keypress_unset_callback one_button 0 _ 10%Z "x");
      [reflexivity|right; reflexivity].
Defined.

Section Pointer.

Variable is_mouse_press : string -> bool.

Lemma Button_mouse_event_eq wd self b size event button x y focus :
  buttons wd !! self = Some b ->
  Button_mouse_event is_mouse_press self size event button x y focus wd =
    if Z.eqb button 1 && is_mouse_press event then
      match on_press b with
      | Some f => (Ok true, snd (log (Press f self None) wd))
      | None => (Ok false, wd)
      end
    else (Ok false, wd).
Proof.
  intros Hb. unfold Button_mouse_event.
  destruct (Z.eqb button 1), (is_mouse_press event); try reflexivity.
  cbn [negb orb andb]. unfold mbind, M_bind, get_button. rewrite Hb.
  destruct (on_press b); reflexivity.
Qed.

End Pointer.

(** C6, at the failing input.  On a press of button 1 the callback of
    [Button("ok", f, "u")] is called once and the event is reported
    handled, but the call is [f(button)]: the user data is left out.
    The same button called through [keypress] gets [f(button, "u")]. *)
Theorem Button_mouse_event_drops_user_data :
  (user_data <$> buttons one_button !! 0) = Some (PyStr "u") /\
  Button_mouse_event sample_is_mouse_press 0 10 "mouse press" 1 0 0 true
    one_button
  = (Ok true, snd (log (Press 7 0 None) one_button)) /\
  Button_keypress 0 10 "enter" one_button
  = (Ok None, snd (log (Press 7 0 (Some (PyStr "u"))) one_button)).
Proof. repeat split. Qed.

(** ** The toggle cycle *)

Lemma py_eq_mixed : py_eq mixed mixed = true.
Proof. reflexivity. Qed.

(** One [toggle_state] on a check box whose state is on the cycle. *)
Lemma toggle_step wd self t :
  toggles wd !! self = Some t -> klass t = CheckBoxK ->
  In (_state t) [PyBool false; PyBool true; mixed] ->
  exists wd' t', toggle_state self wd = (Ok tt, wd') /\
    toggles wd' !! self = Some t' /\ klass t' = CheckBoxK /\
    has_mixed t' = has_mixed t /\
    _state t' = cycle_next (has_mixed t) (_state t).
Proof.
  intros Hl Hk Hin.
  pose proof (lookup_lt_Some _ _ _ Hl) as Hlt.
  unfold toggle_state, Methods.toggle_state, mbind, M_bind, get_toggle. rewrite Hl, Hk.
  unfold CheckBox_toggle_state, Methods.CheckBox_toggle_state, mbind, M_bind, get_toggle. rewrite Hl.
  assert (Hdone : forall v icon,
    py_eq (_state t) v = false -> dict_get (states CheckBoxK) v = Some icon ->
    exists wd' t',
      match set_state self v true wd with
      | (Ok _, w1) => modify_toggle self _invalidate w1
      | (Raise e, w1) => (Raise e, w1)
      end = (Ok tt, wd') /\
      toggles wd' !! self = Some t' /\ klass t' = CheckBoxK /\
      has_mixed t' = has_mixed t /\ _state t' = v).
  { intros v icon Hne Hi.
    rewrite (set_state_CheckBoxK _ _ _ _ _ Hl Hk),
      (CheckBox_set_state_eq _ _ _ _ _ Hl), Hne, Hk, Hi.
    unfold modify_toggle. cbn [commit toggles].
    rewrite list_lookup_insert_eq by assumption.
    eexists _, _. split; [reflexivity|]. unfold set_toggles; cbn [toggles].
    rewrite list_lookup_insert_eq by (rewrite length_insert; assumption).
    repeat split; assumption. }
  destruct Hin as [E|[E|[E|[]]]]; rewrite <- E in *;
    cbn [py_eq Bool.eqb cycle_next]; rewrite ?py_eq_mixed;
    try destruct (has_mixed t); eapply Hdone; reflexivity.
Qed.

Lemma cycle_states_on_cycle mixed_ok v :
  In v (cycle_states mixed_ok) -> In v [PyBool false; PyBool true; mixed].
Proof.
  destruct mixed_ok; cbn [cycle_states In]; intuition.
Qed.

(** C5, amended.  On a check box whose state is on its cycle (False or
    True, and mixed as well when [has_mixed] is set) [toggle_state]
    returns normally and moves the state one step along the cycle
    False, True, (mixed,) False; after two calls without [has_mixed], and
    three calls with it, the state is the one it started from. *)
Theorem toggle_state_cycle wd self t :
  toggles wd !! self = Some t ->
  klass t = CheckBoxK ->
  In (_state t) (cycle_states (has_mixed t)) ->
  (exists wd1, toggle_state self wd = (Ok tt, wd1) /\
     state_of wd1 self = Some (cycle_next (has_mixed t) (_state t))) /\
  (exists wdn,
     toggle_times (cycle_length (has_mixed t)) self wd = (Ok tt, wdn) /\
     state_of wdn self = Some (_state t)).
Proof.
  intros Hl Hk Hin.
  destruct (toggle_step wd self t Hl Hk (cycle_states_on_cycle _ _ Hin))
    as (wd1 & t1 & E1 & L1 & K1 & M1 & S1).
  split.
  { exists wd1. split; [exact E1|]. unfold state_of. rewrite L1, <- S1. reflexivity. }
  assert (In1 : In (_state t1) [PyBool false; PyBool true; mixed]).
  { rewrite S1. destruct (_state t) as [|[]| |]; cbn [cycle_next];
      try destruct (has_mixed t); cbn [In]; auto. }
  destruct (toggle_step wd1 self t1 L1 K1 In1)
    as (wd2 & t2 & E2 & L2 & K2 & M2 & S2).
  assert (In2 : In (_state t2) [PyBool false; PyBool true; mixed]).
  { rewrite S2. destruct (_state t1) as [|[]| |]; cbn [cycle_next];
      try destruct (has_mixed t1); cbn [In]; auto. }
  destruct (toggle_step wd2 self t2 L2 K2 In2)
    as (wd3 & t3 & E3 & L3 & K3 & M3 & S3).
  unfold state_of. rewrite M2, M1 in S3. rewrite M1 in S2.
  destruct (has_mixed t) eqn:Hm; cbn [cycle_length toggle_times cycle_states In] in *.
  - exists wd3. unfold mbind, M_bind. rewrite E1, E2, E3.
    split; [reflexivity|]. rewrite L3. cbn [fmap option_fmap option_map].
    f_equal. rewrite S3, S2, S1.
    destruct Hin as [E|[E|[E|[]]]]; rewrite <- E; reflexivity.
  - exists wd2. unfold mbind, M_bind. rewrite E1, E2.
    split; [reflexivity|]. rewrite L2. cbn [fmap option_fmap option_map].
    f_equal. rewrite S2, S1.
    destruct Hin as [E|[E|[]]]; rewrite <- E; reflexivity.
Qed.

Lemma toggle_state_cycle_witness :
  (exists wd1, toggle_state 0 mixed_checkbox = (Ok tt, wd1) /\
     state_of wd1 0 = Some (PyBool false)) /\
  (exists wdn, toggle_times 3 0 mixed_checkbox = (Ok tt, wdn) /\
     state_of wdn 0 = Some mixed).
Proof.
  pose proof (toggle_state_cycle mixed_checkbox 0 _ eq_refl eq_refl) as H.
  cbn [cycle_states cycle_length cycle_next has_mixed _state] in H.
  apply H. right. right. left. reflexivity.
Defined.

(** C5 as stated fails on [CheckBox("Onions", "mixed")]: the control has
    no mixed-state support, its state is mixed all the same, and two
    calls of [toggle_state] lead to True, not back to mixed. *)
Lemma toggle_twice_from_mixed_counterexample :
  (has_mixed <$> toggles stuck_checkbox !! 0) = Some false /\
  state_of stuck_checkbox 0 = Some mixed /\
  exists wd2, toggle_times 2 0 stuck_checkbox = (Ok tt, wd2) /\
    state_of wd2 0 = Some (PyBool true) /\
    state_of wd2 0 <> state_of stuck_checkbox 0.
Proof.
  split; [vm_compute; reflexivity|]. split; [vm_compute; reflexivity|].
  eexists. split; [vm_compute; reflexivity|].
  split; [vm_compute; reflexivity|]. vm_compute. discriminate.
Qed.

(** ** Construction *)

Lemma lookup_snoc {A} (l : list A) x : (l ++ [x]) !! length l = Some x.
Proof. apply list_lookup_middle. reflexivity. Qed.

Lemma insert_snoc {A} (l : list A) x y : <[length l := y]> (l ++ [x]) = l ++ [y].
Proof.
  rewrite insert_app_r_alt by lia. rewrite Nat.sub_diag. reflexivity.
Qed.

Lemma modify_toggle_snoc wd ts x f :
  toggles wd = ts ++ [x] ->
  modify_toggle (length ts) f wd = (Ok tt, set_toggles (ts ++ [f x]) wd).
Proof.
  intros E. unfold modify_toggle. rewrite E, lookup_snoc, insert_snoc.
  reflexivity.
Qed.

Section Construction.

(** Whatever [self.set_state] is bound to. *)
Variable sstate : nat -> pyval -> bool -> M unit.

Lemma Methods_CheckBox__init__eq wd ts k g lbl state mixed_ok on_state_change data :
  toggles wd = ts ++ [with_group g (blank k)] ->
  Methods.CheckBox__init__ sstate (length ts) lbl state mixed_ok on_state_change data wd =
  sstate (length ts) state true
    (set_toggles (ts ++ [fresh k g lbl mixed_ok on_state_change data]) wd).
Proof.
  intros E. unfold Methods.CheckBox__init__, connect_signal, set_label.
  unfold mbind, M_bind.
  erewrite modify_toggle_snoc by eassumption.
  erewrite modify_toggle_snoc by reflexivity.
  erewrite modify_toggle_snoc by reflexivity.
  erewrite modify_toggle_snoc by reflexivity.
  destruct on_state_change as [f|].
  - erewrite modify_toggle_snoc by reflexivity.
    erewrite modify_toggle_snoc by reflexivity. reflexivity.
  - unfold mret, M_ret.
    erewrite modify_toggle_snoc by reflexivity. reflexivity.
Qed.

Lemma Methods_new_CheckBox_eq wd lbl state mixed_ok on_state_change data :
  Methods.new_CheckBox sstate lbl state mixed_ok on_state_change data wd =
  match sstate (length (toggles wd)) state true
          (grown CheckBoxK None lbl mixed_ok on_state_change data wd) with
  | (Ok _, w2) => (Ok (length (toggles wd)), w2)
  | (Raise e, w2) => (Raise e, w2)
  end.
Proof.
  unfold Methods.new_CheckBox, alloc_toggle. unfold mbind at 1, M_bind.
  unfold mbind, M_bind.
  erewrite Methods_CheckBox__init__eq by reflexivity. reflexivity.
Qed.

Lemma Methods_new_RadioButton_dangling wd g lbl state on_state_change data :
  groups wd !! g = None ->
  Methods.new_RadioButton sstate g lbl state on_state_change data wd = (Raise Dangling, wd).
Proof.
  intros Hg. unfold Methods.new_RadioButton, mbind, M_bind, get_group.
  rewrite Hg. reflexivity.
Qed.

Lemma Methods_new_RadioButton_eq wd g ms lbl state on_state_change data :
  groups wd !! g = Some ms ->
  Methods.new_RadioButton sstate g lbl state on_state_change data wd =
  match sstate (length (toggles wd)) (first_state state ms) true
          (grown RadioButtonK (Some g) lbl false on_state_change data wd) with
  | (Ok _, w2) =>
      match groups w2 !! g with
      | Some ms2 =>
          (Ok (length (toggles wd)),
           snd (set_group g (ms2 ++ [length (toggles wd)]) w2))
      | None => (Raise Dangling, w2)
      end
  | (Raise e, w2) => (Raise e, w2)
  end.
Proof.
  intros Hg. unfold Methods.new_RadioButton, alloc_toggle, Methods.RadioButton__init__, first_state.
  unfold mbind, M_bind, mret, M_ret, get_group. rewrite Hg.
  assert (Hgs : forall ts, groups (set_toggles ts wd) = groups wd) by reflexivity.
  assert (E : forall v,
    (let (o0, w'0) :=
       modify_toggle (length (toggles wd)) (with_group (Some g))
         (set_toggles (toggles wd ++ [blank RadioButtonK]) wd) in
     match o0 with
     | Ok _ =>
         let (o1, w'1) :=
           Methods.CheckBox__init__ sstate (length (toggles wd)) lbl v false
             on_state_change data w'0 in
         match o1 with
         | Ok _ =>
             let (o2, w'2) :=
               match groups w'1 !! g with
               | Some ms0 => (Ok ms0, w'1)
               | None => (Raise Dangling, w'1)
               end in
             match o2 with
             | Ok a2 => set_group g (a2 ++ [length (toggles wd)]) w'2
             | Raise e => (Raise e, w'2)
             end
         | Raise e => (Raise e, w'1)
         end
     | Raise e => (Raise e, w'0)
     end) =
    match sstate (length (toggles wd)) v true
            (grown RadioButtonK (Some g) lbl false on_state_change data wd) with
    | (Ok _, w2) =>
        match groups w2 !! g with
        | Some ms2 => set_group g (ms2 ++ [length (toggles wd)]) w2
        | None => (Raise Dangling, w2)
        end
    | (Raise e, w2) => (Raise e, w2)
    end).
  { intros v. erewrite modify_toggle_snoc by reflexivity.
    erewrite Methods_CheckBox__init__eq by reflexivity. unfold grown.
    match goal with |- context [sstate ?n v true ?w] =>
      change w with
        (set_toggles
           (toggles wd ++
            [fresh RadioButtonK (Some g) lbl false on_state_change data]) wd)
    end.
    destruct (sstate _ v true _) as [[[]|e] w2]; [|reflexivity].
    destruct (groups w2 !! g); reflexivity. }
  destruct (py_eq state first_True).
  - rewrite Hgs, Hg, E.
    destruct (sstate _ _ true _) as [[[]|e] w2]; [|reflexivity].
    destruct (groups w2 !! g); reflexivity.
  - rewrite E.
    destruct (sstate _ _ true _) as [[[]|e] w2]; [|reflexivity].
    destruct (groups w2 !! g); reflexivity.
Qed.

End Construction.

Lemma CheckBox__init__eq wd ts k g lbl state mixed_ok on_state_change data :
  toggles wd = ts ++ [with_group g (blank k)] ->
  CheckBox__init__ (length ts) lbl state mixed_ok on_state_change data wd =
  set_state (length ts) state true
    (set_toggles (ts ++ [fresh k g lbl mixed_ok on_state_change data]) wd).
Proof. apply Methods_CheckBox__init__eq. Qed.

Lemma new_CheckBox_eq wd lbl state mixed_ok on_state_change data :
  new_CheckBox lbl state mixed_ok on_state_change data wd =
  match set_state (length (toggles wd)) state true
          (grown CheckBoxK None lbl mixed_ok on_state_change data wd) with
  | (Ok _, w2) => (Ok (length (toggles wd)), w2)
  | (Raise e, w2) => (Raise e, w2)
  end.
Proof. apply Methods_new_CheckBox_eq. Qed.

Lemma new_RadioButton_dangling wd g lbl state on_state_change data :
  groups wd !! g = None ->
  new_RadioButton g lbl state on_state_change data wd = (Raise Dangling, wd).
Proof. apply Methods_new_RadioButton_dangling. Qed.

Lemma new_RadioButton_eq wd g ms lbl state on_state_change data :
  groups wd !! g = Some ms ->
  new_RadioButton g lbl state on_state_change data wd =
  match set_state (length (toggles wd)) (first_state state ms) true
          (grown RadioButtonK (Some g) lbl false on_state_change data wd) with
  | (Ok _, w2) =>
      match groups w2 !! g with
      | Some ms2 =>
          (Ok (length (toggles wd)),
           snd (set_group g (ms2 ++ [length (toggles wd)]) w2))
      | None => (Raise Dangling, w2)
      end
  | (Raise e, w2) => (Raise e, w2)
  end.
Proof. apply Methods_new_RadioButton_eq. Qed.

(** ** Stores along a program *)

Lemma persists_refl wd : persists wd wd.
Proof. intros j t H. exists t. repeat split; auto. Qed.

Lemma persists_trans a b c : persists a b -> persists b c -> persists a c.
Proof.
  intros H1 H2 j t Hj.
  destruct (H1 j t Hj) as (t1 & Hj1 & K1 & M1 & G1 & S1).
  destruct (H2 j t1 Hj1) as (t2 & Hj2 & K2 & M2 & G2 & S2).
  exists t2. repeat split; try congruence.
  destruct S2 as [S2|S2]; [rewrite S2; assumption|right; assumption].
Qed.

Lemma tame_refl wd : tame wd wd.
Proof. split; auto using persists_refl. Qed.

Lemma tame_trans a b c : tame a b -> tame b c -> tame a c.
Proof.
  intros [G1 L1 P1] [G2 L2 P2]. split; try congruence.
  eapply persists_trans; eauto.
Qed.

Lemma tame_well_formed wd wd' : tame wd wd' -> well_formed wd -> well_formed wd'.
Proof.
  intros [G L P] [W1 W2 W3]. split.
  - intros i t' Hi Hk.
    assert (is_Some (toggles wd !! i)) as [t Ht].
    { apply lookup_lt_is_Some. rewrite <- L. eapply lookup_lt_Some; eauto. }
    destruct (P i t Ht) as (t2 & Hi2 & K & _ & Gr & _).
    assert (t2 = t') as -> by congruence.
    destruct (W1 i t Ht) as (g & ms & Hg & Hms); [congruence|].
    exists g, ms. rewrite G. split; congruence.
  - intros g ms m Hms Hm. rewrite G in Hms.
    destruct (W2 g ms m Hms Hm) as (t & Ht & K & Gr).
    destruct (P m t Ht) as (t' & Ht' & K' & _ & Gr' & _).
    exists t'. repeat split; congruence.
  - intros g ms Hms. rewrite G in Hms. eauto.
Qed.

Lemma members_elem wd g m :
  m ∈ members wd g -> exists ms, groups wd !! g = Some ms /\ m ∈ ms.
Proof.
  unfold members. destruct (groups wd !! g) as [ms|]; simpl.
  - eauto.
  - intros H. inversion H.
Qed.

Lemma members_lookup wd g ms : groups wd !! g = Some ms -> members wd g = ms.
Proof. unfold members. intros ->. reflexivity. Qed.

Section Filter.

Context {A : Type} (P Q : A -> Prop).
Context `{!forall x, Decision (P x)} `{!forall x, Decision (Q x)}.

Lemma filter_length_le (l : list A) :
  (forall x, x ∈ l -> P x -> Q x) ->
  length (filter P l) <= length (filter Q l).
Proof.
  induction l as [|a l IH]; intros HPQ; [reflexivity|].
  rewrite !filter_cons.
  assert (IH' : length (filter P l) <= length (filter Q l)).
  { apply IH. intros x Hx. apply HPQ. right. assumption. }
  destruct (decide (P a)) as [Hp|Hp].
  - rewrite decide_True by (apply HPQ; [left|assumption]). simpl. lia.
  - destruct (decide (Q a)); simpl; lia.
Qed.

Lemma filter_none (l : list A) :
  (forall x, x ∈ l -> ~ P x) -> filter P l = [].
Proof.
  induction l as [|a l IH]; intros HPQ; [reflexivity|].
  rewrite filter_cons, decide_False by (apply HPQ; left).
  apply IH. intros x Hx. apply HPQ. right. assumption.
Qed.

Lemma filter_at_most_one (l : list A) (a : A) :
  NoDup l -> (forall x, x ∈ l -> P x -> x = a) ->
  length (filter P l) <= 1.
Proof.
  induction l as [|b l IH]; intros Hnd HPQ; [simpl; lia|].
  apply NoDup_cons in Hnd as [Hb Hnd].
  rewrite filter_cons. destruct (decide (P b)) as [Hp|Hp].
  - assert (b = a) as -> by (apply HPQ; [left|assumption]).
    rewrite filter_none; [simpl; lia|].
    intros x Hx Hpx. assert (x = a) by (apply HPQ; [right|]; assumption).
    subst. contradiction.
  - apply IH; [assumption|]. intros x Hx. apply HPQ. right. assumption.
Qed.

End Filter.

Lemma selected_le wd wd' g :
  groups wd' = groups wd ->
  (forall m, m ∈ members wd g ->
     holds_True (toggles wd') m = true -> holds_True (toggles wd) m = true) ->
  length (selected wd' g) <= length (selected wd g).
Proof.
  intros G H. unfold selected.
  assert (members wd' g = members wd g) as -> by (unfold members; rewrite G; reflexivity).
  apply filter_length_le. exact H.
Qed.

Lemma tame_exclusive wd wd' :
  tame wd wd' -> no_new_True wd wd' -> exclusive wd -> exclusive wd'.
Proof.
  intros T N E g. etransitivity; [|apply (E g)].
  apply selected_le; [apply (tame_groups _ _ T)|]. intros m _. apply N.
Qed.

Lemma set_state_dangling wd self state do_callback :
  toggles wd !! self = None ->
  set_state self state do_callback wd = (Raise Dangling, wd).
Proof.
  intros Hl. unfold set_state, call_depth. rewrite call_set_state_S, Hl.
  reflexivity.
Qed.

Lemma dict_get_valid k v icon :
  dict_get (states k) v = Some icon -> valid_state v = true.
Proof.
  intros H. rewrite <- (dict_in_states k). unfold dict_in. rewrite H. reflexivity.
Qed.

Lemma dict_get_invalid k v :
  dict_get (states k) v = None -> valid_state v = false.
Proof.
  intros H. rewrite <- (dict_in_states k). unfold dict_in. rewrite H. reflexivity.
Qed.

(** Either the call leaves the store as it was (same value, rejected
    value, no such object), or it is a transition that goes through. *)
Lemma set_state_outcome wd self state do_callback :
  well_formed wd ->
  snd (set_state self state do_callback wd) = wd \/
  exists t icon wd',
    toggles wd !! self = Some t /\ py_eq (_state t) state = false /\
    dict_get (states (klass t)) state = Some icon /\
    set_state self state do_callback wd = (Ok tt, wd') /\
    quiet self (commit self state do_callback t icon wd) wd' /\
    (klass t = RadioButtonK -> is_True state = true ->
     forall g ms m, group t = Some g -> groups wd !! g = Some ms ->
       m ∈ ms -> m <> self -> holds_True (toggles wd') m = false) /\
    (is_True state = false \/ klass t = CheckBoxK ->
     wd' = commit self state do_callback t icon wd).
Proof.
  intros Hwf. destruct (toggles wd !! self) as [t|] eqn:Hl.
  2:{ left. rewrite set_state_dangling by assumption. reflexivity. }
  destruct (py_eq (_state t) state) eqn:He.
  { left. erewrite set_state_unchanged by eassumption. reflexivity. }
  destruct (dict_get (states (klass t)) state) as [icon|] eqn:Hi.
  2:{ left. erewrite set_state_rejects; eauto using dict_get_invalid. }
  right.
  destruct (set_state_changes wd self t state do_callback icon Hwf Hl He Hi)
    as (wd' & E & Q & C & D).
  exists t, icon, wd'. auto 10.
Qed.

Lemma changed_lookup wd wd' self t state do_callback icon :
  toggles wd !! self = Some t ->
  quiet self (commit self state do_callback t icon wd) wd' ->
  forall j tj, toggles wd !! j = Some tj ->
    exists t', toggles wd' !! j = Some t' /\ same_object tj t' /\
      ((j = self /\ _state t' = state) \/
       (j <> self /\ (t' = tj \/ _state t' = PyBool false))).
Proof.
  intros Hl Q j tj Hj.
  pose proof (lookup_lt_Some _ _ _ Hl) as Hlt.
  destruct (decide (j = self)) as [->|Hne].
  - assert (tj = t) as -> by congruence.
    exists (committed state icon t).
    rewrite (quiet_self _ _ _ Q). cbn [commit toggles].
    rewrite list_lookup_insert_eq by assumption.
    split; [reflexivity|]. split; [apply same_object_committed|]. left. auto.
  - destruct (quiet_others _ _ _ Q j tj) as (t' & Ht' & So & Hc).
    { cbn [commit toggles]. rewrite list_lookup_insert_ne by congruence.
      assumption. }
    exists t'. auto.
Qed.

Lemma set_state_tame wd self state do_callback :
  well_formed wd -> tame wd (snd (set_state self state do_callback wd)).
Proof.
  intros Hwf.
  destruct (set_state_outcome wd self state do_callback Hwf)
    as [->|(t & icon & wd' & Hl & He & Hi & E & Q & C & D)];
    [apply tame_refl|].
  rewrite E. cbn [snd]. split.
  - rewrite (quiet_groups _ _ _ Q). reflexivity.
  - rewrite (quiet_length _ _ _ Q). cbn [commit toggles]. apply length_insert.
  - intros j tj Hj.
    destruct (changed_lookup _ _ _ _ _ _ _ Hl Q j tj Hj)
      as (t' & Ht' & (K & G & M & _) & Hc).
    exists t'. repeat split; auto.
    destruct Hc as [[-> ->]|[_ [->| ->]]]; auto.
    right. eapply dict_get_valid; eauto.
Qed.

Lemma holds_True_lookup ts j t :
  ts !! j = Some t -> holds_True ts j = is_True (_state t).
Proof. unfold holds_True. intros ->. reflexivity. Qed.

Lemma holds_True_exists ts j :
  holds_True ts j = true -> exists t, ts !! j = Some t /\ is_True (_state t) = true.
Proof.
  unfold holds_True. destruct (ts !! j) as [t|]; [eauto|discriminate].
Qed.

Lemma set_state_exclusive wd self state do_callback :
  well_formed wd -> exclusive wd ->
  exclusive (snd (set_state self state do_callback wd)).
Proof.
  intros Hwf Hex.
  destruct (set_state_outcome wd self state do_callback Hwf)
    as [->|(t & icon & wd' & Hl & He & Hi & E & Q & C & D)]; [assumption|].
  rewrite E. cbn [snd].
  assert (HG : groups wd' = groups wd) by (rewrite (quiet_groups _ _ _ Q); reflexivity).
  (* a member other than [self] is [True] afterwards only if it was before *)
  assert (Hother : forall m, m <> self ->
            holds_True (toggles wd') m = true -> holds_True (toggles wd) m = true).
  { intros m Hne Hm. apply holds_True_exists in Hm as (t' & Ht' & HT).
    assert (is_Some (toggles wd !! m)) as [tm Htm].
    { apply lookup_lt_is_Some. apply lookup_lt_Some in Ht'.
      rewrite (quiet_length _ _ _ Q) in Ht'. cbn [commit toggles] in Ht'.
      rewrite length_insert in Ht'. assumption. }
    destruct (changed_lookup _ _ _ _ _ _ _ Hl Q m tm Htm) as (t2 & Ht2 & _ & Hc).
    assert (t2 = t') as -> by congruence.
    destruct Hc as [[? _]|[_ [->|Hs]]]; [contradiction| |].
    - rewrite (holds_True_lookup _ _ _ Htm). assumption.
    - rewrite Hs in HT. discriminate. }
  intros g.
  destruct (decide (self ∈ members wd g /\ is_True state = true)) as [[Hin HT]|Hno].
  - (* [self] is a member set to [True]: the loop cleared the others *)
    apply members_elem in Hin as (ms & Hms & Hin).
    destruct (wf_member _ Hwf g ms self Hms Hin) as (t0 & Ht0 & Hk & Hg).
    assert (t0 = t) as -> by congruence.
    unfold selected, members. rewrite HG, Hms. cbn [default].
    apply (filter_at_most_one _ ms self); [eapply wf_nodup; eauto|].
    intros m Hm Hm'. destruct (decide (m = self)) as [|Hne]; [assumption|].
    rewrite (C Hk HT g ms m Hg Hms Hm Hne) in Hm'. discriminate.
  - etransitivity; [|apply (Hex g)]. apply selected_le; [assumption|].
    intros m Hm Hm'. destruct (decide (m = self)) as [->|Hne]; [|auto].
    exfalso. apply Hno. split; [assumption|].
    apply holds_True_exists in Hm' as (t' & Ht' & HT').
    destruct (changed_lookup _ _ _ _ _ _ _ Hl Q self t Hl) as (t2 & Ht2 & _ & Hc).
    assert (t2 = t') as -> by congruence.
    destruct Hc as [[_ <-]|[? _]]; [assumption|contradiction].
Qed.

Lemma set_state_Inv wd self state do_callback :
  Inv wd -> Inv (snd (set_state self state do_callback wd)).
Proof.
  intros [Hwf Hex]. split.
  - eapply tame_well_formed; [apply set_state_tame|]; assumption.
  - apply set_state_exclusive; assumption.
Qed.


Lemma good_refl wd : Inv wd -> good wd wd.
Proof. intros H. split; [assumption|apply tame_refl]. Qed.

Lemma good_trans a b c : good a b -> good b c -> good a c.
Proof. intros [_ T1] [I2 T2]. split; [assumption|eapply tame_trans; eauto]. Qed.

Lemma set_state_good wd self state do_callback :
  Inv wd -> good wd (snd (set_state self state do_callback wd)).
Proof.
  intros HI. split; [apply set_state_Inv; assumption|].
  apply set_state_tame. apply HI.
Qed.


Lemma modify_toggle_good wd i f :
  cosmetic f -> Inv wd -> good wd (snd (modify_toggle i f wd)).
Proof.
  intros Hf HI. unfold modify_toggle.
  destruct (toggles wd !! i) as [t|] eqn:Hl; cbn [snd]; [|apply good_refl; assumption].
  pose proof (lookup_lt_Some _ _ _ Hl) as Hlt.
  destruct (Hf t) as (K & G & M & S).
  assert (T : tame wd (set_toggles (<[i:=f t]> (toggles wd)) wd)).
  { split; cbn [set_toggles toggles groups]; [reflexivity|apply length_insert|].
    intros j tj Hj. cbn [set_toggles toggles].
    destruct (decide (i = j)) as [->|Hne].
    - rewrite list_lookup_insert_eq by assumption.
      assert (tj = t) as -> by congruence. exists (f t). auto 10.
    - rewrite list_lookup_insert_ne by assumption. exists tj. auto 10. }
  split; [|exact T]. destruct HI as [Hwf Hex]. split.
  - eapply tame_well_formed; eauto.
  - eapply tame_exclusive; eauto.
    intros j. unfold holds_True. cbn [set_toggles toggles].
    destruct (decide (i = j)) as [<-|Hne].
    + rewrite list_lookup_insert_eq by assumption. rewrite Hl, S. auto.
    + rewrite list_lookup_insert_ne by assumption. auto.
Qed.

Lemma cosmetic_invalidate : cosmetic _invalidate.
Proof. intros t. repeat split. Qed.

Lemma cosmetic_with_label m : cosmetic (with_label m).
Proof. intros t. repeat split. Qed.

Lemma cosmetic_with_handlers h : cosmetic (fun t => with_handlers (h t) t).
Proof. intros t. repeat split. Qed.

Lemma toggle_state_good wd self :
  Inv wd -> good wd (snd (toggle_state self wd)).
Proof.
  intros HI. unfold toggle_state, Methods.toggle_state, mbind, M_bind, get_toggle.
  destruct (toggles wd !! self) as [t|] eqn:Hl; [|apply good_refl; assumption].
  destruct (klass t).
  - unfold CheckBox_toggle_state, Methods.CheckBox_toggle_state, mbind, M_bind, get_toggle. rewrite Hl.
    assert (H1 : forall (r : Outcome unit) w1,
      good wd w1 ->
      good wd (snd (match r with
                    | Ok _ => modify_toggle self _invalidate w1
                    | Raise e => (Raise e, w1)
                    end))).
    { intros [[]|e] w1 G1; cbn [snd]; [|assumption].
      eapply good_trans; [exact G1|].
      apply modify_toggle_good; [apply cosmetic_invalidate|apply G1]. }
    assert (H2 : forall v,
      good wd (snd (let (o, w') := set_state self v true wd in
                    match o with
                    | Ok _ => modify_toggle self _invalidate w'
                    | Raise e => (Raise e, w')
                    end))).
    { intros v. pose proof (set_state_good wd self v true HI) as G1.
      destruct (set_state self v true wd) as [r w1]. apply H1. exact G1. }
    destruct (py_eq (_state t) (PyBool false)); [apply H2|].
    destruct (py_eq (_state t) (PyBool true)).
    { destruct (has_mixed t); apply H2. }
    destruct (py_eq (_state t) mixed); [apply H2|].
    apply (H1 (Ok tt) wd). apply good_refl. assumption.
  - unfold RadioButton_toggle_state, Methods.RadioButton_toggle_state. apply set_state_good. assumption.
Qed.

Lemma same_controls_good wd wd' :
  toggles wd' = toggles wd -> groups wd' = groups wd -> Inv wd -> good wd wd'.
Proof.
  intros HT HG [[W1 W2 W3] Hex].
  assert (T : tame wd wd').
  { split; [assumption|rewrite HT; reflexivity|].
    intros j t Hj. exists t. rewrite HT. auto 10. }
  split; [|exact T]. split.
  - eapply tame_well_formed; eauto. split; assumption.
  - eapply tame_exclusive; eauto. intros j. rewrite HT. auto.
Qed.

Lemma persists_grow wd x :
  persists wd (set_toggles (toggles wd ++ [x]) wd).
Proof.
  intros j t Hj. exists t. cbn [set_toggles toggles].
  rewrite (lookup_app_l_Some _ _ _ _ Hj). auto 10.
Qed.

Lemma holds_True_grow ts x m :
  m < length ts -> holds_True (ts ++ [x]) m = holds_True ts m.
Proof. intros H. unfold holds_True. rewrite lookup_app_l by assumption. reflexivity. Qed.

Lemma Inv_grow wd x :
  Inv wd ->
  (klass x = RadioButtonK ->
   exists g ms, group x = Some g /\ groups wd !! g = Some ms) ->
  Inv (set_toggles (toggles wd ++ [x]) wd).
Proof.
  intros [[W1 W2 W3] Hex] Hx. split; [split|]; cbn [set_toggles toggles groups].
  - intros i t Hi Hk. apply lookup_snoc_Some in Hi as [[_ Hi]|[_ <-]]; eauto.
  - intros g ms m Hms Hm. destruct (W2 g ms m Hms Hm) as (t & Ht & ?).
    exists t. split; [apply lookup_app_l_Some; assumption|assumption].
  - exact W3.
  - intros g. etransitivity; [|apply (Hex g)].
    apply selected_le; [reflexivity|]. cbn [set_toggles toggles].
    intros m Hm. apply members_elem in Hm as (ms & Hms & Hm).
    destruct (W2 g ms m Hms Hm) as (t & Ht & _).
    rewrite holds_True_grow by (eapply lookup_lt_Some; eauto). auto.
Qed.

Lemma new_CheckBox_snd wd lbl state mixed_ok on_state_change data :
  snd (new_CheckBox lbl state mixed_ok on_state_change data wd) =
  snd (set_state (length (toggles wd)) state true
         (grown CheckBoxK None lbl mixed_ok on_state_change data wd)).
Proof.
  rewrite new_CheckBox_eq.
  destruct (set_state _ state true _) as [[[]|e] w2]; reflexivity.
Qed.

Lemma new_CheckBox_step wd lbl state mixed_ok on_state_change data :
  Inv wd ->
  Inv (snd (new_CheckBox lbl state mixed_ok on_state_change data wd)) /\
  persists wd (snd (new_CheckBox lbl state mixed_ok on_state_change data wd)).
Proof.
  intros HI. rewrite new_CheckBox_snd.
  assert (HG : Inv (grown CheckBoxK None lbl mixed_ok on_state_change data wd)).
  { apply Inv_grow; [assumption|]. discriminate. }
  destruct (set_state_good _ (length (toggles wd)) state true HG) as [I2 T2].
  split; [assumption|].
  eapply persists_trans; [apply persists_grow|apply (tame_persists _ _ T2)].
Qed.

Lemma append_member_Inv w2 g ms self ts :
  Inv w2 -> groups w2 !! g = Some ms ->
  toggles w2 !! self = Some ts -> klass ts = RadioButtonK -> group ts = Some g ->
  self ∉ ms ->
  (holds_True (toggles w2) self = true ->
   forall m, m ∈ ms -> holds_True (toggles w2) m = false) ->
  Inv (snd (set_group g (ms ++ [self]) w2)).
Proof.
  intros [[W1 W2 W3] Hex] Hg Hs Hk Hgr Hnin Hcl.
  pose proof (lookup_lt_Some _ _ _ Hg) as Hlt.
  unfold set_group. cbn [snd].
  split; [split|]; cbn [toggles groups].
  - intros i t Hi Hkt. destruct (W1 i t Hi Hkt) as (g0 & ms0 & Hg0 & Hms0).
    exists g0. destruct (decide (g = g0)) as [<-|Hne].
    + exists (ms ++ [self]). split; [assumption|].
      apply list_lookup_insert_eq. assumption.
    + exists ms0. split; [assumption|].
      rewrite list_lookup_insert_ne by assumption. assumption.
  - intros g' ms' m Hms' Hm. destruct (decide (g = g')) as [<-|Hne].
    + rewrite list_lookup_insert_eq in Hms' by assumption.
      injection Hms' as <-. apply elem_of_app in Hm as [Hm|Hm].
      * eauto.
      * apply list_elem_of_singleton in Hm as ->. eauto.
    + rewrite list_lookup_insert_ne in Hms' by assumption. eauto.
  - intros g' ms' Hms'. destruct (decide (g = g')) as [<-|Hne].
    + rewrite list_lookup_insert_eq in Hms' by assumption.
      injection Hms' as <-. apply NoDup_app. split; [eauto|].
      split; [|apply NoDup_singleton].
      intros x Hx Hx'. apply list_elem_of_singleton in Hx' as ->. contradiction.
  + rewrite list_lookup_insert_ne in Hms' by assumption. eauto.
  - intros g'. unfold selected, members. cbn [toggles groups].
    destruct (decide (g = g')) as [<-|Hne].
    + rewrite list_lookup_insert_eq by assumption. cbn [default from_option id].
      destruct (holds_True (toggles w2) self) eqn:HT.
      * apply (filter_at_most_one _ _ self).
        { apply NoDup_app. split; [eauto|]. split; [|apply NoDup_singleton].
          intros x Hx Hx'. apply list_elem_of_singleton in Hx' as ->.
          contradiction. }
        intros m Hm Hm'. apply elem_of_app in Hm as [Hm|Hm].
        -- rewrite (Hcl eq_refl m Hm) in Hm'. discriminate.
        -- apply list_elem_of_singleton in Hm. assumption.
      * rewrite filter_app, length_app.
        rewrite (filter_none _ [self]).
        2:{ intros x Hx. apply list_elem_of_singleton in Hx as ->.
            rewrite HT. discriminate. }
        pose proof (Hex g) as Hg'. unfold selected, members in Hg'.
        rewrite Hg in Hg'. cbn [default from_option id] in Hg'. simpl. lia.
    + rewrite list_lookup_insert_ne by assumption. apply (Hex g').
Qed.

Lemma grown_lookup k g lbl mixed_ok on_state_change data wd :
  toggles (grown k g lbl mixed_ok on_state_change data wd)
    !! length (toggles wd)
  = Some (fresh k g lbl mixed_ok on_state_change data).
Proof. unfold grown. cbn [set_toggles toggles]. apply lookup_snoc. Qed.

Lemma persists_same_toggles wd wd' :
  toggles wd' = toggles wd -> persists wd wd'.
Proof. intros E j t Hj. exists t. rewrite E. auto 10. Qed.

(** The new radio button after its first [set_state], before it is
    appended to the list: it is [True] only if no member is. *)
Lemma first_set_state_clears wd g ms lbl state on_state_change data :
  Inv wd -> groups wd !! g = Some ms ->
  let self := length (toggles wd) in
  let w2 := snd (set_state self state true
                   (grown RadioButtonK (Some g) lbl false on_state_change data wd)) in
  holds_True (toggles w2) self = true ->
  forall m, m ∈ ms -> holds_True (toggles w2) m = false.
Proof.
  intros HI Hg self w2. subst self w2.
  assert (HG : Inv (grown RadioButtonK (Some g) lbl false on_state_change data wd)).
  { apply Inv_grow; [assumption|]. intros _. exists g, ms. auto. }
  pose proof (grown_lookup RadioButtonK (Some g) lbl false on_state_change data wd)
    as Hx.
  destruct (set_state_outcome _ (length (toggles wd)) state true (proj1 HG))
    as [E|(t & icon & wd' & Hl & He & Hi & E & Q & C & D)].
  - rewrite E. rewrite (holds_True_lookup _ _ _ Hx). discriminate.
  - rewrite E. cbn [snd].
    assert (t = fresh RadioButtonK (Some g) lbl false on_state_change data)
      as Et by congruence.
    intros HT m Hm.
    destruct (changed_lookup _ _ _ _ _ _ _ Hl Q _ t Hl) as (t2 & Ht2 & _ & Hc).
    rewrite (holds_True_lookup _ _ _ Ht2) in HT.
    destruct Hc as [[_ Hs]|[? _]]; [|contradiction]. rewrite Hs in HT.
    apply (C ltac:(rewrite Et; reflexivity) HT g ms m);
      [rewrite Et; reflexivity|exact Hg|exact Hm|].
    destruct HI as [[_ W2 _] _].
    destruct (W2 g ms m Hg Hm) as (tm & Htm & _).
    apply lookup_lt_Some in Htm. lia.
Qed.

Lemma new_RadioButton_step wd g lbl state on_state_change data :
  Inv wd ->
  Inv (snd (new_RadioButton g lbl state on_state_change data wd)) /\
  persists wd (snd (new_RadioButton g lbl state on_state_change data wd)).
Proof.
  intros HI. destruct (groups wd !! g) as [ms|] eqn:Hg.
  2:{ rewrite new_RadioButton_dangling by assumption.
      split; [assumption|apply persists_refl]. }
  rewrite (new_RadioButton_eq _ _ _ _ _ _ _ Hg).
  set (self := length (toggles wd)).
  set (wg := grown RadioButtonK (Some g) lbl false on_state_change data wd).
  assert (HG : Inv wg).
  { apply Inv_grow; [assumption|]. intros _. exists g, ms. auto. }
  pose proof (set_state_good wg self (first_state state ms) true HG) as [I2 T2].
  pose proof (first_set_state_clears wd g ms lbl (first_state state ms)
                on_state_change data HI Hg) as Hcl.
  cbv zeta in Hcl. fold self wg in Hcl.
  assert (P2 : persists wd
                 (snd (set_state self (first_state state ms) true wg))).
  { eapply persists_trans; [apply persists_grow|apply (tame_persists _ _ T2)]. }
  destruct (set_state self (first_state state ms) true wg) as [[[]|e] w2];
    cbn [snd] in *; [|split; assumption].
  assert (Hg2 : groups w2 !! g = Some ms).
  { rewrite (tame_groups _ _ T2). exact Hg. }
  rewrite Hg2. cbn [snd].
  destruct (tame_persists _ _ T2 self _
              (grown_lookup RadioButtonK (Some g) lbl false on_state_change data wd))
    as (ts & Hts & Hk & _ & Hgr & _).
  split.
  - eapply append_member_Inv; eauto.
    intros Hin. destruct HI as [[_ W2 _] _].
    destruct (W2 g ms self Hg Hin) as (tm & Htm & _).
    apply lookup_lt_Some in Htm. unfold self in Htm. lia.
  - eapply persists_trans; [exact P2|]. apply persists_same_toggles. reflexivity.
Qed.

Lemma new_list_step wd :
  Inv wd -> Inv (snd (new_list wd)) /\ persists wd (snd (new_list wd)).
Proof.
  intros [[W1 W2 W3] Hex]. unfold new_list. cbn [snd].
  split; [|apply persists_same_toggles; reflexivity].
  split; [split|]; cbn [toggles groups].
  - intros i t Hi Hk. destruct (W1 i t Hi Hk) as (g & ms & Hg & Hms).
    exists g, ms. split; [assumption|]. apply lookup_app_l_Some. assumption.
  - intros g ms m Hms Hm. apply lookup_snoc_Some in Hms as [[_ Hms]|[_ <-]].
    + eauto.
    + inversion Hm.
  - intros g ms Hms. apply lookup_snoc_Some in Hms as [[_ Hms]|[_ <-]].
    + eauto.
    + constructor.
  - intros g. unfold selected, members. cbn [toggles groups].
    destruct (decide (g < length (groups wd))) as [Hlt|Hge].
    + rewrite lookup_app_l by assumption. apply (Hex g).
    + destruct ((groups wd ++ [[]]) !! g) as [ms|] eqn:Hms; [|simpl; lia].
      apply lookup_snoc_Some in Hms as [[? _]|[_ <-]]; [contradiction|].
      simpl. lia.
Qed.

Lemma good_persists wd wd' : good wd wd' -> Inv wd' /\ persists wd wd'.
Proof. intros [I T]. split; [assumption|apply (tame_persists _ _ T)]. Qed.

Lemma keeps_ret {A} (a : A) : keeps_controls (mret a).
Proof. intros wd. split; reflexivity. Qed.

Lemma keeps_bind {A B} (m : M A) (k : A -> M B) :
  keeps_controls m -> (forall a, keeps_controls (k a)) ->
  keeps_controls (m ≫= k).
Proof.
  intros Hm Hk wd. unfold mbind, M_bind. destruct (Hm wd) as [HT HG].
  destruct (m wd) as [[a|e] w1]; cbn [snd] in *; [|auto].
  destruct (Hk a w1) as [HT' HG']. split; congruence.
Qed.

Lemma keeps_modify_button i f : keeps_controls (modify_button i f).
Proof.
  intros wd. unfold modify_button.
  destruct (buttons wd !! i); split; reflexivity.
Qed.

Lemma keeps_get_button i : keeps_controls (get_button i).
Proof.
  intros wd. unfold get_button. destruct (buttons wd !! i); split; reflexivity.
Qed.

Lemma keeps_new_Columns l d : keeps_controls (new_Columns l d).
Proof. intros wd. split; reflexivity. Qed.

Lemma keeps_log e : keeps_controls (log e).
Proof. intros wd. split; reflexivity. Qed.

Lemma keeps_alloc_button : keeps_controls alloc_button.
Proof. intros wd. split; reflexivity. Qed.

Ltac keeps :=
  repeat first
    [ apply keeps_ret | apply keeps_modify_button | apply keeps_get_button
    | apply keeps_new_Columns | apply keeps_log | apply keeps_alloc_button
    | apply keeps_bind; [|intros] ].

Lemma keeps_Button_set_label self lbl : keeps_controls (Button_set_label self lbl).
Proof. unfold Button_set_label. keeps. Qed.

Lemma keeps_new_Button lbl press data : keeps_controls (new_Button lbl press data).
Proof.
  unfold new_Button, Button__init__. keeps.
Qed.

Lemma keeps_Button_keypress self size key :
  keeps_controls (Button_keypress self size key).
Proof.
  unfold Button_keypress. destruct (negb (activation_key key)); keeps.
  destruct (on_press a); keeps. destruct (is_None (user_data a)); keeps.
Qed.

Section Programs.

Variable command_map : string -> string.
Variable is_mouse_press : string -> bool.

Lemma keeps_Button_mouse_event self size event button x y focus :
  keeps_controls
    (Button_mouse_event is_mouse_press self size event button x y focus).
Proof.
  unfold Button_mouse_event.
  destruct (negb (Z.eqb button 1) || negb (is_mouse_press event)); keeps.
  destruct (on_press a); keeps.
Qed.

Lemma keypress_good wd self size key :
  Inv wd -> good wd (snd (keypress command_map self size key wd)).
Proof.
  intros HI. unfold keypress, Methods.keypress. fold toggle_state.
  destruct (negb (String.eqb (command_map key) "activate"));
    [apply good_refl; assumption|].
  unfold mbind, M_bind.
  pose proof (toggle_state_good wd self HI) as G.
  destruct (toggle_state self wd) as [[[]|e] w1]; exact G.
Qed.

Lemma mouse_event_good wd self size event button x y focus :
  Inv wd ->
  good wd (snd (mouse_event is_mouse_press self size event button x y focus wd)).
Proof.
  intros HI. unfold mouse_event, Methods.mouse_event. fold toggle_state.
  destruct (negb (Z.eqb button 1) || negb (is_mouse_press event));
    [apply good_refl; assumption|].
  unfold mbind, M_bind.
  pose proof (toggle_state_good wd self HI) as G.
  destruct (toggle_state self wd) as [[[]|e] w1]; exact G.
Qed.

Lemma step_Inv o wd :
  Inv wd ->
  Inv (step command_map is_mouse_press o wd) /\
  persists wd (step command_map is_mouse_press o wd).
Proof.
  intros HI. destruct o; unfold step; cbn [Methods.step].
  - apply new_list_step; assumption.
  - apply new_CheckBox_step; assumption.
  - apply new_RadioButton_step; assumption.
  - apply good_persists, same_controls_good;
      [apply keeps_new_Button..|assumption].
  - apply good_persists. unfold connect_signal.
    apply modify_toggle_good; [|assumption].
    apply (cosmetic_with_handlers (fun t => handlers t ++ [(f, data)])).
  - apply good_persists, set_state_good; assumption.
  - apply good_persists. unfold set_label.
    apply modify_toggle_good; [apply cosmetic_with_label|assumption].
  - apply good_persists, toggle_state_good; assumption.
  - apply good_persists, keypress_good; assumption.
  - apply good_persists, mouse_event_good; assumption.
  - apply good_persists, same_controls_good;
      [apply keeps_Button_set_label..|assumption].
  - apply good_persists, same_controls_good;
      [apply keeps_Button_keypress..|assumption].
  - apply good_persists, same_controls_good;
      [apply keeps_Button_mouse_event..|assumption].
Qed.

Lemma run_Inv ops : forall wd,
  Inv wd ->
  Inv (run command_map is_mouse_press ops wd) /\
  persists wd (run command_map is_mouse_press ops wd).
Proof.
  induction ops as [|o ops IH]; intros wd HI; unfold run; cbn [Methods.run];
    fold run.
  - split; [assumption|apply persists_refl].
  - fold (step command_map is_mouse_press o wd).
    destruct (step_Inv o wd HI) as [I1 P1].
    destruct (IH _ I1) as [I2 P2].
    split; [assumption|eapply persists_trans; eauto].
Qed.

Lemma Inv_empty : Inv empty_world.
Proof.
  split; [split|].
  - intros i t Hi. inversion Hi.
  - intros g ms m Hg. inversion Hg.
  - intros g ms Hg. inversion Hg.
  - intros g. unfold selected, members. simpl. lia.
Qed.

Lemma reachable_Inv ops : Inv (run command_map is_mouse_press ops empty_world).
Proof. apply run_Inv, Inv_empty. Qed.

End Programs.

(** ** Properties of the stores a program reaches *)

Lemma announced_first_time self state do_callback t seen :
  _state t = PyNone -> announced self state do_callback t seen = [].
Proof.
  intros E. unfold announced. rewrite E. cbn [is_None negb].
  rewrite andb_false_r. reflexivity.
Qed.

Lemma announced_defined self state t seen :
  is_None (_state t) = false ->
  announced self state true t seen = [Change self state seen].
Proof. intros E. unfold announced. rewrite E. reflexivity. Qed.

Lemma new_RadioButton_trace wd g ms lbl state on_state_change data :
  groups wd !! g = Some ms ->
  trace (snd (new_RadioButton g lbl state on_state_change data wd)) =
  trace (snd (set_state (length (toggles wd)) (first_state state ms) true
                (grown RadioButtonK (Some g) lbl false on_state_change data wd))).
Proof.
  intros Hg. rewrite (new_RadioButton_eq _ _ _ _ _ _ _ Hg).
  destruct (set_state _ _ true _) as [[[]|e] w2]; [|reflexivity].
  destruct (groups w2 !! g); reflexivity.
Qed.

Lemma set_state_empty_group wd self t state do_callback icon g :
  toggles wd !! self = Some t -> klass t = RadioButtonK ->
  py_eq (_state t) state = false ->
  dict_get (states RadioButtonK) state = Some icon ->
  group t = Some g -> groups wd !! g = Some [] ->
  set_state self state do_callback wd =
  (Ok tt, commit self state do_callback t icon wd).
Proof.
  intros Hl Hk He Hi Hg Hms.
  unfold set_state, call_depth. rewrite call_set_state_S, Hl, Hk.
  unfold RadioButton_set_state, Methods.RadioButton_set_state, mbind, M_bind, get_toggle. fold CheckBox_set_state.
  rewrite Hl, He, (CheckBox_set_state_eq _ _ _ _ _ Hl), He, Hk, Hi, Hg.
  destruct (negb (is_True state)); [reflexivity|].
  unfold mret, M_ret, get_group. cbn [commit groups]. rewrite Hms.
  reflexivity.
Qed.

Lemma valid_state_defined v : valid_state v = true -> py_eq PyNone v = false.
Proof. destruct v; [discriminate|reflexivity..]. Qed.

Section Claims.

Variable command_map : string -> string.
Variable is_mouse_press : string -> bool.

(** With callbacks that only observe: [set_state], with the signal
    enabled, changing the state of a control whose state is defined
    returns normally; the first thing it adds to the trace is the
    emission for this control, which sees the controls as they were; the
    new state is in place when the call returns, and what follows in the
    trace are emissions of other controls. *)
Lemma set_state_announces (ops : list Op) (self : nat)
    (t : CheckBox) (state : pyval) :
  toggles (run command_map is_mouse_press ops empty_world) !! self = Some t ->
  is_None (_state t) = false ->
  py_eq (_state t) state = false ->
  valid_state state = true ->
  exists wd' seen later,
    set_state self state true (run command_map is_mouse_press ops empty_world)
      = (Ok tt, wd') /\
    trace wd' =
      trace (run command_map is_mouse_press ops empty_world)
        ++ Change self state seen :: later /\
    (_state <$> seen !! self) = Some (_state t) /\
    state_of wd' self = Some state /\
    Forall (fun e => emitter_of e <> Some self) later.
Proof.
  set (wd := run command_map is_mouse_press ops empty_world).
  intros Hl Hd He Hv.
  destruct (reachable_Inv command_map is_mouse_press ops) as [Hwf _].
  fold wd in Hwf.
  destruct (dict_get_states (klass t) state Hv) as [icon Hi].
  destruct (set_state_changes wd self t state true icon Hwf Hl He Hi)
    as (wd' & E & Q & _).
  destruct (quiet_trace _ _ _ Q) as (evs & Ht & Hf).
  exists wd', (toggles wd), evs. split; [exact E|]. split; [|split; [|split]].
  - rewrite Ht. cbn [commit trace]. rewrite announced_defined by assumption.
    rewrite <- app_assoc. reflexivity.
  - rewrite Hl. reflexivity.
  - unfold state_of. rewrite (quiet_self _ _ _ Q). cbn [commit toggles].
    rewrite list_lookup_insert_eq by (eapply lookup_lt_Some; eauto).
    reflexivity.
  - exact Hf.
Qed.

(** C8. Building a control emits no 'change' for it, whatever the
    initial state and whether or not a callback was passed: building a
    check box leaves the trace as it was, and what building a radio
    button adds to the trace are emissions of other controls (the
    members it clears). *)
Theorem construction_emits_no_change (ops : list Op) (lbl : markup)
    (state : pyval) (mixed_ok : bool) (on_state_change : option callback)
    (data : pyval) (g : nat) :
  trace (snd (new_CheckBox lbl state mixed_ok on_state_change data
                (run command_map is_mouse_press ops empty_world)))
  = trace (run command_map is_mouse_press ops empty_world) /\
  exists evs,
    trace (snd (new_RadioButton g lbl state on_state_change data
                  (run command_map is_mouse_press ops empty_world)))
    = trace (run command_map is_mouse_press ops empty_world) ++ evs /\
    Forall (fun e =>
              emitter_of e <>
              Some (length (toggles
                      (run command_map is_mouse_press ops empty_world))))
           evs.
Proof.
  set (wd := run command_map is_mouse_press ops empty_world).
  pose proof (reachable_Inv command_map is_mouse_press ops) as HI.
  fold wd in HI. split.
  - rewrite new_CheckBox_snd.
    pose proof (grown_lookup CheckBoxK None lbl mixed_ok on_state_change data wd)
      as Hx.
    rewrite (set_state_CheckBoxK _ _ _ _ _ Hx eq_refl),
      (CheckBox_set_state_eq _ _ _ _ _ Hx).
    destruct (py_eq _ state); [reflexivity|].
    destruct (dict_get _ state); [|reflexivity].
    cbn [snd commit trace]. rewrite announced_first_time by reflexivity.
    apply app_nil_r.
  - destruct (groups wd !! g) as [ms|] eqn:Hg.
    2:{ exists []. rewrite new_RadioButton_dangling by assumption.
        rewrite app_nil_r. split; [reflexivity|constructor]. }
    rewrite (new_RadioButton_trace _ _ ms) by assumption.
    assert (HG : Inv (grown RadioButtonK (Some g) lbl false
                        on_state_change data wd)).
    { apply Inv_grow; [assumption|]. intros _. exists g, ms. auto. }
    destruct (set_state_outcome _ (length (toggles wd))
                (first_state state ms) true (proj1 HG))
      as [E|(t & icon & wd' & Hl & He & Hi & E & Q & _)].
    + exists []. rewrite E, app_nil_r. split; [reflexivity|constructor].
    + destruct (quiet_trace _ _ _ Q) as (evs & Ht & Hf).
      exists evs. rewrite E. cbn [snd]. split; [|exact Hf].
      rewrite Ht. cbn [commit trace].
      rewrite (grown_lookup RadioButtonK (Some g) lbl false
                 on_state_change data wd) in Hl.
      injection Hl as <-.
      rewrite announced_first_time by reflexivity.
      rewrite app_nil_r. reflexivity.
Qed.

(** A radio button built with the default state, in any store. *)
Lemma default_radio_button wd g ms lbl on_state_change data :
  groups wd !! g = Some ms ->
  exists wd',
    new_RadioButton g lbl first_True on_state_change data wd
    = (Ok (length (toggles wd)), wd') /\
    length (toggles wd') = S (length (toggles wd)) /\
    state_of wd' (length (toggles wd)) = Some (PyBool (is_empty ms)) /\
    groups wd' = <[g := ms ++ [length (toggles wd)]]> (groups wd) /\
    forall j t, toggles wd !! j = Some t -> toggles wd' !! j = Some t.
Proof.
  intros Hg. set (self := length (toggles wd)).
  set (x := fresh RadioButtonK (Some g) lbl false on_state_change data).
  set (wg := grown RadioButtonK (Some g) lbl false on_state_change data wd).
  assert (Hx : toggles wg !! self = Some x) by apply grown_lookup.
  assert (Hv : first_state first_True ms = PyBool (is_empty ms)) by reflexivity.
  destruct (dict_get_states RadioButtonK (PyBool (is_empty ms))) as [icon Hi].
  { destruct (is_empty ms); reflexivity. }
  assert (E : set_state self (PyBool (is_empty ms)) true wg =
              (Ok tt, commit self (PyBool (is_empty ms)) true x icon wg)).
  { destruct ms as [|m ms'].
    - apply (set_state_empty_group wg self x _ true icon g);
        [exact Hx|reflexivity|reflexivity|exact Hi|reflexivity|exact Hg].
    - rewrite set_state_not_True by reflexivity.
      rewrite (CheckBox_set_state_eq _ _ _ _ _ Hx).
      cbn [x fresh _state py_eq klass]. cbn [x fresh klass] in Hi.
      rewrite Hi. reflexivity. }
  rewrite (new_RadioButton_eq _ _ _ _ _ _ _ Hg), Hv. fold self wg. rewrite E.
  cbn [commit groups]. unfold wg at 1, grown. cbn [set_toggles groups].
  rewrite Hg. eexists. split; [reflexivity|].
  cbn [snd set_group]. unfold state_of. cbn [toggles groups].
  split; [|split; [|split]].
  - cbn [commit toggles]. rewrite length_insert. unfold wg, grown.
    cbn [set_toggles toggles]. rewrite length_app. simpl. unfold self. lia.
  - cbn [commit toggles].
    rewrite list_lookup_insert_eq by (eapply lookup_lt_Some; eauto).
    reflexivity.
  - reflexivity.
  - intros j t Hj. pose proof (lookup_lt_Some _ _ _ Hj) as Hjl.
    cbn [commit toggles].
    rewrite list_lookup_insert_ne by (unfold self; lia).
    unfold wg, grown. cbn [set_toggles toggles].
    apply lookup_app_l_Some. assumption.
Qed.

Lemma state_of_kept wd wd' j s :
  (forall j t, toggles wd !! j = Some t -> toggles wd' !! j = Some t) ->
  state_of wd j = Some s -> state_of wd' j = Some s.
Proof.
  intros H. unfold state_of. destruct (toggles wd !! j) as [t|] eqn:Hj;
    [|discriminate].
  rewrite (H j t Hj). auto.
Qed.

(** C7. A radio button built with the default state ("first True") is
    built without an exception and its state is [True] if the list was
    empty at that moment and [False] if it was not; the button is
    appended to the list and the controls that were there are as they
    were.  In particular three buttons built in order in a new list with
    the default state end up True, False and False. *)
Theorem first_True_iff_group_empty (wd : World) (g : nat) (ms : list nat)
    (lbl : markup) (on_state_change : option callback) (data : pyval)
    (la lb lc : markup) :
  groups wd !! g = Some ms ->
  (exists wd',
     new_RadioButton g lbl first_True on_state_change data wd
     = (Ok (length (toggles wd)), wd') /\
     state_of wd' (length (toggles wd)) = Some (PyBool (is_empty ms)) /\
     groups wd' !! g = Some (ms ++ [length (toggles wd)]) /\
     forall j t, toggles wd !! j = Some t -> toggles wd' !! j = Some t) /\
  (exists wd3,
     three_default_radios la lb lc wd
     = (Ok (length (toggles wd), S (length (toggles wd)),
            S (S (length (toggles wd)))), wd3) /\
     state_of wd3 (length (toggles wd)) = Some (PyBool true) /\
     state_of wd3 (S (length (toggles wd))) = Some (PyBool false) /\
     state_of wd3 (S (S (length (toggles wd)))) = Some (PyBool false)).
Proof.
  intros Hg. split.
  - destruct (default_radio_button wd g ms lbl on_state_change data Hg)
      as (wd' & E & _ & Hs & HG & Hk).
    exists wd'. split; [exact E|]. split; [exact Hs|]. split; [|exact Hk].
    rewrite HG. apply list_lookup_insert_eq. eapply lookup_lt_Some; eauto.
  - clear Hg. set (n := length (toggles wd)). set (g0 := length (groups wd)).
    unfold three_default_radios. unfold mbind at 1, M_bind, new_list.
    set (w0 := {| toggles := toggles wd; buttons := buttons wd;
                  groups := groups wd ++ [[]]; built := built wd;
                  trace := trace wd |}).
    assert (H0 : groups w0 !! g0 = Some []) by apply lookup_snoc.
    destruct (default_radio_button w0 g0 [] la None PyNone H0)
      as (wA & EA & LA & SA & GA & KA).
    change (length (toggles w0)) with n in *.
    assert (HA : groups wA !! g0 = Some [n]).
    { rewrite GA. apply list_lookup_insert_eq. eapply lookup_lt_Some; eauto. }
    destruct (default_radio_button wA g0 [n] lb None PyNone HA)
      as (wB & EB & LB & SB & GB & KB).
    rewrite LA in *.
    assert (HB : groups wB !! g0 = Some [n; S n]).
    { rewrite GB. apply list_lookup_insert_eq. eapply lookup_lt_Some; eauto. }
    destruct (default_radio_button wB g0 [n; S n] lc None PyNone HB)
      as (wC & EC & LC & SC & GC & KC).
    rewrite LB in *.
    exists wC. unfold mbind, M_bind. fold g0. rewrite EA, EB, EC.
    split; [reflexivity|]. split; [|split].
    + eapply state_of_kept; [exact KC|]. eapply state_of_kept; [exact KB|].
      exact SA.
    + eapply state_of_kept; [exact KC|]. exact SB.
    + exact SC.
Qed.

End Claims.

(** ** The theorems at work on the sample stores *)

Lemma first_True_iff_group_empty_witness :
  (exists wd',
     new_RadioButton 0 "Unsure" first_True None PyNone three_radios
     = (Ok (length (toggles three_radios)), wd') /\
     state_of wd' (length (toggles three_radios))
     = Some (PyBool (is_empty [0; 1; 2])) /\
     groups wd' !! 0 = Some ([0; 1; 2] ++ [length (toggles three_radios)]) /\
     forall j t,
       toggles three_radios !! j = Some t -> toggles wd' !! j = Some t) /\
  (exists wd3,
     three_default_radios "A" "B" "C" three_radios
     = (Ok (length (toggles three_radios), S (length (toggles three_radios)),
            S (S (length (toggles three_radios)))), wd3) /\
     state_of wd3 (length (toggles three_radios)) = Some (PyBool true) /\
     state_of wd3 (S (length (toggles three_radios))) = Some (PyBool false) /\
     state_of wd3 (S (S (length (toggles three_radios)))) = Some (PyBool false)).
Proof.
  assert (H : groups three_radios !! 0 = Some [0; 1; 2])
    by (vm_compute; reflexivity).
  exact (first_True_iff_group_empty three_radios 0 [0; 1; 2] "Unsure" None
           PyNone "A" "B" "C" H).
Defined.

(** C2 as stated fails: [CheckBox("Onions", "mixed")] is built without an
    exception with [has_mixed] false and state 'mixed', and so does
    [set_state("mixed")] on [CheckBox("Confirm")] leave the state 'mixed'. *)
Lemma mixed_without_has_mixed_counterexample :
  new_CheckBox "Onions" mixed false None PyNone empty_world
    = (Ok 0, stuck_checkbox) /\
  (has_mixed <$> toggles stuck_checkbox !! 0) = Some false /\
  state_of stuck_checkbox 0 = Some mixed /\
  (exists wd', set_state 0 mixed true one_checkbox = (Ok tt, wd') /\
     (has_mixed <$> toggles wd' !! 0) = Some false /\
     state_of wd' 0 = Some mixed) /\
  ~ In mixed [PyBool false; PyBool true].
Proof.
  split; [vm_compute; reflexivity|].
  split; [vm_compute; reflexivity|].
  split; [vm_compute; reflexivity|].
  split.
  - eexists. split; [vm_compute; reflexivity|].
    split; vm_compute; reflexivity.
  - intros [H|[H|[]]]; discriminate.
Qed.

(** The scenario of the doctest of [RadioButton.set_state]: setting the
    third button clears the first. *)
Example set_third_radio :
  map _state (toggles (snd (set_state 2 (PyBool true) true three_radios)))
  = [PyBool false; PyBool false; PyBool true].
Proof. vm_compute. reflexivity. Qed.

(** ** Exceptions *)

(** A value that is not a key of [states] is rejected with
    [CheckBoxError], the store as it was, on every control that has a
    composition and whose own state is such a key. *)
Lemma set_state_rejects_invalid wd self t state do_callback :
  toggles wd !! self = Some t ->
  valid_state (_state t) = true ->
  is_Some (w t) ->
  valid_state state = false ->
  set_state self state do_callback wd = (Raise (CheckBoxError self state), wd).
Proof.
  intros Hl Hv [c Hw] Hn. erewrite set_state_rejects; eauto.
  - unfold rejection. rewrite Hw. reflexivity.
  - destruct (py_eq (_state t) state) eqn:He; [|reflexivity].
    rewrite (valid_state_py_eq _ _ He Hv) in Hn. discriminate.
Qed.

Lemma clear_loop_raises self ms : forall wd e wd',
  for_each ms (clear_other CheckBox_set_state self) wd = (Raise e, wd') ->
  e = Dangling.
Proof.
  induction ms as [|cb ms IH]; intros wd e wd'; cbn [for_each].
  - discriminate.
  - unfold mbind, M_bind.
    destruct (clear_other CheckBox_set_state self cb wd) as [[[]|e1] w1] eqn:E1.
    + apply IH.
    + intros [= <- <-]. revert E1. unfold clear_other.
      destruct (Nat.eqb cb self); [discriminate|].
      unfold mbind, M_bind, get_toggle.
      destruct (toggles wd !! cb) as [c|] eqn:Hc; [|congruence].
      destruct (truthy (_state c)); [|discriminate].
      rewrite (CheckBox_set_state_eq _ _ _ _ _ Hc).
      destruct (py_eq (_state c) (PyBool false)); [discriminate|].
      destruct (dict_get_states (klass c) (PyBool false) eq_refl) as [icon ->].
      discriminate.
Qed.

(** With callbacks that only observe, the exceptions of [set_state] are
    [CheckBoxError] and, while the control has no composition, the
    [AttributeError] of building its message; the bound on the nesting of
    calls is never hit.  ([Dangling] stands for a reference that no
    Python program can hold.) *)
Lemma set_state_raises wd self state do_callback e wd' :
  set_state self state do_callback wd = (Raise e, wd') ->
  (e = CheckBoxError self state \/ e = AttributeError) \/ e = Dangling.
Proof.
  unfold set_state, call_depth. rewrite call_set_state_S.
  destruct (toggles wd !! self) as [t|] eqn:Hl; [|intros [= <- _]; auto].
  assert (HC : forall e1 w1,
            CheckBox_set_state self state do_callback wd = (Raise e1, w1) ->
            e1 = CheckBoxError self state \/ e1 = AttributeError).
  { intros e1 w1. rewrite (CheckBox_set_state_eq _ _ _ _ _ Hl).
    destruct (py_eq (_state t) state); [discriminate|].
    destruct (dict_get (states (klass t)) state); [discriminate|].
    unfold rejection. destruct (w t); intros [= <- _]; auto. }
  destruct (klass t).
  - intros H. left. eapply HC; eauto.
  - unfold RadioButton_set_state, Methods.RadioButton_set_state, mbind, M_bind, get_toggle. fold CheckBox_set_state. rewrite Hl.
    destruct (py_eq (_state t) state); [discriminate|].
    destruct (CheckBox_set_state self state do_callback wd) as [[[]|e1] w1] eqn:E1.
    2:{ intros [= <- _]. left. eapply HC; eauto. }
    destruct (negb (is_True state)); [discriminate|].
    destruct (group t) as [g|]; [|intros [= <- _]; auto].
    unfold mret, M_ret, get_group.
    destruct (groups w1 !! g) as [ms|]; [|intros [= <- _]; auto].
    rewrite (for_each_ext _ _ ms (clear_other_CheckBox 0 self)).
    intros H. right. eapply clear_loop_raises; eauto.
Qed.

(** ** Values equal to [True] *)

(** Among the values that are not ints, only [True] is equal to [True]. *)
Lemma eq_True_is_True v :
  (forall n, v <> PyInt n) -> py_eq v (PyBool true) = is_True v.
Proof.
  destruct v as [|[]|n|s]; intros H; try reflexivity.
  exfalso. apply (H n). reflexivity.
Qed.

(** The int 1 is a key of [states] ([1 == True]) and so a state
    [set_state] accepts; it is stored as it is and, not being [True]
    itself, does not clear the other members of the group. *)
Example set_state_int_one :
  map _state (toggles (snd (set_state 1 (PyInt 1) true three_radios)))
  = [PyBool true; PyInt 1; PyBool false].
Proof. vm_compute. reflexivity. Qed.

(** ** Delivery to the callbacks *)

(** The first change of the doctest of [CheckBox.set_state]: one emission,
    delivered to the two callbacks in the order of their registration,
    the first with its user data. *)
Example doctest_deliveries :
  map deliveries
    (trace (run sample_command_map sample_is_mouse_press doctest_program
              empty_world))
  = [[(1, 0, PyBool true, Some (PyStr "user_a")); (2, 0, PyBool true, None)]].
Proof. vm_compute. reflexivity. Qed.

(** ** Callbacks that call back *)

Lemma for_each_skip {A} (body : A -> M unit) l :
  (forall x wd, body x wd = (Ok tt, wd)) ->
  forall wd, for_each l body wd = (Ok tt, wd).
Proof.
  intros H. induction l as [|x l IH]; intros wd; [reflexivity|].
  cbn [for_each]. unfold mbind, M_bind. rewrite H. apply IH.
Qed.

(** With callbacks that make no call, emitting is recording. *)
Lemma emit_observing behaviour set_state self state wd :
  observing behaviour ->
  Reentrant._emit behaviour set_state self state wd = _emit self state wd.
Proof.
  intros Hb. unfold Reentrant._emit, _emit, mbind, M_bind, log.
  rewrite for_each_skip; [reflexivity|].
  intros h w. rewrite Hb. reflexivity.
Qed.

Lemma CheckBox_set_state_ext emit emit' :
  (forall i v wd, emit i v wd = emit' i v wd) ->
  forall self state do_callback wd,
    Methods.CheckBox_set_state emit self state do_callback wd =
    Methods.CheckBox_set_state emit' self state do_callback wd.
Proof.
  intros H self state do_callback wd.
  unfold Methods.CheckBox_set_state, mbind, M_bind, get_toggle.
  destruct (toggles wd !! self) as [t|]; [|reflexivity].
  destruct (py_eq (_state t) state); [reflexivity|].
  destruct (negb (dict_in state (states (klass t)))); [reflexivity|].
  destruct (do_callback && negb (is_None (_state t))); [|reflexivity].
  rewrite H. reflexivity.
Qed.

Lemma RadioButton_set_state_ext emit emit' f f' :
  (forall i v wd, emit i v wd = emit' i v wd) ->
  (forall i v c wd, f i v c wd = f' i v c wd) ->
  forall self state do_callback wd,
    Methods.RadioButton_set_state emit f self state do_callback wd =
    Methods.RadioButton_set_state emit' f' self state do_callback wd.
Proof.
  intros He Hf self state do_callback wd.
  unfold Methods.RadioButton_set_state, mbind, M_bind, get_toggle.
  destruct (toggles wd !! self) as [t|]; [|reflexivity].
  destruct (py_eq (_state t) state); [reflexivity|].
  rewrite (CheckBox_set_state_ext emit emit' He).
  destruct (Methods.CheckBox_set_state emit' self state do_callback wd)
    as [[[]|e] w1]; [|reflexivity].
  destruct (negb (is_True state)); [reflexivity|].
  destruct (group t) as [g|]; [|reflexivity].
  unfold mret, M_ret, get_group.
  destruct (groups w1 !! g) as [ms|]; [|reflexivity].
  apply for_each_ext. intros cb w. unfold clear_other.
  destruct (Nat.eqb cb self); [reflexivity|].
  unfold mbind, M_bind, get_toggle.
  destruct (toggles w !! cb) as [c|]; [|reflexivity].
  destruct (truthy (_state c)); [apply Hf|reflexivity].
Qed.

Lemma Reentrant_call_set_state_S behaviour d wd self state do_callback :
  Reentrant.call_set_state behaviour (S d) self state do_callback wd =
  match toggles wd !! self with
  | Some t =>
      match klass t with
      | CheckBoxK =>
          Methods.CheckBox_set_state
            (Reentrant._emit behaviour (Reentrant.call_set_state behaviour d))
            self state do_callback wd
      | RadioButtonK =>
          Methods.RadioButton_set_state
            (Reentrant._emit behaviour (Reentrant.call_set_state behaviour d))
            (Reentrant.call_set_state behaviour d) self state do_callback wd
      end
  | None => (Raise Dangling, wd)
  end.
Proof.
  cbn [Reentrant.call_set_state]. unfold mbind, M_bind, get_toggle.
  destruct (toggles wd !! self) as [t|]; [|reflexivity].
  destruct (klass t); reflexivity.
Qed.

(** With callbacks that make no call, the methods are those of the
    sections above, at any depth. *)
Lemma call_set_state_observing behaviour depth :
  observing behaviour ->
  forall self state do_callback wd,
    Reentrant.call_set_state behaviour depth self state do_callback wd
    = call_set_state depth self state do_callback wd.
Proof.
  intros Hb.
  induction depth as [|d IH]; intros self state do_callback wd; [reflexivity|].
  rewrite Reentrant_call_set_state_S, call_set_state_S.
  destruct (toggles wd !! self) as [t|]; [|reflexivity].
  destruct (klass t).
  - apply CheckBox_set_state_ext. intros. apply emit_observing, Hb.
  - apply RadioButton_set_state_ext; [|exact IH].
    intros. apply emit_observing, Hb.
Qed.

Lemma set_state_observing behaviour self state do_callback wd :
  observing behaviour ->
  Reentrant.set_state behaviour self state do_callback wd =
  set_state self state do_callback wd.
Proof.
  intros Hb. unfold Reentrant.set_state.
  rewrite call_set_state_observing by assumption.
  change Reentrant.recursion_limit with (S (S 998)).
  apply call_set_state_depth.
Qed.

Lemma bind_ext {A B} (m : M A) (k k' : A -> M B) wd :
  (forall a w, k a w = k' a w) -> (m ≫= k) wd = (m ≫= k') wd.
Proof.
  intros H. unfold mbind, M_bind. destruct (m wd) as [[a|e] w]; auto.
Qed.

Lemma bind_ext_l {A B} (m m' : M A) (k : A -> M B) wd :
  (forall w, m w = m' w) -> (m ≫= k) wd = (m' ≫= k) wd.
Proof. intros H. unfold mbind, M_bind. rewrite H. reflexivity. Qed.

Lemma CheckBox__init__ext f f' :
  (forall i v c wd, f i v c wd = f' i v c wd) ->
  forall self lbl state mixed_ok on_state_change data wd,
    Methods.CheckBox__init__ f self lbl state mixed_ok on_state_change data wd =
    Methods.CheckBox__init__ f' self lbl state mixed_ok on_state_change data wd.
Proof.
  intros H self lbl state mixed_ok on_state_change data wd.
  unfold Methods.CheckBox__init__.
  repeat (apply bind_ext; intros). apply H.
Qed.

Lemma new_RadioButton_ext f f' :
  (forall i v c wd, f i v c wd = f' i v c wd) ->
  forall g lbl state on_state_change data wd,
    Methods.new_RadioButton f g lbl state on_state_change data wd =
    Methods.new_RadioButton f' g lbl state on_state_change data wd.
Proof.
  intros H g lbl state on_state_change data wd.
  unfold Methods.new_RadioButton, Methods.RadioButton__init__.
  apply bind_ext; intros. apply bind_ext; intros. apply bind_ext_l; intros.
  apply bind_ext; intros. apply bind_ext; intros. apply bind_ext_l; intros.
  apply CheckBox__init__ext. exact H.
Qed.

Lemma new_CheckBox_ext f f' :
  (forall i v c wd, f i v c wd = f' i v c wd) ->
  forall lbl state mixed_ok on_state_change data wd,
    Methods.new_CheckBox f lbl state mixed_ok on_state_change data wd =
    Methods.new_CheckBox f' lbl state mixed_ok on_state_change data wd.
Proof.
  intros H lbl state mixed_ok on_state_change data wd.
  unfold Methods.new_CheckBox.
  apply bind_ext; intros. apply bind_ext_l; intros.
  apply CheckBox__init__ext. exact H.
Qed.

Lemma toggle_state_ext f f' :
  (forall i v c wd, f i v c wd = f' i v c wd) ->
  forall self wd, Methods.toggle_state f self wd = Methods.toggle_state f' self wd.
Proof.
  intros H self wd. unfold Methods.toggle_state.
  apply bind_ext; intros t w. destruct (klass t).
  - unfold Methods.CheckBox_toggle_state.
    apply bind_ext; intros t' w'. apply bind_ext_l; intros w''.
    destruct (py_eq (_state t') (PyBool false)); [apply H|].
    destruct (py_eq (_state t') (PyBool true)).
    { destruct (has_mixed t'); apply H. }
    destruct (py_eq (_state t') mixed); [apply H|reflexivity].
  - apply H.
Qed.

Section Programs_ext.

Variable command_map : string -> string.
Variable is_mouse_press : string -> bool.
Variables f f' : nat -> pyval -> bool -> M unit.
Hypothesis Hff : forall i v c wd, f i v c wd = f' i v c wd.

Lemma step_ext o wd :
  Methods.step f command_map is_mouse_press o wd =
  Methods.step f' command_map is_mouse_press o wd.
Proof.
  destruct o; cbn [Methods.step]; try reflexivity.
  - rewrite (new_CheckBox_ext f f' Hff). reflexivity.
  - rewrite (new_RadioButton_ext f f' Hff). reflexivity.
  - rewrite Hff. reflexivity.
  - rewrite (toggle_state_ext f f' Hff). reflexivity.
  - unfold Methods.keypress.
    destruct (negb (String.eqb (command_map key) "activate")); [reflexivity|].
    unfold mbind, M_bind. rewrite (toggle_state_ext f f' Hff). reflexivity.
  - unfold Methods.mouse_event.
    destruct (negb (Z.eqb button 1) || negb (is_mouse_press event));
      [reflexivity|].
    unfold mbind, M_bind. rewrite (toggle_state_ext f f' Hff). reflexivity.
Qed.

Lemma run_ext ops : forall wd,
  Methods.run f command_map is_mouse_press ops wd =
  Methods.run f' command_map is_mouse_press ops wd.
Proof.
  induction ops as [|o ops IH]; intros wd; cbn [Methods.run]; [reflexivity|].
  rewrite step_ext. apply IH.
Qed.

End Programs_ext.

(** With callbacks that make no call, a program runs as in the sections
    above. *)
Lemma run_observing behaviour command_map is_mouse_press ops wd :
  observing behaviour ->
  Reentrant.run behaviour command_map is_mouse_press ops wd =
  run command_map is_mouse_press ops wd.
Proof.
  intros Hb. apply run_ext. intros. apply set_state_observing, Hb.
Qed.


(** ** Stores without numbers as states *)





















Section Plain_programs.

Variable command_map : string -> string.
Variable is_mouse_press : string -> bool.



End Plain_programs.



(** A callback that raises, and a number passed as a state, also leave
    two members with a state equal to [True].  The callback of [A] raises
    when [A] is deselected: [B.set_state(True)] commits [B], is interrupted
    in the loop, and leaves [A] as it was; the same call made again
    returns at once.  And [set_state(1)] on a member is accepted, shown
    with the selected glyph, and clears nothing. *)
Example interrupted_selection_leaves_two_True :
  map _state
    (toggles (Reentrant.run Reentrant.raise_on_deselect sample_command_map
                sample_is_mouse_press Reentrant.interrupted_selection
                empty_world))
  = [PyBool true; PyBool true] /\
  selected (Reentrant.run Reentrant.raise_on_deselect sample_command_map
              sample_is_mouse_press Reentrant.interrupted_selection
              empty_world) 0
  = [0; 1] /\
  fst (Reentrant.set_state Reentrant.raise_on_deselect 1 (PyBool true) true
         (Reentrant.run Reentrant.raise_on_deselect sample_command_map
            sample_is_mouse_press
            (firstn 3 Reentrant.interrupted_selection) empty_world))
  = Raise CallbackError /\
  fst (Reentrant.set_state Reentrant.raise_on_deselect 1 (PyBool true) true
         (Reentrant.run Reentrant.raise_on_deselect sample_command_map
            sample_is_mouse_press
            (firstn 4 Reentrant.interrupted_selection) empty_world))
  = Ok tt.
Proof. repeat split; vm_compute; reflexivity. Qed.

Example number_as_state_leaves_two_selected :
  exists wd,
    set_state 1 (PyInt 1) true three_radios = (Ok tt, wd) /\
    map _state (toggles wd) = [PyBool true; PyInt 1; PyBool false] /\
    (w <$> toggles wd !! 1) = (w <$> toggles wd !! 0) /\
    selected wd 0 = [0] /\ selected_eq wd 0 = [0; 1].
Proof.
  eexists. split; [vm_compute; reflexivity|].
  repeat split; vm_compute; reflexivity.
Qed.

(** ** Exclusivity of a radio group *)

Section Exclusive.

Variable command_map : string -> string.
Variable is_mouse_press : string -> bool.


End Exclusive.


(** ** What holds whatever the callbacks do *)

Lemma steady_ret {A} (a : A) : steady (mret a).
Proof.
  intros wd. split; [apply persists_refl|]. exists []. symmetry. apply app_nil_r.
Qed.

Lemma steady_raise {A} e : steady (raise (A := A) e).
Proof.
  intros wd. split; [apply persists_refl|]. exists []. symmetry. apply app_nil_r.
Qed.

Lemma steady_bind {A B} (m : M A) (k : A -> M B) :
  steady m -> (forall a, steady (k a)) -> steady (m ≫= k).
Proof.
  intros Hm Hk wd. unfold mbind, M_bind. destruct (Hm wd) as [P1 (l1 & T1)].
  destruct (m wd) as [[a|e] w1]; cbn [snd] in *; [|eauto].
  destruct (Hk a w1) as [P2 (l2 & T2)]. split.
  - eapply persists_trans; eauto.
  - exists (l1 ++ l2). rewrite T2, T1, app_assoc. reflexivity.
Qed.

Lemma steady_for_each {A} (l : list A) (body : A -> M unit) :
  (forall x, steady (body x)) -> steady (for_each l body).
Proof.
  intros H. induction l as [|x l IH]; cbn [for_each].
  - apply steady_ret.
  - apply steady_bind; [apply H|intros; apply IH].
Qed.

Lemma steady_same {A} (m : M A) :
  (forall wd, toggles (snd (m wd)) = toggles wd /\
              exists later, trace (snd (m wd)) = trace wd ++ later) ->
  steady m.
Proof.
  intros H wd. destruct (H wd) as [HT HL].
  split; [apply persists_same_toggles; assumption|assumption].
Qed.

Lemma steady_get_toggle i : steady (get_toggle i).
Proof.
  apply steady_same. intros wd. unfold get_toggle.
  destruct (toggles wd !! i); (split; [reflexivity|]);
    exists []; symmetry; apply app_nil_r.
Qed.

Lemma steady_get_group g : steady (get_group g).
Proof.
  apply steady_same. intros wd. unfold get_group.
  destruct (groups wd !! g); (split; [reflexivity|]);
    exists []; symmetry; apply app_nil_r.
Qed.

Lemma steady_set_group g ms : steady (set_group g ms).
Proof.
  apply steady_same. intros wd. split; [reflexivity|].
  exists []. symmetry. apply app_nil_r.
Qed.

Lemma steady_log e : steady (log e).
Proof.
  apply steady_same. intros wd. split; [reflexivity|]. exists [e]. reflexivity.
Qed.

Lemma steady_new_Columns l d : steady (new_Columns l d).
Proof.
  apply steady_same. intros wd. split; [reflexivity|].
  exists []. symmetry. apply app_nil_r.
Qed.

Lemma steady_new_list : steady new_list.
Proof.
  apply steady_same. intros wd. split; [reflexivity|].
  exists []. symmetry. apply app_nil_r.
Qed.

Lemma steady_alloc_toggle k : steady (alloc_toggle k).
Proof.
  intros wd. unfold alloc_toggle. cbn [snd].
  split; [apply persists_grow|]. exists []. symmetry. apply app_nil_r.
Qed.

Lemma steady_modify_toggle i f : gentle f -> steady (modify_toggle i f).
Proof.
  intros Hf wd. unfold modify_toggle.
  destruct (toggles wd !! i) as [t|] eqn:Hl; cbn [snd].
  2:{ split; [apply persists_refl|]. exists []. symmetry. apply app_nil_r. }
  split; [|exists []; symmetry; apply app_nil_r].
  intros j tj Hj. cbn [set_toggles toggles].
  destruct (decide (i = j)) as [->|Hne].
  - rewrite list_lookup_insert_eq by (eapply lookup_lt_Some; eauto).
    assert (tj = t) as -> by congruence.
    destruct (Hf t) as (K & M & G & S). exists (f t). auto 10.
  - rewrite list_lookup_insert_ne by assumption. exists tj. auto 10.
Qed.

Lemma cosmetic_gentle f : cosmetic f -> gentle f.
Proof. intros H t. destruct (H t) as (K & G & M & S). auto 10. Qed.

Lemma gentle_with_state v : valid_state v = true -> gentle (with_state v).
Proof. intros Hv t. cbn. auto 10. Qed.

Lemma gentle_with_w c : gentle (with_w c).
Proof. intros t. cbn. auto 10. Qed.

Lemma gentle_with_focus_col c : gentle (with_focus_col c).
Proof. intros t. cbn. auto 10. Qed.

Lemma gentle_set_w c : gentle (set_w c).
Proof. intros t. cbn. auto 10. Qed.

Lemma steady_repr self : steady (repr self).
Proof.
  apply steady_same. intros wd. unfold repr.
  destruct (toggles wd !! self) as [t|]; [destruct (w t)|];
    (split; [reflexivity|]); exists []; symmetry; apply app_nil_r.
Qed.

Lemma steady_rejection self state :
  steady (repr self ;; raise (A := unit) (CheckBoxError self state)).
Proof. apply steady_bind; [apply steady_repr|intros; apply steady_raise]. Qed.

Section Steady_methods.

Variable emit : nat -> pyval -> M unit.
Variable f : nat -> pyval -> bool -> M unit.
Hypothesis steady_emit : forall i v, steady (emit i v).
Hypothesis steady_f : forall i v c, steady (f i v c).

Lemma steady_CheckBox_set_state self state do_callback :
  steady (Methods.CheckBox_set_state emit self state do_callback).
Proof.
  unfold Methods.CheckBox_set_state.
  apply steady_bind; [apply steady_get_toggle|]. intros t.
  destruct (py_eq (_state t) state); [apply steady_ret|].
  destruct (negb (dict_in state (states (klass t)))) eqn:Hv;
    [apply steady_rejection|].
  apply negb_false_iff in Hv. rewrite dict_in_states in Hv.
  apply steady_bind.
  { destruct (do_callback && negb (is_None (_state t)));
      [apply steady_emit|apply steady_ret]. }
  intros _. apply steady_bind.
  { apply steady_modify_toggle, gentle_with_state, Hv. }
  intros _. apply steady_bind.
  { destruct (dict_get (states (klass t)) state);
      [apply steady_ret|apply steady_raise]. }
  intros icon. apply steady_bind; [apply steady_new_Columns|]. intros c.
  apply steady_bind; [apply steady_modify_toggle, gentle_set_w|]. intros _.
  apply steady_modify_toggle, gentle_with_focus_col.
Qed.

Lemma steady_clear_other self cb : steady (clear_other f self cb).
Proof.
  unfold clear_other. destruct (Nat.eqb cb self); [apply steady_ret|].
  apply steady_bind; [apply steady_get_toggle|]. intros c.
  destruct (truthy (_state c)); [apply steady_f|apply steady_ret].
Qed.

Lemma steady_RadioButton_set_state self state do_callback :
  steady (Methods.RadioButton_set_state emit f self state do_callback).
Proof.
  unfold Methods.RadioButton_set_state.
  apply steady_bind; [apply steady_get_toggle|]. intros t.
  destruct (py_eq (_state t) state); [apply steady_ret|].
  apply steady_bind; [apply steady_CheckBox_set_state|]. intros _.
  destruct (negb (is_True state)); [apply steady_ret|].
  apply steady_bind.
  { destruct (group t); [apply steady_ret|apply steady_raise]. }
  intros g. apply steady_bind; [apply steady_get_group|]. intros ms.
  apply steady_for_each. intros cb. apply steady_clear_other.
Qed.

Lemma steady_toggle_state self : steady (Methods.toggle_state f self).
Proof.
  unfold Methods.toggle_state.
  apply steady_bind; [apply steady_get_toggle|]. intros t.
  destruct (klass t); [|apply steady_f].
  unfold Methods.CheckBox_toggle_state.
  apply steady_bind; [apply steady_get_toggle|]. intros t'.
  apply steady_bind.
  2:{ intros _. apply steady_modify_toggle, cosmetic_gentle, cosmetic_invalidate. }
  destruct (py_eq (_state t') (PyBool false)); [apply steady_f|].
  destruct (py_eq (_state t') (PyBool true)).
  { destruct (has_mixed t'); apply steady_f. }
  destruct (py_eq (_state t') mixed); [apply steady_f|apply steady_ret].
Qed.

End Steady_methods.

Section Steady_callbacks.

Variable behaviour : callback -> nat -> pyval -> list Reentrant.Action.

Lemma steady_emit f self state :
  (forall i v c, steady (f i v c)) ->
  steady (Reentrant._emit behaviour f self state).
Proof.
  intros Hf wd. unfold Reentrant._emit.
  apply (steady_bind (log (Change self state (toggles wd)))
           (fun _ => for_each (Reentrant.registered wd self)
                       (fun h => for_each (behaviour (fst h) self state)
                                   (Reentrant.perform f)))).
  - apply steady_log.
  - intros _. apply steady_for_each. intros h. apply steady_for_each.
    intros [target v c|]; [apply Hf|apply steady_raise].
Qed.

Lemma steady_call_set_state depth :
  forall self state do_callback,
    steady (Reentrant.call_set_state behaviour depth self state do_callback).
Proof.
  induction depth as [|d IH]; intros self state do_callback;
    cbn [Reentrant.call_set_state]; [apply steady_raise|].
  apply steady_bind; [apply steady_get_toggle|]. intros t.
  destruct (klass t).
  - apply steady_CheckBox_set_state. intros. apply steady_emit, IH.
  - apply steady_RadioButton_set_state; [|exact IH].
    intros. apply steady_emit, IH.
Qed.

Lemma steady_set_state self state do_callback :
  steady (Reentrant.set_state behaviour self state do_callback).
Proof. apply steady_call_set_state. Qed.

End Steady_callbacks.

Section Persisting.

Variable command_map : string -> string.
Variable is_mouse_press : string -> bool.
Variable f : nat -> pyval -> bool -> M unit.
Hypothesis steady_f : forall i v c, steady (f i v c).

Lemma keeps_persists {A} (m : M A) wd :
  keeps_controls m -> persists wd (snd (m wd)).
Proof. intros H. apply persists_same_toggles. apply H. Qed.

Lemma step_persists o wd :
  persists wd (Methods.step f command_map is_mouse_press o wd).
Proof.
  destruct o; cbn [Methods.step].
  - apply steady_new_list.
  - rewrite Methods_new_CheckBox_eq.
    destruct (steady_f (length (toggles wd)) state true
                (grown CheckBoxK None lbl mixed_ok on_state_change data wd))
      as [P _].
    destruct (f _ state true _) as [[[]|e] w2]; cbn [snd] in *;
      (eapply persists_trans; [apply persists_grow|exact P]).
  - destruct (groups wd !! g) as [ms|] eqn:Hg.
    2:{ rewrite Methods_new_RadioButton_dangling by assumption.
        apply persists_refl. }
    rewrite (Methods_new_RadioButton_eq _ _ _ _ _ _ _ _ Hg).
    destruct (steady_f (length (toggles wd)) (first_state state ms) true
                (grown RadioButtonK (Some g) lbl false on_state_change data wd))
      as [P _].
    destruct (f _ (first_state state ms) true _) as [[[]|e] w2]; cbn [snd] in *.
    + destruct (groups w2 !! g); cbn [snd];
        (eapply persists_trans; [apply persists_grow|]);
        (eapply persists_trans; [exact P|]);
        apply persists_same_toggles; reflexivity.
    + eapply persists_trans; [apply persists_grow|exact P].
  - apply keeps_persists, keeps_new_Button.
  - apply steady_modify_toggle, cosmetic_gentle.
    apply (cosmetic_with_handlers (fun t => handlers t ++ [(f0, data)])).
  - apply steady_f.
  - apply steady_modify_toggle, cosmetic_gentle, cosmetic_with_label.
  - apply steady_toggle_state, steady_f.
  - unfold Methods.keypress.
    destruct (negb (String.eqb (command_map key) "activate"));
      [apply persists_refl|].
    apply (steady_bind (Methods.toggle_state f self) (fun _ => mret None));
      [apply steady_toggle_state, steady_f|intros; apply steady_ret].
  - unfold Methods.mouse_event.
    destruct (negb (Z.eqb button 1) || negb (is_mouse_press event));
      [apply persists_refl|].
    apply (steady_bind (Methods.toggle_state f self) (fun _ => mret true));
      [apply steady_toggle_state, steady_f|intros; apply steady_ret].
  - apply keeps_persists, keeps_Button_set_label.
  - apply keeps_persists, keeps_Button_keypress.
  - apply keeps_persists, keeps_Button_mouse_event.
Qed.

Lemma run_persists ops : forall wd,
  persists wd (Methods.run f command_map is_mouse_press ops wd).
Proof.
  induction ops as [|o ops IH]; intros wd; cbn [Methods.run].
  - apply persists_refl.
  - eapply persists_trans; [apply step_persists|apply IH].
Qed.

End Persisting.

(** [CheckBox.set_state] when no emission is due, whatever [_emit] is. *)
Lemma CheckBox_set_state_silent emit wd self t state do_callback :
  toggles wd !! self = Some t ->
  do_callback && negb (is_None (_state t)) = false ->
  Methods.CheckBox_set_state emit self state do_callback wd =
    if py_eq (_state t) state then (Ok tt, wd)
    else match dict_get (states (klass t)) state with
         | None => (Raise (rejection self state t), wd)
         | Some icon => (Ok tt, commit self state do_callback t icon wd)
         end.
Proof.
  intros Hl Hn. unfold Methods.CheckBox_set_state. unfold_m. rewrite Hl.
  destruct (py_eq (_state t) state); [reflexivity|].
  unfold dict_in.
  destruct (dict_get (states (klass t)) state) as [icon|]; simpl.
  2:{ unfold repr, rejection. rewrite Hl. destruct (w t); reflexivity. }
  pose proof (lookup_lt_Some _ _ _ Hl) as Hlt.
  unfold commit, announced. rewrite Hn. simpl. rewrite Hl. simpl.
  repeat first
    [ rewrite list_lookup_insert_eq by (rewrite ?length_insert; assumption)
    | rewrite list_insert_insert_eq
    | progress simpl ];
  unfold set_toggles; simpl; rewrite ?app_nil_r; reflexivity.
Qed.

(** ** The emission comes first *)

Lemma bind_get_toggle {B} i t (k : CheckBox -> M B) wd :
  toggles wd !! i = Some t -> (get_toggle i ≫= k) wd = k t wd.
Proof. intros H. unfold mbind, M_bind, get_toggle. rewrite H. reflexivity. Qed.

Lemma trace_bind_first {A B} (m : M A) (k : A -> M B) wd e :
  (exists l, trace (snd (m wd)) = trace wd ++ e :: l) ->
  (forall a, steady (k a)) ->
  exists l, trace (snd ((m ≫= k) wd)) = trace wd ++ e :: l.
Proof.
  intros [l Hl] Hk. unfold mbind, M_bind.
  destruct (m wd) as [[a|x] w1]; cbn [snd] in *; [|eauto].
  destruct (Hk a w1) as [_ (l2 & T2)]. exists (l ++ l2).
  rewrite T2, Hl, <- app_assoc. reflexivity.
Qed.

Lemma CheckBox_set_state_first emit wd self t state :
  toggles wd !! self = Some t ->
  is_None (_state t) = false ->
  py_eq (_state t) state = false ->
  valid_state state = true ->
  (exists l, trace (snd (emit self state wd))
             = trace wd ++ Change self state (toggles wd) :: l) ->
  exists l, trace (snd (Methods.CheckBox_set_state emit self state true wd))
            = trace wd ++ Change self state (toggles wd) :: l.
Proof.
  intros Hl Hd He Hv Hm. unfold Methods.CheckBox_set_state.
  rewrite (bind_get_toggle _ _ _ _ Hl). rewrite He, dict_in_states, Hv, Hd.
  cbn [negb andb]. apply trace_bind_first; [exact Hm|]. intros _.
  apply steady_bind.
  { apply steady_modify_toggle, gentle_with_state, Hv. }
  intros _. apply steady_bind.
  { destruct (dict_get (states (klass t)) state);
      [apply steady_ret|apply steady_raise]. }
  intros icon. apply steady_bind; [apply steady_new_Columns|]. intros c.
  apply steady_bind; [apply steady_modify_toggle, gentle_set_w|]. intros _.
  apply steady_modify_toggle, gentle_with_focus_col.
Qed.

Lemma Reentrant_emit_first behaviour f self state wd :
  (forall i v c, steady (f i v c)) ->
  exists l, trace (snd (Reentrant._emit behaviour f self state wd))
            = trace wd ++ Change self state (toggles wd) :: l.
Proof.
  intros Hf. unfold Reentrant._emit.
  apply (trace_bind_first (log (Change self state (toggles wd)))
           (fun _ => for_each (Reentrant.registered wd self)
                       (fun h => for_each (behaviour (fst h) self state)
                                   (Reentrant.perform f)))).
  - exists []. reflexivity.
  - intros _. apply steady_for_each. intros h. apply steady_for_each.
    intros [target v c|]; [apply Hf|apply steady_raise].
Qed.

Lemma Reentrant_set_state_first behaviour wd self t state :
  toggles wd !! self = Some t ->
  is_None (_state t) = false ->
  py_eq (_state t) state = false ->
  valid_state state = true ->
  exists l, trace (snd (Reentrant.set_state behaviour self state true wd))
            = trace wd ++ Change self state (toggles wd) :: l.
Proof.
  intros Hl Hd He Hv. unfold Reentrant.set_state.
  change Reentrant.recursion_limit with (S 999).
  rewrite Reentrant_call_set_state_S, Hl.
  assert (Hc : exists l,
    trace (snd (Methods.CheckBox_set_state
                  (Reentrant._emit behaviour
                     (Reentrant.call_set_state behaviour 999))
                  self state true wd))
    = trace wd ++ Change self state (toggles wd) :: l).
  { apply (CheckBox_set_state_first _ _ _ t); try assumption.
    apply Reentrant_emit_first. intros. apply steady_call_set_state. }
  destruct (klass t); [exact Hc|].
  unfold Methods.RadioButton_set_state.
  rewrite (bind_get_toggle _ _ _ _ Hl). rewrite He.
  apply trace_bind_first; [exact Hc|]. intros _.
  destruct (negb (is_True state)); [apply steady_ret|].
  apply steady_bind.
  { destruct (group t); [apply steady_ret|apply steady_raise]. }
  intros g. apply steady_bind; [apply steady_get_group|]. intros ms.
  apply steady_for_each. intros cb. apply steady_clear_other.
  intros. apply steady_call_set_state.
Qed.

(** The first [set_state] of a check box that is being built. *)
Lemma Reentrant_set_state_fresh behaviour wd self t state :
  toggles wd !! self = Some t ->
  klass t = CheckBoxK ->
  _state t = PyNone ->
  valid_state state = true ->
  exists icon,
    Reentrant.set_state behaviour self state true wd
    = (Ok tt, commit self state true t icon wd).
Proof.
  intros Hl Hk Hs Hv. unfold Reentrant.set_state.
  change Reentrant.recursion_limit with (S 999).
  rewrite Reentrant_call_set_state_S, Hl, Hk.
  rewrite (CheckBox_set_state_silent _ _ _ t) by (rewrite ?Hs; auto).
  rewrite Hs, (valid_state_defined _ Hv), Hk.
  destruct (dict_get_states CheckBoxK state Hv) as [icon Hi].
  rewrite Hi. exists icon. reflexivity.
Qed.

(** ** The claims that hold whatever the callbacks do *)

Section Callbacks_at_large.

Variable command_map : string -> string.
Variable is_mouse_press : string -> bool.

(** C3. When [set_state], with the signal enabled, is asked to change
    the state of a control whose state is defined, the first thing the
    call adds to the trace is the emission of 'change' for this control
    with the new state, and the emission sees the controls as they were
    before the call: a handler reading the control's state gets the old
    value.  This holds whatever the callbacks do.  When the callbacks
    only observe, the call returns normally with the new state in place,
    and what follows in the trace are emissions of other controls. *)
Theorem change_emitted_before_commit
    (behaviour : callback -> nat -> pyval -> list Reentrant.Action)
    (ops : list Op) (self : nat) (t : CheckBox) (state : pyval) :
  toggles (Reentrant.run behaviour command_map is_mouse_press ops empty_world)
    !! self = Some t ->
  is_None (_state t) = false ->
  py_eq (_state t) state = false ->
  valid_state state = true ->
  exists r wd' seen later,
    Reentrant.set_state behaviour self state true
      (Reentrant.run behaviour command_map is_mouse_press ops empty_world)
    = (r, wd') /\
    trace wd' =
      trace (Reentrant.run behaviour command_map is_mouse_press ops empty_world)
        ++ Change self state seen :: later /\
    (_state <$> seen !! self) = Some (_state t) /\
    (observing behaviour ->
       r = Ok tt /\ state_of wd' self = Some state /\
       Forall (fun e => emitter_of e <> Some self) later).
Proof.
  set (wd := Reentrant.run behaviour command_map is_mouse_press ops empty_world).
  intros Hl Hd He Hv.
  destruct (Reentrant_set_state_first behaviour wd self t state Hl Hd He Hv)
    as [l T].
  destruct (Reentrant.set_state behaviour self state true wd) as [r wd'] eqn:E.
  cbn [snd] in T.
  exists r, wd', (toggles wd), l. split; [reflexivity|].
  split; [exact T|]. split; [rewrite Hl; reflexivity|].
  intros Hb. rewrite set_state_observing in E by assumption.
  assert (Hw : wd = run command_map is_mouse_press ops empty_world)
    by (apply run_observing; assumption).
  rewrite Hw in Hl.
  destruct (set_state_announces command_map is_mouse_press ops self t state
              Hl Hd He Hv) as (wd2 & seen2 & later2 & E2 & T2 & _ & S2 & F2).
  rewrite <- Hw in E2, T2. rewrite E in E2. injection E2 as -> ->.
  rewrite T in T2. apply app_inv_head in T2. injection T2 as _ ->.
  auto.
Qed.

(** C2, amended.  A check box built, in any store and whatever the
    callbacks do, with an initial state that is a key of [states]
    (False, True or 'mixed'; [has_mixed] set or not) is built without an
    exception and has that state; after any further program its state is
    still a key of [states], and it is never [None]. *)
Theorem checkbox_state_stays_valid
    (behaviour : callback -> nat -> pyval -> list Reentrant.Action)
    (wd : World) (lbl : markup) (state : pyval) (mixed_ok : bool)
    (on_state_change : option callback) (data : pyval) (ops : list Op) :
  valid_state state = true ->
  exists wd1,
    Reentrant.new_CheckBox behaviour lbl state mixed_ok on_state_change data wd
    = (Ok (length (toggles wd)), wd1) /\
    state_of wd1 (length (toggles wd)) = Some state /\
    exists s,
      state_of (Reentrant.run behaviour command_map is_mouse_press ops wd1)
        (length (toggles wd))
      = Some s /\
      valid_state s = true /\ s <> PyNone.
Proof.
  intros Hv.
  pose proof (grown_lookup CheckBoxK None lbl mixed_ok on_state_change data wd)
    as Hx.
  destruct (Reentrant_set_state_fresh behaviour _ _ _ state Hx eq_refl eq_refl Hv)
    as [icon E].
  unfold Reentrant.new_CheckBox. rewrite Methods_new_CheckBox_eq, E.
  eexists. split; [reflexivity|].
  assert (H1 : toggles
                 (commit (length (toggles wd)) state true
                    (fresh CheckBoxK None lbl mixed_ok on_state_change data) icon
                    (grown CheckBoxK None lbl mixed_ok on_state_change data wd))
                 !! length (toggles wd)
               = Some (committed state icon
                         (fresh CheckBoxK None lbl mixed_ok on_state_change data))).
  { cbn [commit toggles]. apply list_lookup_insert_eq.
    eapply lookup_lt_Some; eauto. }
  split; [unfold state_of; rewrite H1; reflexivity|].
  destruct (run_persists command_map is_mouse_press
              (Reentrant.set_state behaviour) (steady_set_state behaviour) ops
              _ _ _ H1) as (t' & Ht' & _ & _ & _ & Hst).
  exists (_state t'). unfold state_of, Reentrant.run. rewrite Ht'.
  split; [reflexivity|].
  assert (valid_state (_state t') = true) as Hv'.
  { destruct Hst as [->|?]; [exact Hv|assumption]. }
  split; [exact Hv'|apply valid_state_not_None; exact Hv'].
Qed.

End Callbacks_at_large.

Lemma change_emitted_before_commit_witness :
  exists r wd' seen later,
    Reentrant.set_state Reentrant.select_first 2 (PyBool true) true
      (Reentrant.run Reentrant.select_first sample_command_map
         sample_is_mouse_press three_radios_program empty_world)
    = (r, wd') /\
    trace wd' =
      trace (Reentrant.run Reentrant.select_first sample_command_map
               sample_is_mouse_press three_radios_program empty_world)
        ++ Change 2 (PyBool true) seen :: later /\
    (_state <$> seen !! 2) = Some (_state third_radio) /\
    (observing Reentrant.select_first ->
       r = Ok tt /\ state_of wd' 2 = Some (PyBool true) /\
       Forall (fun e => emitter_of e <> Some 2) later).
Proof.
  assert (H1 : toggles (Reentrant.run Reentrant.select_first
                          sample_command_map sample_is_mouse_press
                          three_radios_program empty_world) !! 2
               = Some third_radio) by (vm_compute; reflexivity).
  exact (change_emitted_before_commit sample_command_map sample_is_mouse_press
           Reentrant.select_first three_radios_program 2 third_radio
           (PyBool true) H1 eq_refl eq_refl eq_refl).
Defined.

Lemma checkbox_state_stays_valid_witness :
  exists wd1,
    Reentrant.new_CheckBox Reentrant.select_first "Onions" mixed false (Some 9)
      PyNone three_radios
    = (Ok (length (toggles three_radios)), wd1) /\
    state_of wd1 (length (toggles three_radios)) = Some mixed /\
    exists s,
      state_of (Reentrant.run Reentrant.select_first sample_command_map
                  sample_is_mouse_press
                  [ToggleState 3; SetState 3 (PyInt 7) true;
                   SetState 3 PyNone true; SetState 3 (PyBool false) true]
                  wd1)
        (length (toggles three_radios))
      = Some s /\
      valid_state s = true /\ s <> PyNone.
Proof.
  exact (checkbox_state_stays_valid sample_command_map sample_is_mouse_press
           Reentrant.select_first three_radios "Onions" mixed false (Some 9)
           PyNone
           [ToggleState 3; SetState 3 (PyInt 7) true;
            SetState 3 PyNone true; SetState 3 (PyBool false) true]
           eq_refl).
Defined.

(** ** Input handlers of the toggle controls *)

Section Handlers.

Variable command_map : string -> string.
Variable is_mouse_press : string -> bool.

(** X1. [CheckBox.keypress]: a key whose command is 'activate' is
    consumed (the result is [None]) and moves a check box whose state is
    False, True or 'mixed' one step along its cycle; any other key is
    handed back and the store is left as it was. *)
Theorem keypress_activate_or_pass wd self t size key :
  toggles wd !! self = Some t -> klass t = CheckBoxK ->
  In (_state t) [PyBool false; PyBool true; mixed] ->
  if String.eqb (command_map key) "activate"
  then exists wd' t',
         keypress command_map self size key wd = (Ok None, wd') /\
         toggles wd' !! self = Some t' /\
         _state t' = cycle_next (has_mixed t) (_state t)
  else keypress command_map self size key wd = (Ok (Some key), wd).
Proof.
  intros Hl Hk Hin. unfold keypress, Methods.keypress.
  destruct (String.eqb (command_map key) "activate"); cbn [negb];
    [|reflexivity].
  fold toggle_state.
  destruct (toggle_step wd self t Hl Hk Hin) as (wd' & t' & E & Hl' & _ & _ & Hs).
  exists wd', t'. unfold mbind, M_bind. rewrite E. auto.
Qed.

(** X2. [CheckBox.mouse_event]: the event is reported handled ([True])
    exactly when it is a press of button 1, and then a check box whose
    state is False, True or 'mixed' has moved one step along its cycle;
    any other event is reported unhandled and the store is left as it
    was. *)
Theorem mouse_event_press_or_pass wd self t size event button x y focus :
  toggles wd !! self = Some t -> klass t = CheckBoxK ->
  In (_state t) [PyBool false; PyBool true; mixed] ->
  if Z.eqb button 1 && is_mouse_press event
  then exists wd' t',
         mouse_event is_mouse_press self size event button x y focus wd
         = (Ok true, wd') /\
         toggles wd' !! self = Some t' /\
         _state t' = cycle_next (has_mixed t) (_state t)
  else mouse_event is_mouse_press self size event button x y focus wd
       = (Ok false, wd).
Proof.
  intros Hl Hk Hin. unfold mouse_event, Methods.mouse_event.
  destruct (Z.eqb button 1), (is_mouse_press event); cbn [negb orb andb];
    try reflexivity.
  fold toggle_state.
  destruct (toggle_step wd self t Hl Hk Hin) as (wd' & t' & E & Hl' & _ & _ & Hs).
  exists wd', t'. unfold mbind, M_bind. rewrite E. auto.
Qed.

End Handlers.

(** ** Selecting and deselecting radio buttons *)

Lemma RadioButton_toggle_state_eq wd self t :
  toggles wd !! self = Some t -> klass t = RadioButtonK ->
  toggle_state self wd = set_state self (PyBool true) true wd.
Proof.
  intros Hl Hk. unfold toggle_state, Methods.toggle_state.
  rewrite (bind_get_toggle _ _ _ _ Hl), Hk. reflexivity.
Qed.

(** X3. [RadioButton.toggle_state] in a well-formed store returns
    normally and a second call changes nothing.  On a button whose state
    equals [True] the first call changes nothing either; otherwise the
    button is [True] afterwards and no other member of its list is. *)
Theorem RadioButton_toggle_state_selects wd self t g ms :
  well_formed wd ->
  toggles wd !! self = Some t -> klass t = RadioButtonK ->
  group t = Some g -> groups wd !! g = Some ms ->
  exists wd',
    toggle_state self wd = (Ok tt, wd') /\
    toggle_state self wd' = (Ok tt, wd') /\
    if py_eq (_state t) (PyBool true) then wd' = wd
    else state_of wd' self = Some (PyBool true) /\
         forall m, m ∈ ms -> m <> self -> holds_True (toggles wd') m = false.
Proof.
  intros Hwf Hl Hk Hg Hms.
  rewrite (RadioButton_toggle_state_eq _ _ _ Hl Hk).
  destruct (py_eq (_state t) (PyBool true)) eqn:He.
  - exists wd. rewrite (RadioButton_toggle_state_eq _ _ _ Hl Hk).
    rewrite (set_state_unchanged _ _ _ _ _ Hl He). auto.
  - destruct (dict_get_states (klass t) (PyBool true) eq_refl) as [icon Hi].
    destruct (set_state_changes wd self t (PyBool true) true icon Hwf Hl He Hi)
      as (wd' & E & Q & C & _).
    assert (Hl' : toggles wd' !! self = Some (committed (PyBool true) icon t)).
    { rewrite (quiet_self _ _ _ Q). cbn [commit toggles].
      apply list_lookup_insert_eq. eapply lookup_lt_Some; eauto. }
    exists wd'. split; [exact E|]. split; [|split].
    + rewrite (RadioButton_toggle_state_eq _ _ _ Hl' Hk).
      apply (set_state_unchanged _ _ _ _ _ Hl'). reflexivity.
    + unfold state_of. rewrite Hl'. reflexivity.
    + intros m Hm Hne. exact (C Hk eq_refl g ms m Hg Hms Hm Hne).
Qed.



(** X5. [RadioButton(group, label, True)] in a store a program can
    reach: the button is built without an exception and appended to the
    list, and it is then the one member of the list whose state is
    [True]. *)
Theorem new_RadioButton_True_selected wd g ms lbl on_state_change data :
  Inv wd -> groups wd !! g = Some ms ->
  exists wd',
    new_RadioButton g lbl (PyBool true) on_state_change data wd
    = (Ok (length (toggles wd)), wd') /\
    groups wd' !! g = Some (ms ++ [length (toggles wd)]) /\
    selected wd' g = [length (toggles wd)].
Proof.
  intros HI Hg. set (n := length (toggles wd)).
  set (wg := grown RadioButtonK (Some g) lbl false on_state_change data wd).
  assert (HG : Inv wg).
  { apply Inv_grow; [assumption|]. intros _. exists g, ms. auto. }
  pose proof (grown_lookup RadioButtonK (Some g) lbl false on_state_change data wd)
    as Hx. fold wg n in Hx.
  destruct (dict_get_states RadioButtonK (PyBool true) eq_refl) as [icon Hi].
  destruct (set_state_changes wg n _ (PyBool true) true icon (proj1 HG) Hx
              eq_refl Hi) as (w2 & E & Q & C & _).
  rewrite (new_RadioButton_eq _ _ _ _ _ _ _ Hg).
  change (first_state (PyBool true) ms) with (PyBool true).
  fold n wg. rewrite E.
  assert (Hg2 : groups w2 !! g = Some ms).
  { rewrite (quiet_groups _ _ _ Q). exact Hg. }
  rewrite Hg2. eexists. split; [reflexivity|].
  assert (Hgs : groups (snd (set_group g (ms ++ [n]) w2)) !! g
                = Some (ms ++ [n])).
  { cbn [set_group snd groups]. apply list_lookup_insert_eq.
    eapply lookup_lt_Some; eauto. }
  split; [exact Hgs|].
  unfold selected, members. rewrite Hgs. cbn [default from_option id].
  cbn [set_group snd toggles]. rewrite filter_app.
  rewrite filter_none.
  - rewrite filter_cons, decide_True; [reflexivity|].
    unfold holds_True. rewrite (quiet_self _ _ _ Q). cbn [commit toggles].
    rewrite list_lookup_insert_eq by (eapply lookup_lt_Some; eauto).
    reflexivity.
  - intros m Hm HT.
    assert (Hne : m <> n).
    { destruct HI as [[_ W2 _] _].
      destruct (W2 g ms m Hg Hm) as (tm & Htm & _).
      apply lookup_lt_Some in Htm. unfold n. lia. }
    rewrite (C eq_refl eq_refl g ms m eq_refl Hg Hm Hne) in HT. discriminate.
Qed.


(** X7. [set_state] then [get_state], on a control of a well-formed
    store, with callbacks that only observe: when [set_state(v)] returns
    normally, [get_state()] returns a value equal ([==]) to [v]; when it
    raises, [v] is not a key of [states], the exception is
    [CheckBoxError] if the control has a composition and the
    [AttributeError] of building the message if it has none, and the
    store, the state included, is as it was. *)
Theorem set_state_get_state wd self t state do_callback :
  well_formed wd -> toggles wd !! self = Some t ->
  exists r wd',
    set_state self state do_callback wd = (r, wd') /\
    match r with
    | Ok _ => exists s, get_state self wd' = (Ok s, wd') /\ py_eq s state = true
    | Raise e =>
        e = match w t with
            | Some _ => CheckBoxError self state
            | None => AttributeError
            end /\
        valid_state state = false /\ wd' = wd
    end.
Proof.
  intros Hwf Hl.
  destruct (py_eq (_state t) state) eqn:He.
  { rewrite (set_state_unchanged _ _ _ _ _ Hl He). exists (Ok tt), wd.
    split; [reflexivity|]. exists (_state t). unfold get_state.
    rewrite (bind_get_toggle _ _ _ _ Hl). auto. }
  destruct (dict_get (states (klass t)) state) as [icon|] eqn:Hi.
  - destruct (set_state_changes wd self t state do_callback icon Hwf Hl He Hi)
      as (wd' & E & Q & _).
    exists (Ok tt), wd'. split; [exact E|]. exists state.
    assert (Hl' : toggles wd' !! self = Some (committed state icon t)).
    { rewrite (quiet_self _ _ _ Q). cbn [commit toggles].
      apply list_lookup_insert_eq. eapply lookup_lt_Some; eauto. }
    unfold get_state. rewrite (bind_get_toggle _ _ _ _ Hl').
    split; [reflexivity|apply py_eq_refl].
  - pose proof (dict_get_invalid _ _ Hi) as Hv.
    rewrite (set_state_rejects _ _ _ _ _ Hl He Hv).
    exists (Raise (rejection self state t)), wd. auto.
Qed.

(** ** The signals of a selection, in order *)

Section Filter_ext.

Context {A : Type} (P Q : A -> Prop).
Context `{!forall x, Decision (P x)} `{!forall x, Decision (Q x)}.

Lemma filter_ext_elem (l : list A) :
  (forall x, x ∈ l -> P x <-> Q x) -> filter P l = filter Q l.
Proof.
  induction l as [|a l IH]; intros HPQ; [reflexivity|].
  rewrite !filter_cons.
  assert (IH' : filter P l = filter Q l).
  { apply IH. intros x Hx. apply HPQ. right. assumption. }
  destruct (decide (P a)) as [Hp|Hp].
  - rewrite decide_True by (apply HPQ; [left|assumption]). congruence.
  - rewrite decide_False; [assumption|].
    intros Hq. apply Hp. apply HPQ; [left|assumption].
Qed.

End Filter_ext.

Lemma truthy_defined v : truthy v = true -> is_None v = false.
Proof. destruct v; [discriminate|reflexivity..]. Qed.

Lemma clear_loop_signals self ms :
  forall wd,
    NoDup ms ->
    (forall m, m ∈ ms -> is_Some (toggles wd !! m)) ->
    exists wd' evs,
      for_each ms (clear_other CheckBox_set_state self) wd = (Ok tt, wd') /\
      trace wd' = trace wd ++ evs /\
      map signal_of evs
      = map (fun m => Some (m, PyBool false))
          (filter (fun m => to_clear (toggles wd) self m = true) ms) /\
      length (toggles wd') = length (toggles wd) /\
      (forall j, j ∉ ms -> toggles wd' !! j = toggles wd !! j).
Proof.
  induction ms as [|cb ms IH]; intros wd Hnd Hex.
  - exists wd, []. split; [reflexivity|]. rewrite app_nil_r. auto.
  - apply NoDup_cons in Hnd as [Hcb Hnd].
    assert (Hstep : exists wd1 evs1,
      clear_other CheckBox_set_state self cb wd = (Ok tt, wd1) /\
      trace wd1 = trace wd ++ evs1 /\
      map signal_of evs1
      = (if to_clear (toggles wd) self cb then [Some (cb, PyBool false)] else []) /\
      length (toggles wd1) = length (toggles wd) /\
      (forall j, j <> cb -> toggles wd1 !! j = toggles wd !! j)).
    { destruct (Hex cb ltac:(left)) as [c Hc].
      unfold clear_other, to_clear. rewrite Hc.
      destruct (Nat.eqb cb self); cbn [negb andb].
      { exists wd, []. rewrite app_nil_r. auto. }
      rewrite (bind_get_toggle _ _ _ _ Hc).
      destruct (truthy (_state c)) eqn:Ht.
      2:{ exists wd, []. rewrite app_nil_r. auto. }
      rewrite (CheckBox_set_state_eq _ _ _ _ _ Hc), (truthy_not_False _ Ht).
      destruct (dict_get_states (klass c) (PyBool false) eq_refl) as [icon ->].
      eexists _, _. split; [reflexivity|]. cbn [commit trace toggles].
      split; [reflexivity|]. unfold announced.
      rewrite (truthy_defined _ Ht). cbn [andb negb map signal_of].
      split; [reflexivity|]. split; [apply length_insert|].
      intros j Hj. apply list_lookup_insert_ne. congruence. }
    destruct Hstep as (wd1 & evs1 & E1 & T1 & S1 & L1 & K1).
    destruct (IH wd1 Hnd) as (wd2 & evs2 & E2 & T2 & S2 & L2 & K2).
    { intros m Hm. apply lookup_lt_is_Some. rewrite L1.
      apply lookup_lt_is_Some. apply Hex. right. assumption. }
    exists wd2, (evs1 ++ evs2). cbn [for_each]. unfold mbind, M_bind.
    rewrite E1. split; [exact E2|].
    split; [rewrite T2, T1, app_assoc; reflexivity|].
    split; [|split; [congruence|]].
    + rewrite map_app, S1, S2, filter_cons.
      assert (Hf : filter (fun m => to_clear (toggles wd1) self m = true) ms
                   = filter (fun m => to_clear (toggles wd) self m = true) ms).
      { apply filter_ext_elem. intros m Hm. unfold to_clear.
        rewrite K1; [reflexivity|]. intros ->. contradiction. }
      rewrite Hf.
      destruct (to_clear (toggles wd) self cb) eqn:Hc.
      * rewrite decide_True by reflexivity. reflexivity.
      * rewrite decide_False by discriminate. reflexivity.
    + intros j Hj. apply not_elem_of_cons in Hj as [Hj1 Hj2].
      rewrite K2 by assumption. apply K1. assumption.
Qed.

(** With callbacks that only observe: the signals of
    [RadioButton.set_state(True, do_callback)], in order. *)
Lemma set_True_signals_observed wd self t g ms do_callback :
  well_formed wd ->
  toggles wd !! self = Some t -> klass t = RadioButtonK ->
  group t = Some g -> groups wd !! g = Some ms ->
  py_eq (_state t) (PyBool true) = false ->
  exists wd' evs,
    set_state self (PyBool true) do_callback wd = (Ok tt, wd') /\
    trace wd' = trace wd ++ evs /\
    map signal_of evs
    = map Some
        ((if do_callback && negb (is_None (_state t))
          then [(self, PyBool true)] else [])
         ++ map (fun m => (m, PyBool false))
              (filter (fun m => to_clear (toggles wd) self m = true) ms)).
Proof.
  intros Hwf Hl Hk Hg Hms He.
  destruct (dict_get_states (klass t) (PyBool true) eq_refl) as [icon Hi].
  destruct (clear_loop_signals self ms
              (commit self (PyBool true) do_callback t icon wd))
    as (wd' & evs & E & T & S & _ & _).
  { eapply wf_nodup; eauto. }
  { intros m Hm. destruct (wf_member _ Hwf g ms m Hms Hm) as (tm & Hm' & _).
    apply lookup_lt_is_Some. cbn [commit toggles]. rewrite length_insert.
    eapply lookup_lt_Some; eauto. }
  exists wd', (announced self (PyBool true) do_callback t (toggles wd) ++ evs).
  split; [|split].
  - unfold set_state, call_depth. rewrite call_set_state_S, Hl, Hk.
    unfold RadioButton_set_state, Methods.RadioButton_set_state, mbind, M_bind,
      get_toggle. fold CheckBox_set_state.
    rewrite Hl, He, (CheckBox_set_state_eq _ _ _ _ _ Hl), He, Hi, Hg.
    cbn [negb is_True]. unfold mret, M_ret, get_group. cbn [commit groups].
    rewrite Hms, (for_each_ext _ _ ms (clear_other_CheckBox 0 self)).
    exact E.
  - rewrite T. cbn [commit trace]. rewrite app_assoc. reflexivity.
  - rewrite !map_app, S.
    assert (Hf : filter (fun m =>
                   to_clear (toggles (commit self (PyBool true) do_callback t
                                        icon wd)) self m = true) ms
                 = filter (fun m => to_clear (toggles wd) self m = true) ms).
    { apply filter_ext_elem. intros m Hm. unfold to_clear.
      destruct (Nat.eqb_spec m self) as [->|Hne]; cbn [negb andb]; [reflexivity|].
      cbn [commit toggles]. rewrite list_lookup_insert_ne by congruence.
      reflexivity. }
    rewrite Hf, map_map. f_equal.
    unfold announced. destruct (do_callback && negb (is_None (_state t)));
      reflexivity.
Qed.

(** X8. [RadioButton.set_state(True, do_callback)] on a button of a
    well-formed store whose state does not equal [True], with callbacks
    that only observe and return normally: the call returns normally,
    and the 'change' signals it emits are, in this order, the button's
    own with [True] (when [do_callback] is set and the button had a
    state), then one with [False] for every other member of its list
    whose state was true in the sense of [if cb._state] ('mixed'
    included), in list order.  The members are cleared with the signal on
    even when [do_callback] is [False]. *)
Theorem RadioButton_set_True_signals
    (behaviour : callback -> nat -> pyval -> list Reentrant.Action)
    wd self t g ms do_callback :
  observing behaviour ->
  well_formed wd ->
  toggles wd !! self = Some t -> klass t = RadioButtonK ->
  group t = Some g -> groups wd !! g = Some ms ->
  py_eq (_state t) (PyBool true) = false ->
  exists wd' evs,
    Reentrant.set_state behaviour self (PyBool true) do_callback wd
    = (Ok tt, wd') /\
    trace wd' = trace wd ++ evs /\
    map signal_of evs
    = map Some
        ((if do_callback && negb (is_None (_state t))
          then [(self, PyBool true)] else [])
         ++ map (fun m => (m, PyBool false))
              (filter (fun m => to_clear (toggles wd) self m = true) ms)).
Proof.
  intros Hb Hwf Hl Hk Hg Hms He.
  rewrite (set_state_observing _ _ _ _ _ Hb).
  exact (set_True_signals_observed wd self t g ms do_callback Hwf Hl Hk Hg Hms He).
Qed.

(** ** What is on display *)

Lemma display_unset t : _state t = PyNone -> display t = None.
Proof. intros E. unfold display. rewrite E. destruct (klass t); reflexivity. Qed.

Lemma shown_empty : shown empty_world.
Proof. intros j t H. cbn [empty_world toggles] in H. destruct j; discriminate. Qed.

Lemma shown_same_toggles wd wd' : toggles wd' = toggles wd -> shown wd -> shown wd'.
Proof. intros E H j t Hj. rewrite E in Hj. eauto. Qed.

Lemma shown_snoc wd x :
  shown wd -> w x = display x -> shown (set_toggles (toggles wd ++ [x]) wd).
Proof.
  intros H Hx j t Hj. cbn [set_toggles toggles] in Hj.
  apply lookup_app_Some in Hj as [Hj|[_ Hj]]; [eauto|].
  apply list_lookup_singleton_Some in Hj as [_ <-]. exact Hx.
Qed.

Lemma shown_insert wd i x :
  shown wd -> w x = display x -> shown (set_toggles (<[i := x]> (toggles wd)) wd).
Proof.
  intros H Hx j t Hj. cbn [set_toggles toggles] in Hj.
  apply list_lookup_insert_Some in Hj as [(-> & <- & _)|[_ Hj]]; eauto.
Qed.

Lemma tidy_ret {A} (a : A) : tidy (mret a).
Proof. intros wd H. exact H. Qed.

Lemma tidy_raise {A} e : tidy (raise (A := A) e).
Proof. intros wd H. exact H. Qed.

Lemma tidy_bind {A B} (m : M A) (k : A -> M B) :
  tidy m -> (forall a, tidy (k a)) -> tidy (m ≫= k).
Proof.
  intros Hm Hk wd H. unfold mbind, M_bind. specialize (Hm wd H).
  destruct (m wd) as [[a|e] w1]; cbn [snd] in *; [|assumption].
  apply Hk. assumption.
Qed.

Lemma tidy_for_each {A} (l : list A) (body : A -> M unit) :
  (forall x, tidy (body x)) -> tidy (for_each l body).
Proof.
  intros H. induction l as [|x l IH]; cbn [for_each].
  - apply tidy_ret.
  - apply tidy_bind; [apply H|intros; apply IH].
Qed.

Lemma tidy_same {A} (m : M A) :
  (forall wd, toggles (snd (m wd)) = toggles wd) -> tidy m.
Proof. intros H wd Hs. eapply shown_same_toggles; eauto. Qed.

Lemma tidy_keeps {A} (m : M A) : keeps_controls m -> tidy m.
Proof. intros H. apply tidy_same. intros wd. apply H. Qed.

Lemma tidy_get_toggle i : tidy (get_toggle i).
Proof.
  apply tidy_same. intros wd. unfold get_toggle.
  destruct (toggles wd !! i); reflexivity.
Qed.

Lemma tidy_get_group g : tidy (get_group g).
Proof.
  apply tidy_same. intros wd. unfold get_group.
  destruct (groups wd !! g); reflexivity.
Qed.

Lemma tidy_modify_toggle i f : neat f -> tidy (modify_toggle i f).
Proof.
  intros Hf wd H. unfold modify_toggle.
  destruct (toggles wd !! i) as [t|] eqn:Hl; cbn [snd]; [|assumption].
  apply shown_insert; [assumption|]. apply Hf. eauto.
Qed.

Lemma neat_same f :
  (forall t, klass (f t) = klass t /\ _state (f t) = _state t /\ w (f t) = w t) ->
  neat f.
Proof.
  intros H t Ht. destruct (H t) as (K & S & W).
  unfold display. rewrite K, S, W. exact Ht.
Qed.

(** [CheckBox.set_state] when the value is new and valid, whatever
    [_emit] is: the emission if one is due, then the commit on the
    control as the emission left it. *)
Lemma CheckBox_set_state_emitting emit wd self t state do_callback icon :
  toggles wd !! self = Some t ->
  py_eq (_state t) state = false ->
  dict_get (states (klass t)) state = Some icon ->
  Methods.CheckBox_set_state emit self state do_callback wd =
    match (if do_callback && negb (is_None (_state t))
           then emit self state else mret tt) wd with
    | (Ok _, w1) =>
        match toggles w1 !! self with
        | Some t1 =>
            (Ok tt,
             {| toggles :=
                  <[self := with_focus_col 0
                              (set_w (Some {| widget_list :=
                                                 [fixed (reserve_columns (klass t))
                                                    (text icon); own_label];
                                               dividechars := 0;
                                               focus_col := None |})
                                 (with_state state t1))]> (toggles w1);
                buttons := buttons w1; groups := groups w1;
                built := S (built w1); trace := trace w1 |})
        | None => (Raise Dangling, w1)
        end
    | (Raise e, w1) => (Raise e, w1)
    end.
Proof.
  intros Hl He Hi. unfold Methods.CheckBox_set_state.
  rewrite (bind_get_toggle _ _ _ _ Hl), He. unfold dict_in. rewrite Hi.
  cbn [negb]. unfold mbind at 1, M_bind at 1.
  destruct ((if do_callback && negb (is_None (_state t))
             then emit self state else mret tt) wd) as [[[]|e] w1];
    [|reflexivity].
  unfold_m. destruct (toggles w1 !! self) as [t1|] eqn:Hl1; [|reflexivity].
  pose proof (lookup_lt_Some _ _ _ Hl1) as Hlt.
  simpl.
  repeat first
    [ rewrite list_lookup_insert_eq by (rewrite ?length_insert; assumption)
    | rewrite list_insert_insert_eq
    | progress simpl ];
  unfold set_toggles; simpl; reflexivity.
Qed.

Lemma rejection_keeps_store self state wd :
  snd ((repr self ;; raise (A := unit) (CheckBoxError self state)) wd) = wd.
Proof.
  unfold mbind, M_bind, repr.
  destruct (toggles wd !! self) as [t|]; [destruct (w t)|]; reflexivity.
Qed.

Section Tidy_methods.

Variable emit : nat -> pyval -> M unit.
Variable f : nat -> pyval -> bool -> M unit.
Hypothesis emit_steady : forall i v, steady (emit i v).
Hypothesis emit_tidy : forall i v, tidy (emit i v).
Hypothesis f_tidy : forall i v c, tidy (f i v c).

Lemma tidy_CheckBox_set_state self state do_callback :
  tidy (Methods.CheckBox_set_state emit self state do_callback).
Proof.
  intros wd H.
  destruct (toggles wd !! self) as [t|] eqn:Hl.
  2:{ unfold Methods.CheckBox_set_state, mbind, M_bind, get_toggle.
      rewrite Hl. exact H. }
  destruct (py_eq (_state t) state) eqn:He.
  { unfold Methods.CheckBox_set_state.
    rewrite (bind_get_toggle _ _ _ _ Hl), He. exact H. }
  destruct (dict_get (states (klass t)) state) as [icon|] eqn:Hi.
  2:{ unfold Methods.CheckBox_set_state.
      rewrite (bind_get_toggle _ _ _ _ Hl), He. unfold dict_in. rewrite Hi.
      cbn [negb]. rewrite rejection_keeps_store. exact H. }
  rewrite (CheckBox_set_state_emitting _ _ _ _ _ _ _ Hl He Hi).
  assert (Hm : steady (if do_callback && negb (is_None (_state t))
                       then emit self state else mret tt) /\
               tidy (if do_callback && negb (is_None (_state t))
                     then emit self state else mret tt)).
  { destruct (do_callback && negb (is_None (_state t)));
      [auto|split; [apply steady_ret|apply tidy_ret]]. }
  destruct Hm as [Hst Hti]. specialize (Hti wd H).
  destruct (Hst wd) as [P _].
  destruct ((if do_callback && negb (is_None (_state t))
             then emit self state else mret tt) wd) as [[[]|e] w1];
    cbn [snd] in *; [|assumption].
  destruct (P self t Hl) as (t1 & Hl1 & K & _).
  rewrite Hl1. cbn [snd].
  intros j tj Hj. cbn [toggles] in Hj.
  apply list_lookup_insert_Some in Hj as [(-> & <- & _)|[_ Hj]]; [|eauto].
  unfold display.
  cbn [with_focus_col set_w _invalidate with_w with_state klass _state w
       option_map].
  rewrite K, Hi. reflexivity.
Qed.

Lemma tidy_clear_other self cb : tidy (clear_other f self cb).
Proof.
  unfold clear_other. destruct (Nat.eqb cb self); [apply tidy_ret|].
  apply tidy_bind; [apply tidy_get_toggle|]. intros c.
  destruct (truthy (_state c)); [apply f_tidy|apply tidy_ret].
Qed.

Lemma tidy_RadioButton_set_state self state do_callback :
  tidy (Methods.RadioButton_set_state emit f self state do_callback).
Proof.
  unfold Methods.RadioButton_set_state.
  apply tidy_bind; [apply tidy_get_toggle|]. intros t.
  destruct (py_eq (_state t) state); [apply tidy_ret|].
  apply tidy_bind; [apply tidy_CheckBox_set_state|]. intros _.
  destruct (negb (is_True state)); [apply tidy_ret|].
  apply tidy_bind.
  { destruct (group t); [apply tidy_ret|apply tidy_raise]. }
  intros g. apply tidy_bind; [apply tidy_get_group|]. intros ms.
  apply tidy_for_each. intros cb. apply tidy_clear_other.
Qed.

Lemma tidy_toggle_state self : tidy (Methods.toggle_state f self).
Proof.
  unfold Methods.toggle_state.
  apply tidy_bind; [apply tidy_get_toggle|]. intros t.
  destruct (klass t); [|apply f_tidy].
  unfold Methods.CheckBox_toggle_state.
  apply tidy_bind; [apply tidy_get_toggle|]. intros t'.
  apply tidy_bind.
  2:{ intros _. apply tidy_modify_toggle, neat_same. intros; cbn; auto. }
  destruct (py_eq (_state t') (PyBool false)); [apply f_tidy|].
  destruct (py_eq (_state t') (PyBool true)).
  { destruct (has_mixed t'); apply f_tidy. }
  destruct (py_eq (_state t') mixed); [apply f_tidy|apply tidy_ret].
Qed.

Variable command_map : string -> string.
Variable is_mouse_press : string -> bool.

Lemma step_shown o wd :
  shown wd -> shown (Methods.step f command_map is_mouse_press o wd).
Proof.
  intros H. destruct o; cbn [Methods.step].
  - revert H. apply tidy_same. reflexivity.
  - rewrite Methods_new_CheckBox_eq.
    assert (HG : shown (grown CheckBoxK None lbl mixed_ok on_state_change data wd)).
    { apply shown_snoc; [assumption|]. symmetry. apply display_unset. reflexivity. }
    apply (f_tidy (length (toggles wd)) state true) in HG.
    destruct (f _ state true _) as [[[]|e] w2]; exact HG.
  - destruct (groups wd !! g) as [ms|] eqn:Hg.
    2:{ rewrite Methods_new_RadioButton_dangling by assumption. exact H. }
    rewrite (Methods_new_RadioButton_eq _ _ _ _ _ _ _ _ Hg).
    assert (HG : shown (grown RadioButtonK (Some g) lbl false on_state_change
                          data wd)).
    { apply shown_snoc; [assumption|]. symmetry. apply display_unset. reflexivity. }
    apply (f_tidy (length (toggles wd)) (first_state state ms) true) in HG.
    destruct (f _ (first_state state ms) true _) as [[[]|e] w2]; cbn [snd] in *;
      [|exact HG].
    destruct (groups w2 !! g); exact HG.
  - revert H. apply tidy_keeps, keeps_new_Button.
  - revert H. apply tidy_modify_toggle, neat_same. intros; cbn; auto.
  - revert H. apply f_tidy.
  - revert H. apply tidy_modify_toggle, neat_same. intros; cbn; auto.
  - revert H. apply tidy_toggle_state.
  - revert H. unfold Methods.keypress.
    destruct (negb (String.eqb (command_map key) "activate"));
      [apply tidy_ret|].
    apply (tidy_bind (Methods.toggle_state f self) (fun _ => mret None));
      [apply tidy_toggle_state|intros; apply tidy_ret].
  - revert H. unfold Methods.mouse_event.
    destruct (negb (Z.eqb button 1) || negb (is_mouse_press event));
      [apply tidy_ret|].
    apply (tidy_bind (Methods.toggle_state f self) (fun _ => mret true));
      [apply tidy_toggle_state|intros; apply tidy_ret].
  - revert H. apply tidy_keeps, keeps_Button_set_label.
  - revert H. apply tidy_keeps, keeps_Button_keypress.
  - revert H. apply tidy_keeps, keeps_Button_mouse_event.
Qed.

Lemma run_shown ops : forall wd,
  shown wd -> shown (Methods.run f command_map is_mouse_press ops wd).
Proof.
  induction ops as [|o ops IH]; intros wd H; cbn [Methods.run];
    [assumption|]. apply IH, step_shown, H.
Qed.

End Tidy_methods.

Section Tidy_callbacks.

Variable behaviour : callback -> nat -> pyval -> list Reentrant.Action.

Lemma tidy_emit f self state :
  (forall i v c, tidy (f i v c)) ->
  tidy (Reentrant._emit behaviour f self state).
Proof.
  intros Hf wd. unfold Reentrant._emit.
  apply (tidy_bind (log (Change self state (toggles wd)))
           (fun _ => for_each (Reentrant.registered wd self)
                       (fun h => for_each (behaviour (fst h) self state)
                                   (Reentrant.perform f)))).
  - apply tidy_same. reflexivity.
  - intros _. apply tidy_for_each. intros h. apply tidy_for_each.
    intros [target v c|]; [apply Hf|apply tidy_raise].
Qed.

Lemma tidy_call_set_state depth :
  forall self state do_callback,
    tidy (Reentrant.call_set_state behaviour depth self state do_callback).
Proof.
  induction depth as [|d IH]; intros self state do_callback;
    cbn [Reentrant.call_set_state]; [apply tidy_raise|].
  apply tidy_bind; [apply tidy_get_toggle|]. intros t.
  destruct (klass t).
  - apply tidy_CheckBox_set_state.
    + intros. apply steady_emit, steady_call_set_state.
    + intros. apply tidy_emit, IH.
  - apply tidy_RadioButton_set_state; [| |exact IH].
    + intros. apply steady_emit, steady_call_set_state.
    + intros. apply tidy_emit, IH.
Qed.

End Tidy_callbacks.

(** X9. In every store a program reaches, whatever calls of
    [set_state] the callbacks make, each check box and radio button
    shows its present state: its composition [w] is the glyph that its
    class gives its state followed by the label, with the focus on the
    glyph column; a control that has no state (built with [None]) has no
    composition. *)
Theorem display_shows_state
    (behaviour : callback -> nat -> pyval -> list Reentrant.Action)
    (command_map : string -> string) (is_mouse_press : string -> bool)
    (ops : list Op) (j : nat) (t : CheckBox) :
  toggles (Reentrant.run behaviour command_map is_mouse_press ops empty_world)
    !! j = Some t ->
  w t = display t.
Proof.
  intros Hj.
  apply (run_shown (Reentrant.set_state behaviour)
           (tidy_call_set_state behaviour Reentrant.recursion_limit)
           command_map is_mouse_press ops empty_world shown_empty j t Hj).
Qed.

(** ** Controls along a program *)

(** X10. Whatever program runs and whatever calls of [set_state] the
    callbacks make, a check box or radio button of the store is never
    removed or replaced, and its class, its [has_mixed] flag and the list
    it was built in stay what they are. *)
Theorem controls_keep_class_and_list
    (behaviour : callback -> nat -> pyval -> list Reentrant.Action)
    (command_map : string -> string) (is_mouse_press : string -> bool)
    (ops : list Op) (wd : World) (j : nat) (t : CheckBox) :
  toggles wd !! j = Some t ->
  exists t',
    toggles (Reentrant.run behaviour command_map is_mouse_press ops wd) !! j
    = Some t' /\
    klass t' = klass t /\ has_mixed t' = has_mixed t /\ group t' = group t.
Proof.
  intros Hj.
  destruct (run_persists command_map is_mouse_press
              (Reentrant.set_state behaviour) (steady_set_state behaviour) ops
              wd j t Hj) as (t' & Ht' & K & Mx & G & _).
  exists t'. auto.
Qed.

(** ** Labels *)

(** X11. [CheckBox.set_label] then [get_label], for a label given as
    plain text: the call returns normally and [get_label] returns the new
    label; the state, the composition (which holds the label by
    reference, no new one is built), the callbacks, the other controls
    and the trace are as they were: nothing is emitted. *)
Theorem CheckBox_label_round_trip wd self t lbl :
  toggles wd !! self = Some t ->
  exists wd' t',
    set_label self lbl wd = (Ok tt, wd') /\
    get_label self wd' = (Ok lbl, wd') /\
    toggles wd' !! self = Some t' /\
    _state t' = _state t /\ w t' = w t /\ handlers t' = handlers t /\
    (forall j, j <> self -> toggles wd' !! j = toggles wd !! j) /\
    built wd' = built wd /\ trace wd' = trace wd.
Proof.
  intros Hl. pose proof (lookup_lt_Some _ _ _ Hl) as Hlt.
  unfold set_label, modify_toggle. rewrite Hl.
  assert (Hl' : toggles (set_toggles (<[self := with_label lbl t]> (toggles wd)) wd)
                !! self = Some (with_label lbl t)).
  { cbn [set_toggles toggles]. apply list_lookup_insert_eq. assumption. }
  eexists _, _. split; [reflexivity|].
  unfold get_label. rewrite (bind_get_toggle _ _ _ _ Hl').
  split; [reflexivity|]. split; [exact Hl'|].
  repeat split.
  intros j Hj. cbn [set_toggles toggles]. apply list_lookup_insert_ne. congruence.
Qed.

(** ** Button *)

Lemma Button_set_label_eq wd self b lbl :
  buttons wd !! self = Some b ->
  Button_set_label self lbl wd =
  (Ok tt,
   {| toggles := toggles wd;
      buttons :=
        <[self := {| button_w :=
                       Some {| widget_list :=
                                 [fixed 1 button_left; fresh_text lbl;
                                  fixed 1 button_right];
                               dividechars := 1; focus_col := None |};
                     label := lbl; on_press := on_press b;
                     user_data := user_data b;
                     button_invalidations :=
                       S (S (button_invalidations b)) |}]>
          (buttons wd);
      groups := groups wd; built := S (built wd); trace := trace wd |}).
Proof.
  intros Hb. pose proof (lookup_lt_Some _ _ _ Hb) as Hlt.
  unfold Button_set_label, modify_button. unfold_m. rewrite Hb. simpl.
  repeat first
    [ rewrite list_lookup_insert_eq by (rewrite ?length_insert; assumption)
    | rewrite list_insert_insert_eq
    | progress simpl ];
  reflexivity.
Qed.

Lemma modify_button_snoc wd bs b f :
  buttons wd = bs ++ [b] ->
  modify_button (length bs) f wd =
  (Ok tt, {| toggles := toggles wd; buttons := bs ++ [f b];
             groups := groups wd; built := built wd; trace := trace wd |}).
Proof.
  intros E. unfold modify_button. rewrite E, lookup_snoc, insert_snoc.
  reflexivity.
Qed.

Lemma new_Button_eq wd lbl press data :
  new_Button lbl press data wd =
  (Ok (length (buttons wd)),
   {| toggles := toggles wd;
      buttons :=
        buttons wd ++
        [{| button_w :=
              Some {| widget_list :=
                        [fixed 1 button_left; fresh_text lbl;
                         fixed 1 button_right];
                      dividechars := 1; focus_col := None |};
            label := lbl; on_press := press; user_data := data;
            button_invalidations := 2 |}];
      groups := groups wd; built := S (built wd); trace := trace wd |}).
Proof.
  unfold new_Button, alloc_button, Button__init__.
  unfold mbind, M_bind.
  erewrite modify_button_snoc by reflexivity.
  erewrite Button_set_label_eq by (cbn [buttons]; apply lookup_snoc).
  cbn [buttons toggles groups built trace]. rewrite insert_snoc.
  erewrite modify_button_snoc by reflexivity.
  erewrite modify_button_snoc by reflexivity.
  reflexivity.
Qed.

(** X12. [Button.set_label] then [get_label]: the call returns normally
    and [get_label] returns the label as it was given; the composition is
    rebuilt as the left bracket, the new label and the right bracket,
    one column apart, and the widget is invalidated twice, once by the
    assignment of [self.w] and once by the explicit call; the callback
    and its user data are kept, the toggle controls untouched, and no
    callback is called. *)
Theorem Button_label_round_trip wd self b lbl :
  buttons wd !! self = Some b ->
  exists wd' b',
    Button_set_label self lbl wd = (Ok tt, wd') /\
    Button_get_label self wd' = (Ok lbl, wd') /\
    buttons wd' !! self = Some b' /\
    button_w b' = Some {| widget_list := [fixed 1 "<"; fresh_text lbl; fixed 1 ">"];
                          dividechars := 1; focus_col := None |} /\
    on_press b' = on_press b /\ user_data b' = user_data b /\
    button_invalidations b' = S (S (button_invalidations b)) /\
    toggles wd' = toggles wd /\ trace wd' = trace wd.
Proof.
  intros Hb. pose proof (lookup_lt_Some _ _ _ Hb) as Hlt.
  rewrite (Button_set_label_eq _ _ _ _ Hb).
  eexists _, _. split; [reflexivity|].
  unfold Button_get_label, mbind, M_bind, get_button. cbn [buttons].
  rewrite list_lookup_insert_eq by assumption.
  repeat split.
Qed.

(** X13. A button built with a callback and then given space or
    'enter': the constructor returns normally and calls nothing; the key
    is consumed and the callback is called once, with the button and the
    user data, or with the button alone when the user data is [None]. *)
Theorem new_Button_then_keypress wd lbl f data size key :
  activation_key key = true ->
  exists wd1 wd2,
    new_Button lbl (Some f) data wd = (Ok (length (buttons wd)), wd1) /\
    trace wd1 = trace wd /\
    Button_get_label (length (buttons wd)) wd1 = (Ok lbl, wd1) /\
    Button_keypress (length (buttons wd)) size key wd1 = (Ok None, wd2) /\
    trace wd2
    = trace wd ++ [Press f (length (buttons wd))
                     (if is_None data then None else Some data)].
Proof.
  intros Hk. rewrite new_Button_eq. eexists _, _.
  split; [reflexivity|]. split; [reflexivity|]. split.
  { unfold Button_get_label, mbind, M_bind, get_button. cbn [buttons].
    rewrite lookup_snoc. reflexivity. }
  erewrite Button_keypress_eq by (cbn [buttons]; apply lookup_snoc).
  rewrite Hk. cbn [on_press user_data log snd trace]. split; reflexivity.
Qed.

Section Pointer_handled.

Variable is_mouse_press : string -> bool.

(** X14. [Button.mouse_event] reports the event handled exactly when it
    is a press of button 1 and the button has a callback, and that is
    exactly when the callback is called (once); otherwise the store is
    left as it was.  Unlike [keypress], it does not consume an
    activation when no callback is set. *)
Theorem Button_mouse_event_handled wd self b size event button x y focus :
  buttons wd !! self = Some b ->
  exists r wd',
    Button_mouse_event is_mouse_press self size event button x y focus wd
    = (Ok r, wd') /\
    (r = true <->
     button = 1%Z /\ is_mouse_press event = true /\ is_Some (on_press b)) /\
    (r = false -> wd' = wd) /\
    (r = true ->
     exists f, on_press b = Some f /\
               trace wd' = trace wd ++ [Press f self None] /\
               buttons wd' = buttons wd /\ toggles wd' = toggles wd).
Proof.
  intros Hb. rewrite (Button_mouse_event_eq _ _ _ _ _ _ _ _ _ _ Hb).
  destruct (Z.eqb_spec button 1) as [->|Hne]; cbn [andb].
  2:{ exists false, wd. split; [reflexivity|]. split; [|split]; try discriminate; auto.
      split; [discriminate|]. intros [? _]. contradiction. }
  destruct (is_mouse_press event) eqn:Hp.
  2:{ exists false, wd. split; [reflexivity|]. split; [|split]; try discriminate; auto.
      split; [discriminate|]. intros (_ & ? & _). discriminate. }
  destruct (on_press b) as [f|] eqn:Hf.
  - exists true. eexists. split; [reflexivity|]. split; [|split].
    + split; [|reflexivity]. intros _. repeat split. exists f. reflexivity.
    + discriminate.
    + intros _. exists f. repeat split.
  - exists false, wd. split; [reflexivity|]. split; [|split]; try discriminate; auto.
    split; [discriminate|]. intros (_ & _ & [f' Hx]). discriminate.
Qed.

End Pointer_handled.

(** ** A control without a state *)

Lemma toggle_state_unset wd self t :
  toggles wd !! self = Some t -> klass t = CheckBoxK -> _state t = PyNone ->
  toggle_state self wd
  = (Ok tt, set_toggles (<[self := _invalidate t]> (toggles wd)) wd).
Proof.
  intros Hl Hk Hs. unfold toggle_state, Methods.toggle_state.
  rewrite (bind_get_toggle _ _ _ _ Hl), Hk.
  unfold Methods.CheckBox_toggle_state.
  rewrite (bind_get_toggle _ _ _ _ Hl), Hs. unfold mixed. cbn [py_eq].
  unfold mbind, M_bind, mret, M_ret, modify_toggle. rewrite Hl. reflexivity.
Qed.

(** X15. A check box that has no state (one built with [None]) never
    gets one from [toggle_state]: however many times it is called, each
    call returns normally and invalidates the widget, the state stays
    [None], no composition is built and nothing is emitted. *)
Theorem toggle_state_leaves_unset (n : nat) : forall wd self t,
  toggles wd !! self = Some t -> klass t = CheckBoxK -> _state t = PyNone ->
  exists wd' t',
    toggle_times n self wd = (Ok tt, wd') /\
    toggles wd' !! self = Some t' /\
    _state t' = PyNone /\ w t' = w t /\
    invalidations t' = n + invalidations t /\
    built wd' = built wd /\ trace wd' = trace wd.
Proof.
  induction n as [|n IH]; intros wd self t Hl Hk Hs.
  - exists wd, t. repeat split; assumption.
  - cbn [toggle_times]. unfold mbind, M_bind.
    rewrite (toggle_state_unset _ _ _ Hl Hk Hs).
    assert (Hl1 : toggles (set_toggles (<[self := _invalidate t]> (toggles wd)) wd)
                  !! self = Some (_invalidate t)).
    { cbn [set_toggles toggles]. apply list_lookup_insert_eq.
      eapply lookup_lt_Some; eauto. }
    destruct (IH _ self (_invalidate t) Hl1 Hk Hs)
      as (wd' & t' & E & Hl' & Hs' & Hw & Hi & Hb & Ht).
    exists wd', t'. split; [exact E|]. split; [exact Hl'|].
    split; [exact Hs'|]. split; [exact Hw|].
    split; [rewrite Hi; cbn [_invalidate invalidations]; lia|].
    split; [exact Hb|exact Ht].
Qed.

(** ** Cursor *)

Section Cursor.

Variable Canvas : Type.
Variable Text_render : SelectableIcon -> Z -> bool -> Canvas.
Variable WidgetWrap_render : option Columns -> Z -> bool -> Canvas.
Variable CompositeCanvas : Canvas -> Canvas.
Variable set_cursor : option (Z * Z) -> Canvas -> Canvas.

(** Reading the attribute [cursor] of a canvas. *)
Variable cursor : Canvas -> option (Z * Z).
Hypothesis cursor_set : forall x c, cursor (set_cursor x c) = x.

(** X16. [SelectableIcon]: rendered in focus, the canvas carries the
    cursor that [get_cursor_coords] reports, which is column 1 of row 0
    when the widget is more than one column wide, inside the widget, and
    no cursor otherwise; rendered out of focus, the canvas is the one
    of [Text.render], untouched.  [keypress] hands every key back. *)
Theorem SelectableIcon_cursor_in_focus (self : SelectableIcon) (maxcol : Z)
    (size : Z) (key : string) :
  cursor (SelectableIcon_render Canvas Text_render CompositeCanvas set_cursor
            self maxcol true)
  = SelectableIcon_get_cursor_coords maxcol /\
  SelectableIcon_render Canvas Text_render CompositeCanvas set_cursor
    self maxcol false
  = Text_render self maxcol false /\
  (forall x y, SelectableIcon_get_cursor_coords maxcol = Some (x, y) ->
     (x = 1 /\ y = 0 /\ 0 <= x < maxcol)%Z) /\
  (SelectableIcon_get_cursor_coords maxcol = None <-> (maxcol <= 1)%Z) /\
  SelectableIcon_keypress size key = key.
Proof.
  unfold SelectableIcon_render, SelectableIcon_get_cursor_coords.
  split; [apply cursor_set|]. split; [reflexivity|].
  destruct (Z.ltb_spec 1 maxcol) as [H|H].
  - split; [intros x y [= <- <-]; lia|]. split; [|reflexivity].
    split; [discriminate|lia].
  - split; [discriminate|]. split; [|reflexivity]. split; auto.
Qed.

(** X17. [Button]: rendered in focus and more than two columns wide,
    the canvas carries the cursor that [get_cursor_coords] reports,
    column 2 of row 0 (the column after the left bracket and the gap),
    inside the widget; out of focus, or two columns wide or less,
    [render] assigns no cursor, and [get_cursor_coords] reports none
    for such a width. *)
Theorem Button_cursor_in_focus (self : Button) (maxcol : Z) (focus : bool) :
  ((2 < maxcol)%Z ->
   cursor (Button_render Canvas WidgetWrap_render CompositeCanvas set_cursor
             self maxcol true)
   = Button_get_cursor_coords maxcol /\
   Button_get_cursor_coords maxcol = Some (2, 0)%Z) /\
  (focus = false \/ (maxcol <= 2)%Z ->
   Button_render Canvas WidgetWrap_render CompositeCanvas set_cursor
     self maxcol focus
   = CompositeCanvas (WidgetWrap_render (button_w self) maxcol focus)) /\
  (Button_get_cursor_coords maxcol = None <-> (maxcol <= 2)%Z).
Proof.
  unfold Button_render, Button_get_cursor_coords.
  destruct (Z.ltb_spec 2 maxcol) as [H|H].
  - split; [intros _; cbn [andb]; split; [apply cursor_set|reflexivity]|].
    split; [intros [->|?]; [reflexivity|lia]|].
    split; [discriminate|lia].
  - split; [lia|]. split; [intros _; rewrite andb_false_r; reflexivity|].
    split; auto.
Qed.

End Cursor.

(** ** The signal of a toggle *)

(** With callbacks that only observe: the emission and the
    invalidations of one [CheckBox.toggle_state]. *)
Lemma toggle_state_emits_observed wd self t :
  toggles wd !! self = Some t -> klass t = CheckBoxK ->
  In (_state t) [PyBool false; PyBool true; mixed] ->
  exists wd' t',
    toggle_state self wd = (Ok tt, wd') /\
    trace wd'
    = trace wd ++ [Change self (cycle_next (has_mixed t) (_state t)) (toggles wd)] /\
    toggles wd' !! self = Some t' /\
    _state t' = cycle_next (has_mixed t) (_state t) /\
    invalidations t' = S (S (invalidations t)) /\
    handlers t' = handlers t.
Proof.
  intros Hl Hk Hin.
  pose proof (lookup_lt_Some _ _ _ Hl) as Hlt.
  unfold toggle_state, Methods.toggle_state.
  rewrite (bind_get_toggle _ _ _ _ Hl), Hk.
  unfold Methods.CheckBox_toggle_state.
  rewrite (bind_get_toggle _ _ _ _ Hl).
  assert (Hdone : forall v icon,
    py_eq (_state t) v = false -> dict_get (states CheckBoxK) v = Some icon ->
    exists wd' t',
      (set_state self v true ;; modify_toggle self _invalidate) wd = (Ok tt, wd') /\
      trace wd' = trace wd ++ [Change self v (toggles wd)] /\
      toggles wd' !! self = Some t' /\ _state t' = v /\
      invalidations t' = S (S (invalidations t)) /\ handlers t' = handlers t).
  { intros v icon Hne Hi. unfold mbind, M_bind.
    rewrite (set_state_CheckBoxK _ _ _ _ _ Hl Hk),
      (CheckBox_set_state_eq _ _ _ _ _ Hl), Hne, Hk, Hi.
    unfold modify_toggle. cbn [commit toggles].
    rewrite list_lookup_insert_eq by assumption.
    eexists _, _. split; [reflexivity|]. unfold set_toggles; cbn [toggles trace].
    rewrite list_lookup_insert_eq by (rewrite length_insert; assumption).
    split.
    { cbn [commit trace]. unfold announced.
      assert (is_None (_state t) = false) as ->; [|reflexivity].
      destruct Hin as [E|[E|[E|[]]]]; rewrite <- E; reflexivity. }
    repeat split. }
  destruct Hin as [E|[E|[E|[]]]]; rewrite <- E in *;
    cbn [py_eq Bool.eqb cycle_next]; rewrite ?py_eq_mixed;
    try destruct (has_mixed t); eapply Hdone; reflexivity.
Qed.

(** X18. [CheckBox.toggle_state] on a check box whose state is False,
    True or 'mixed', with callbacks that only observe and return
    normally, emits 'change' exactly once, with the next state of the
    cycle and before that state is committed (the emission sees the
    controls as they were), and invalidates the widget twice, once by the
    assignment of [self.w] in [set_state] and once by the explicit call;
    the callbacks registered stay registered. *)
Theorem toggle_state_emits_once
    (behaviour : callback -> nat -> pyval -> list Reentrant.Action)
    wd self t :
  observing behaviour ->
  toggles wd !! self = Some t -> klass t = CheckBoxK ->
  In (_state t) [PyBool false; PyBool true; mixed] ->
  exists wd' t',
    Methods.toggle_state (Reentrant.set_state behaviour) self wd = (Ok tt, wd') /\
    trace wd'
    = trace wd ++ [Change self (cycle_next (has_mixed t) (_state t)) (toggles wd)] /\
    toggles wd' !! self = Some t' /\
    _state t' = cycle_next (has_mixed t) (_state t) /\
    invalidations t' = S (S (invalidations t)) /\
    handlers t' = handlers t.
Proof.
  intros Hb Hl Hk Hin.
  rewrite (toggle_state_ext (Reentrant.set_state behaviour) set_state
             (fun i v c w0 => set_state_observing behaviour i v c w0 Hb)).
  exact (toggle_state_emits_observed wd self t Hl Hk Hin).
Qed.

(** ** The constructor's callback *)

(** X19. The arguments [on_state_change] and [user_data] of the
    constructor of [CheckBox] are a shorthand: building the check box
    with them (and an initial state that is a key of [states]) gives the
    very store and result that building it without them and then
    calling [connect_signal] gives. *)
Theorem on_state_change_is_connect_signal wd lbl state mixed_ok f data :
  valid_state state = true ->
  new_CheckBox lbl state mixed_ok (Some f) data wd =
  (self ← new_CheckBox lbl state mixed_ok None PyNone;
   connect_signal self f data ;; mret self) wd.
Proof.
  intros Hv. destruct (dict_get_states CheckBoxK state Hv) as [icon Hi].
  pose proof (valid_state_defined _ Hv) as Hd.
  unfold mbind at 1, M_bind at 1. rewrite !new_CheckBox_eq.
  rewrite (set_state_CheckBoxK _ _ _ _ _
             (grown_lookup CheckBoxK None lbl mixed_ok (Some f) data wd) eq_refl),
    (CheckBox_set_state_eq _ _ _ _ _
       (grown_lookup CheckBoxK None lbl mixed_ok (Some f) data wd)).
  rewrite (set_state_CheckBoxK _ _ _ _ _
             (grown_lookup CheckBoxK None lbl mixed_ok None PyNone wd) eq_refl),
    (CheckBox_set_state_eq _ _ _ _ _
       (grown_lookup CheckBoxK None lbl mixed_ok None PyNone wd)).
  cbn [fresh _state klass]. rewrite Hd, Hi.
  unfold connect_signal, mbind, M_bind, modify_toggle, mret, M_ret.
  unfold commit, grown, set_toggles. cbn [toggles buttons groups built trace].
  rewrite !insert_snoc, lookup_snoc. cbn [toggles buttons groups built trace].
  rewrite insert_snoc. reflexivity.
Qed.

(** ** The last word of a check box *)

(** X20. Whatever calls of [set_state] the callbacks make during the
    emission, when [set_state(v)] on a check box returns normally the
    check box has a state equal ([==]) to [v]: the commit comes after
    the callbacks and overrides what they did to this control. *)
Theorem CheckBox_set_state_has_last_word
    (behaviour : callback -> nat -> pyval -> list Reentrant.Action)
    wd self t state do_callback :
  toggles wd !! self = Some t -> klass t = CheckBoxK ->
  exists r wd',
    Reentrant.set_state behaviour self state do_callback wd = (r, wd') /\
    match r with
    | Ok _ => exists s, state_of wd' self = Some s /\ py_eq s state = true
    | Raise _ => True
    end.
Proof.
  intros Hl Hk. unfold Reentrant.set_state.
  change Reentrant.recursion_limit with (S 999).
  rewrite Reentrant_call_set_state_S, Hl, Hk.
  destruct (py_eq (_state t) state) eqn:He.
  { unfold Methods.CheckBox_set_state.
    rewrite (bind_get_toggle _ _ _ _ Hl), He. exists (Ok tt), wd.
    split; [reflexivity|]. exists (_state t). unfold state_of. rewrite Hl. auto. }
  destruct (dict_get (states (klass t)) state) as [icon|] eqn:Hi.
  2:{ unfold Methods.CheckBox_set_state.
      rewrite (bind_get_toggle _ _ _ _ Hl), He. unfold dict_in. rewrite Hi.
      cbn [negb]. unfold mbind, M_bind, repr. rewrite Hl.
      destruct (w t); eexists _, _; (split; [reflexivity|]); exact I. }
  rewrite (CheckBox_set_state_emitting _ _ _ _ _ _ _ Hl He Hi).
  destruct ((if do_callback && negb (is_None (_state t))
             then Reentrant._emit behaviour
                    (Reentrant.call_set_state behaviour 999) self state
             else mret tt) wd) as [[[]|e] w1].
  2:{ eexists _, _. split; [reflexivity|]. exact I. }
  destruct (toggles w1 !! self) as [t1|] eqn:Hl1.
  2:{ eexists _, _. split; [reflexivity|]. exact I. }
  eexists _, _. split; [reflexivity|]. exists state.
  unfold state_of. cbn [toggles].
  rewrite list_lookup_insert_eq by (eapply lookup_lt_Some; eauto).
  split; [reflexivity|apply py_eq_refl].
Qed.

(** ** The theorems above at work on the sample stores *)

Lemma keypress_activate_or_pass_witness :
  if String.eqb (sample_command_map " ") "activate"
  then exists wd' t',
         keypress sample_command_map 0 10%Z " " one_checkbox = (Ok None, wd') /\
         toggles wd' !! 0 = Some t' /\
         _state t' = cycle_next (has_mixed confirm_box) (_state confirm_box)
  else keypress sample_command_map 0 10%Z " " one_checkbox
       = (Ok (Some " "), one_checkbox).
Proof.
  assert (H1 : toggles one_checkbox !! 0 = Some confirm_box)
    by (vm_compute; reflexivity).
  exact (keypress_activate_or_pass sample_command_map one_checkbox 0 confirm_box
           10%Z " " H1 eq_refl (or_introl eq_refl)).
Defined.

Lemma mouse_event_press_or_pass_witness :
  if Z.eqb 1 1 && sample_is_mouse_press "mouse press"
  then exists wd' t',
         mouse_event sample_is_mouse_press 0 20%Z "mouse press" 1%Z 2%Z 0%Z true
           one_checkbox
         = (Ok true, wd') /\
         toggles wd' !! 0 = Some t' /\
         _state t' = cycle_next (has_mixed confirm_box) (_state confirm_box)
  else mouse_event sample_is_mouse_press 0 20%Z "mouse press" 1%Z 2%Z 0%Z true
         one_checkbox
       = (Ok false, one_checkbox).
Proof.
  assert (H1 : toggles one_checkbox !! 0 = Some confirm_box)
    by (vm_compute; reflexivity).
  exact (mouse_event_press_or_pass sample_is_mouse_press one_checkbox 0
           confirm_box 20%Z "mouse press" 1%Z 2%Z 0%Z true
           H1 eq_refl (or_introl eq_refl)).
Defined.

Lemma RadioButton_toggle_state_selects_witness :
  exists wd',
    toggle_state 2 three_radios = (Ok tt, wd') /\
    toggle_state 2 wd' = (Ok tt, wd') /\
    if py_eq (_state third_radio) (PyBool true) then wd' = three_radios
    else state_of wd' 2 = Some (PyBool true) /\
         forall m, m ∈ [0; 1; 2] -> m <> 2 -> holds_True (toggles wd') m = false.
Proof.
  assert (H1 : toggles three_radios !! 2 = Some third_radio)
    by (vm_compute; reflexivity).
  assert (H2 : groups three_radios !! 0 = Some [0; 1; 2])
    by (vm_compute; reflexivity).
  exact (RadioButton_toggle_state_selects three_radios 2 third_radio 0 [0; 1; 2]
           (proj1 (reachable_Inv sample_command_map sample_is_mouse_press
                     three_radios_program))
           H1 eq_refl eq_refl H2).
Defined.


Lemma new_RadioButton_True_selected_witness :
  exists wd',
    new_RadioButton 0 "Maybe" (PyBool true) None PyNone three_radios
    = (Ok (length (toggles three_radios)), wd') /\
    groups wd' !! 0 = Some ([0; 1; 2] ++ [length (toggles three_radios)]) /\
    selected wd' 0 = [length (toggles three_radios)].
Proof.
  assert (H2 : groups three_radios !! 0 = Some [0; 1; 2])
    by (vm_compute; reflexivity).
  exact (new_RadioButton_True_selected three_radios 0 [0; 1; 2] "Maybe" None
           PyNone
           (reachable_Inv sample_command_map sample_is_mouse_press
              three_radios_program)
           H2).
Defined.


Lemma set_state_get_state_witness :
  exists r wd',
    set_state 2 (PyBool true) true three_radios = (r, wd') /\
    match r with
    | Ok _ => exists s, get_state 2 wd' = (Ok s, wd') /\
                        py_eq s (PyBool true) = true
    | Raise e =>
        e = match w third_radio with
            | Some _ => CheckBoxError 2 (PyBool true)
            | None => AttributeError
            end /\
        valid_state (PyBool true) = false /\ wd' = three_radios
    end.
Proof.
  assert (H1 : toggles three_radios !! 2 = Some third_radio)
    by (vm_compute; reflexivity).
  exact (set_state_get_state three_radios 2 third_radio (PyBool true) true
           (proj1 (reachable_Inv sample_command_map sample_is_mouse_press
                     three_radios_program))
           H1).
Defined.

Lemma RadioButton_set_True_signals_witness :
  exists wd' evs,
    Reentrant.set_state Reentrant.observers 2 (PyBool true) false three_radios
    = (Ok tt, wd') /\
    trace wd' = trace three_radios ++ evs /\
    map signal_of evs
    = map Some
        ((if false && negb (is_None (_state third_radio))
          then [(2, PyBool true)] else [])
         ++ map (fun m => (m, PyBool false))
              (filter (fun m => to_clear (toggles three_radios) 2 m = true)
                 [0; 1; 2])).
Proof.
  assert (H1 : toggles three_radios !! 2 = Some third_radio)
    by (vm_compute; reflexivity).
  assert (H2 : groups three_radios !! 0 = Some [0; 1; 2])
    by (vm_compute; reflexivity).
  exact (RadioButton_set_True_signals Reentrant.observers three_radios 2
           third_radio 0 [0; 1; 2] false (fun f emitter state => eq_refl)
           (proj1 (reachable_Inv sample_command_map sample_is_mouse_press
                     three_radios_program))
           H1 eq_refl eq_refl H2 eq_refl).
Defined.

Lemma display_shows_state_witness : w third_radio = display third_radio.
Proof.
  assert (H1 : toggles (Reentrant.run Reentrant.select_first
                          sample_command_map sample_is_mouse_press
                          three_radios_program empty_world) !! 2
               = Some third_radio) by (vm_compute; reflexivity).
  exact (display_shows_state Reentrant.select_first sample_command_map
           sample_is_mouse_press three_radios_program 2 third_radio H1).
Defined.

Lemma controls_keep_class_and_list_witness :
  exists t',
    toggles (Reentrant.run Reentrant.select_first sample_command_map
               sample_is_mouse_press
               [SetState 2 (PyBool true) true; ToggleState 1] three_radios)
      !! 2 = Some t' /\
    klass t' = klass third_radio /\ has_mixed t' = has_mixed third_radio /\
    group t' = group third_radio.
Proof.
  assert (H1 : toggles three_radios !! 2 = Some third_radio)
    by (vm_compute; reflexivity).
  exact (controls_keep_class_and_list Reentrant.select_first sample_command_map
           sample_is_mouse_press
           [SetState 2 (PyBool true) true; ToggleState 1] three_radios 2
           third_radio H1).
Defined.

Lemma CheckBox_label_round_trip_witness :
  exists wd' t',
    set_label 0 "Sure" one_checkbox = (Ok tt, wd') /\
    get_label 0 wd' = (Ok "Sure", wd') /\
    toggles wd' !! 0 = Some t' /\
    _state t' = _state confirm_box /\ w t' = w confirm_box /\
    handlers t' = handlers confirm_box /\
    (forall j, j <> 0 -> toggles wd' !! j = toggles one_checkbox !! j) /\
    built wd' = built one_checkbox /\ trace wd' = trace one_checkbox.
Proof.
  assert (H1 : toggles one_checkbox !! 0 = Some confirm_box)
    by (vm_compute; reflexivity).
  exact (CheckBox_label_round_trip one_checkbox 0 confirm_box "Sure" H1).
Defined.

Lemma Button_label_round_trip_witness :
  exists wd' b',
    Button_set_label 0 "cancel" one_button = (Ok tt, wd') /\
    Button_get_label 0 wd' = (Ok "cancel", wd') /\
    buttons wd' !! 0 = Some b' /\
    button_w b' = Some {| widget_list :=
                            [fixed 1 "<"; fresh_text "cancel"; fixed 1 ">"];
                          dividechars := 1; focus_col := None |} /\
    on_press b' = on_press ok_button /\ user_data b' = user_data ok_button /\
    button_invalidations b' = S (S (button_invalidations ok_button)) /\
    toggles wd' = toggles one_button /\ trace wd' = trace one_button.
Proof.
  assert (H1 : buttons one_button !! 0 = Some ok_button)
    by (vm_compute; reflexivity).
  exact (Button_label_round_trip one_button 0 ok_button "cancel" H1).
Defined.

Lemma new_Button_then_keypress_witness :
  exists wd1 wd2,
    new_Button "ok" (Some 7) (PyStr "u") empty_world
    = (Ok (length (buttons empty_world)), wd1) /\
    trace wd1 = trace empty_world /\
    Button_get_label (length (buttons empty_world)) wd1 = (Ok "ok", wd1) /\
    Button_keypress (length (buttons empty_world)) 10%Z "enter" wd1
    = (Ok None, wd2) /\
    trace wd2
    = trace empty_world ++ [Press 7 (length (buttons empty_world))
                              (if is_None (PyStr "u") then None
                               else Some (PyStr "u"))].
Proof.
  exact (new_Button_then_keypress empty_world "ok" 7 (PyStr "u") 10%Z "enter"
           eq_refl).
Defined.

Lemma Button_mouse_event_handled_witness :
  exists r wd',
    Button_mouse_event sample_is_mouse_press 0 10%Z "mouse press" 1%Z 0%Z 0%Z
      true one_button
    = (Ok r, wd') /\
    (r = true <->
     1%Z = 1%Z /\ sample_is_mouse_press "mouse press" = true /\
     is_Some (on_press ok_button)) /\
    (r = false -> wd' = one_button) /\
    (r = true ->
     exists f, on_press ok_button = Some f /\
               trace wd' = trace one_button ++ [Press f 0 None] /\
               buttons wd' = buttons one_button /\
               toggles wd' = toggles one_button).
Proof.
  assert (H1 : buttons one_button !! 0 = Some ok_button)
    by (vm_compute; reflexivity).
  exact (Button_mouse_event_handled sample_is_mouse_press one_button 0 ok_button
           10%Z "mouse press" 1%Z 0%Z 0%Z true H1).
Defined.

Lemma toggle_state_leaves_unset_witness :
  exists wd' t',
    toggle_times 3 0 unset_checkbox = (Ok tt, wd') /\
    toggles wd' !! 0 = Some t' /\
    _state t' = PyNone /\ w t' = w unset_box /\
    invalidations t' = 3 + invalidations unset_box /\
    built wd' = built unset_checkbox /\ trace wd' = trace unset_checkbox.
Proof.
  assert (H1 : toggles unset_checkbox !! 0 = Some unset_box)
    by (vm_compute; reflexivity).
  exact (toggle_state_leaves_unset 3 unset_checkbox 0 unset_box H1 eq_refl
           eq_refl).
Defined.

Lemma SelectableIcon_cursor_in_focus_witness :
  sample_cursor
    (SelectableIcon_render sample_canvas sample_Text_render
       sample_CompositeCanvas sample_set_cursor {| text := "[X]" |} 4%Z true)
  = SelectableIcon_get_cursor_coords 4%Z /\
  SelectableIcon_render sample_canvas sample_Text_render sample_CompositeCanvas
    sample_set_cursor {| text := "[X]" |} 4%Z false
  = sample_Text_render {| text := "[X]" |} 4%Z false /\
  (forall x y, SelectableIcon_get_cursor_coords 4%Z = Some (x, y) ->
     (x = 1 /\ y = 0 /\ 0 <= x < 4)%Z) /\
  (SelectableIcon_get_cursor_coords 4%Z = None <-> (4 <= 1)%Z) /\
  SelectableIcon_keypress 4%Z "x" = "x".
Proof.
  exact (SelectableIcon_cursor_in_focus sample_canvas sample_Text_render
           sample_CompositeCanvas sample_set_cursor sample_cursor
           (fun x c => eq_refl) {| text := "[X]" |} 4%Z 4%Z "x").
Defined.

Lemma Button_cursor_in_focus_witness :
  ((2 < 10)%Z ->
   sample_cursor
     (Button_render sample_canvas sample_WidgetWrap_render
        sample_CompositeCanvas sample_set_cursor ok_button 10%Z true)
   = Button_get_cursor_coords 10%Z /\
   Button_get_cursor_coords 10%Z = Some (2, 0)%Z) /\
  (true = false \/ (10 <= 2)%Z ->
   Button_render sample_canvas sample_WidgetWrap_render sample_CompositeCanvas
     sample_set_cursor ok_button 10%Z true
   = sample_CompositeCanvas
       (sample_WidgetWrap_render (button_w ok_button) 10%Z true)) /\
  (Button_get_cursor_coords 10%Z = None <-> (10 <= 2)%Z).
Proof.
  exact (Button_cursor_in_focus sample_canvas sample_WidgetWrap_render
           sample_CompositeCanvas sample_set_cursor sample_cursor
           (fun x c => eq_refl) ok_button 10%Z true).
Defined.

Lemma toggle_state_emits_once_witness :
  exists wd' t',
    Methods.toggle_state (Reentrant.set_state Reentrant.observers) 0 one_checkbox
    = (Ok tt, wd') /\
    trace wd'
    = trace one_checkbox
        ++ [Change 0 (cycle_next (has_mixed confirm_box) (_state confirm_box))
              (toggles one_checkbox)] /\
    toggles wd' !! 0 = Some t' /\
    _state t' = cycle_next (has_mixed confirm_box) (_state confirm_box) /\
    invalidations t' = S (S (invalidations confirm_box)) /\
    handlers t' = handlers confirm_box.
Proof.
  assert (H1 : toggles one_checkbox !! 0 = Some confirm_box)
    by (vm_compute; reflexivity).
  exact (toggle_state_emits_once Reentrant.observers one_checkbox 0 confirm_box
           (fun f emitter state => eq_refl) H1 eq_refl (or_introl eq_refl)).
Defined.

Lemma on_state_change_is_connect_signal_witness :
  new_CheckBox "Spam" (PyBool true) false (Some 9) PyNone one_checkbox =
  (self ← new_CheckBox "Spam" (PyBool true) false None PyNone;
   connect_signal self 9 PyNone ;; mret self) one_checkbox.
Proof.
  exact (on_state_change_is_connect_signal one_checkbox "Spam" (PyBool true)
           false 9 PyNone eq_refl).
Defined.

Lemma CheckBox_set_state_has_last_word_witness :
  exists r wd',
    Reentrant.set_state Reentrant.select_first 0 (PyBool false) true
      spam_checkbox = (r, wd') /\
    match r with
    | Ok _ => exists s, state_of wd' 0 = Some s /\ py_eq s (PyBool false) = true
    | Raise _ => True
    end.
Proof.
  assert (H1 : toggles spam_checkbox !! 0 = Some spam_box)
    by (vm_compute; reflexivity).
  exact (CheckBox_set_state_has_last_word Reentrant.select_first spam_checkbox 0
           spam_box (PyBool false) true H1 eq_refl).
Defined.
